(** * picobench: the measurement protocol and the runner

    A shallow embedding of [include/picobench/picobench.hpp] and the
    properties of its iteration protocol, scheduler and report
    aggregation.

    Conventions of the embedding:
    - C++ [int], [int64_t] and [uint64_t] values are integers of [Z]; every
      arithmetic operation of the source is followed by the wrap-around of
      its type (two's complement for the signed types);
    - operations whose behaviour is undefined in the source (dereferencing
      a past-the-end iterator, dividing by zero) end the computation with a
      [Fault];
    - loops that the source does not bound syntactically take a [fuel]
      argument, and the theorems give a fuel that is enough. *)

From Stdlib Require Import ZArith Lia List Permutation Sorted.
From stdpp Require Import base numbers option list strings pretty.

Local Open Scope Z_scope.

(** ** Machine integers *)

Definition wrap_unsigned (bits x : Z) : Z := x mod 2 ^ bits.

Definition wrap_signed (bits x : Z) : Z :=
  (x + 2 ^ (bits - 1)) mod 2 ^ bits - 2 ^ (bits - 1).

Definition int_min : Z := - 2 ^ 31.
Definition int_max : Z := 2 ^ 31 - 1.
Definition int64_min : Z := - 2 ^ 63.
Definition int64_max : Z := 2 ^ 63 - 1.

Definition wrap_int : Z -> Z := wrap_signed 32.
Definition wrap_int64 : Z -> Z := wrap_signed 64.
Definition wrap_uint : Z -> Z := wrap_unsigned 32.
Definition wrap_uint64 : Z -> Z := wrap_unsigned 64.

(** ** Outcomes of a computation *)

Inductive fault : Type :=
  | past_the_end      (* an iterator equal to end() was dereferenced *)
  | null_pointer      (* a null or dangling pointer was dereferenced *)
  | division_by_zero. (* integer division by zero, or INT64_MIN / -1 *)

Inductive outcome (A : Type) : Type :=
  | Done (a : A)
  | Fault (f : fault)
  | OutOfFuel.

Arguments Done {A} a.
Arguments Fault {A} f.
Arguments OutOfFuel {A}.

#[global] Instance outcome_ret : MRet outcome := fun A a => Done a.

#[global] Instance outcome_bind : MBind outcome := fun A B k m =>
  match m with
  | Done a => k a
  | Fault f => Fault f
  | OutOfFuel => OutOfFuel
  end.

Definition from_option {A} (f : fault) (o : option A) : outcome A :=
  match o with
  | Some a => Done a
  | None => Fault f
  end.

(** ** The clock

    [high_res_clock] is an interface with one operation, [now()]; the
    source has three implementations of it, chosen by the preprocessor.
    A [World] is whatever the benchmarked code can change; the clock
    reads a time point, in nanoseconds, off it. *)

Class high_res_clock (World : Type) : Type :=
  high_res_clock_now : World -> Z.

(** The test double of the source: time stands still unless the
    benchmarked code sleeps. *)
Record fake_time : Type := { now : Z (* uint64_t *) }.

#[global] Instance fake_clock : high_res_clock fake_time :=
  fun the_time => wrap_int64 (now the_time).

Definition this_thread_sleep_for_ns (ns : Z) (the_time : fake_time) : fake_time :=
  {| now := wrap_uint64 (now the_time + ns) |}.

(** ** class state *)

Record state : Type := {
  _start : Z;        (* high_res_clock::time_point *)
  _duration_ns : Z;  (* int64_t *)
  _iterations : Z    (* int *)
}.

Definition new_state (num_iterations : Z) : state :=
  {| _start := 0; _duration_ns := 0; _iterations := num_iterations |}.

Definition iterations (s : state) : Z := _iterations s.
Definition duration_ns (s : state) : Z := _duration_ns s.

(** What a benchmark does with its state is observable as a sequence of
    events: the two timer operations, with the time point they read, and
    the executions of the loop body. *)
Inductive event : Type :=
  | timer_started (at_ns : Z)
  | body_run
  | timer_stopped (at_ns : Z).

Section Protocol.

Context {World : Type} {clock : high_res_clock World}.

Definition start_timer (s : state) (w : World) : state * list event :=
  ({| _start := high_res_clock_now w;
      _duration_ns := _duration_ns s;
      _iterations := _iterations s |},
   [timer_started (high_res_clock_now w)]).

Definition stop_timer (s : state) (w : World) : state * list event :=
  ({| _start := _start s;
      _duration_ns := wrap_int64 (high_res_clock_now w - _start s);
      _iterations := _iterations s |},
   [timer_stopped (high_res_clock_now w)]).

(** *** state::iterator

    [_state] is the pointer to the parent state; the only thing the
    iterator does with it is to call [stop_timer] through it, so the
    embedding keeps whether it is null and takes the parent as an
    argument where it is dereferenced. *)
Record iterator : Type := {
  _counter : Z;    (* int *)
  _state : bool    (* false: nullptr *)
}.

Definition iterator_of (parent : state) : iterator :=
  {| _counter := iterations parent; _state := true |}.

Definition iterator_default : iterator :=
  {| _counter := 0; _state := false |}.

(** operator++ *)
Definition iterator_incr (it : iterator) : iterator :=
  {| _counter := wrap_int (_counter it - 1); _state := _state it |}.

(** operator!=, which ignores its right-hand side *)
Definition iterator_neq (it : iterator) (parent : state) (w : World)
  : outcome (bool * state * list event) :=
  if negb (_counter it =? 0) then Done (true, parent, [])
  else if _state it then
    let '(parent', evs) := stop_timer parent w in Done (false, parent', evs)
  else Fault null_pointer.

(** operator* *)
Definition iterator_deref (it : iterator) : Z := 0.

Definition begin (s : state) (w : World) : iterator * state * list event :=
  let '(s', evs) := start_timer s w in (iterator_of s', s', evs).

Definition end_ (s : state) : iterator := iterator_default.

(** [for (auto _ : s) body;], by the expansion of the range-based for:
    [begin()] and [end()] are called once, then the loop tests
    [__begin != __end], runs the body and increments [__begin]. *)
Fixpoint range_for_loop (fuel : nat) (body : World -> World)
    (it : iterator) (s : state) (w : World) (log : list event)
  : outcome (state * World * list event) :=
  match fuel with
  | O => OutOfFuel
  | S fuel' =>
      '(more, s', evs) ← iterator_neq it s w;
      if (more : bool) then
        range_for_loop fuel' body (iterator_incr it) s' (body w)
                       (log ++ evs ++ [body_run])
      else Done (s', w, log ++ evs)
  end.

Definition range_for (fuel : nat) (body : World -> World)
    (s : state) (w : World) : outcome (state * World * list event) :=
  let '(it, s', evs) := begin s w in
  let _end := end_ s' in
  range_for_loop fuel body it s' w evs.

(** *** class scope: manual bracketing of the measured region *)
Definition scope (body : World -> World) (s : state) (w : World)
  : state * World * list event :=
  let '(s1, evs1) := start_timer s w in
  let w' := body w in
  let '(s2, evs2) := stop_timer s1 w' in
  (s2, w', evs1 ++ evs2).

End Protocol.

(** ** std::minstd_rand

    [linear_congruential_engine<uint_fast32_t, 48271, 0, 2147483647>] of
    the C++ standard library.  The width of [uint_fast32_t] differs
    between platforms (32 or 64 bits), and decides what a negative seed
    is converted to, so it is an argument. *)

Definition minstd_modulus : Z := 2147483647.
Definition minstd_multiplier : Z := 48271.

Record minstd_rand : Type := { _x : Z }.

Definition minstd_rand_seed (uint_fast32_bits : Z) (s : Z) : minstd_rand :=
  let v := wrap_unsigned uint_fast32_bits s mod minstd_modulus in
  {| _x := if v =? 0 then 1 else v |}.

(** [rnd()]: the value returned and the engine after the call *)
Definition minstd_rand_next (rnd : minstd_rand) : Z * minstd_rand :=
  let x := (minstd_multiplier * _x rnd) mod minstd_modulus in
  (x, {| _x := x |}).

(** ** class benchmark, class benchmark_impl *)

(** A pointer to a registered benchmark: an index into the objects of
    the registry (see below). *)
Abbreviation pointer := nat.

Section Benchmarks.

Context {World : Type} {clock : high_res_clock World}.

(** The function pointer type of the source: the callable works on the
    state it is handed and on the world; it may fail. *)
Definition benchmark_proc : Type := state -> World -> outcome (state * World).

Record benchmark_impl : Type := {
  _name : string;
  _proc : benchmark_proc;
  _baseline : bool;
  _state_iterations : list Z;  (* std::vector<int> *)
  _samples : Z;                (* int *)
  _states : list state;        (* std::vector<state> *)
  _istate : nat                (* std::vector<state>::iterator, as an index *)
}.

Definition new_benchmark_impl (name : string) (proc : benchmark_proc)
  : benchmark_impl :=
  {| _name := name; _proc := proc; _baseline := false;
     _state_iterations := []; _samples := 0; _states := []; _istate := 0 |}.

Definition name (b : benchmark_impl) : string := _name b.

(** The chained setters of class benchmark. *)
Definition set_iterations (data : list Z) (b : benchmark_impl) : benchmark_impl :=
  {| _name := _name b; _proc := _proc b; _baseline := _baseline b;
     _state_iterations := data; _samples := _samples b;
     _states := _states b; _istate := _istate b |}.

Definition set_samples (n : Z) (b : benchmark_impl) : benchmark_impl :=
  {| _name := _name b; _proc := _proc b; _baseline := _baseline b;
     _state_iterations := _state_iterations b; _samples := n;
     _states := _states b; _istate := _istate b |}.

Definition set_label (label : string) (b : benchmark_impl) : benchmark_impl :=
  {| _name := label; _proc := _proc b; _baseline := _baseline b;
     _state_iterations := _state_iterations b; _samples := _samples b;
     _states := _states b; _istate := _istate b |}.

Definition set_baseline (v : bool) (b : benchmark_impl) : benchmark_impl :=
  {| _name := _name b; _proc := _proc b; _baseline := v;
     _state_iterations := _state_iterations b; _samples := _samples b;
     _states := _states b; _istate := _istate b |}.

(** The two fields the runner alone writes. *)
Definition set_states (states : list state) (istate : nat) (b : benchmark_impl)
  : benchmark_impl :=
  {| _name := _name b; _proc := _proc b; _baseline := _baseline b;
     _state_iterations := _state_iterations b; _samples := _samples b;
     _states := states; _istate := istate |}.

(** The benchmark of the header's EXAMPLE: the whole callable is one
    range-based for over the state.  A loop over a state of [n > 0]
    iterations needs [n + 1] tests of [operator!=]. *)
Definition loop_benchmark (body : World -> World) : benchmark_proc :=
  fun s w =>
    '(s', w', _) ← range_for (S (Z.to_nat (iterations s))) body s w;
    Done (s', w').

(** ** The registry

    The registered [benchmark_impl] objects live on the heap, owned by
    the [unique_ptr]s of the suites; the runner works on raw pointers to
    them.  [_objects] is that part of the heap, and a pointer is an
    index into it.  [_suites] is the [suite_map] in the order in which
    the runner's [for] loops traverse it (an [unordered_map] fixes no
    order); a null suite name is [None]. *)

Record registry : Type := {
  _objects : list benchmark_impl;
  _suites : list (option string * list pointer);
  _current_suite : option string
}.

Definition empty_registry : registry :=
  {| _objects := []; _suites := []; _current_suite := None |}.

Definition set_objects (objs : list benchmark_impl) (reg : registry) : registry :=
  {| _objects := objs; _suites := _suites reg;
     _current_suite := _current_suite reg |}.

(** [suites()[key].emplace_back(b)]; a key that is not in the map yet is
    entered with an empty deque first (here: at the end of the
    traversal order). *)
Fixpoint suite_emplace_back (key : option string) (b : pointer)
    (suites : list (option string * list pointer))
  : list (option string * list pointer) :=
  match suites with
  | [] => [(key, [b])]
  | (k, bs) :: rest =>
      if decide (k = key) then (k, bs ++ [b]) :: rest
      else (k, bs) :: suite_emplace_back key b rest
  end.

(** registry::new_benchmark; the result is the registry and the pointer
    to the new benchmark, on which the caller chains the setters. *)
Definition new_benchmark (name : string) (proc : benchmark_proc)
    (reg : registry) : registry * pointer :=
  let b := length (_objects reg) in
  ({| _objects := _objects reg ++ [new_benchmark_impl name proc];
      _suites := suite_emplace_back (_current_suite reg) b (_suites reg);
      _current_suite := _current_suite reg |}, b).

(** A chained setter applied through the reference [new_benchmark]
    returned. *)
Definition configure (b : pointer) (f : benchmark_impl -> benchmark_impl)
    (reg : registry) : registry :=
  set_objects (alter f b (_objects reg)) reg.

(** ** struct report *)

Record benchmark_problem_space : Type := {
  dimension : Z;      (* int: number of iterations for the problem space *)
  samples : Z;        (* int: number of samples taken *)
  total_time_ns : Z   (* int64_t: average time per sample *)
}.

(** report::benchmark *)
Record report_benchmark : Type := {
  benchmark_name : string;
  is_baseline : bool;
  data : list benchmark_problem_space
}.

(** report::suite *)
Record report_suite : Type := {
  suite_name : option string;
  benchmarks : list report_benchmark
}.

Record report : Type := { suites : list report_suite }.

End Benchmarks.

Arguments benchmark_proc World : clear implicits.
Arguments benchmark_impl World : clear implicits.
Arguments registry World : clear implicits.

(** ** class runner *)

Record runner : Type := {
  _default_state_iterations : list Z;  (* std::vector<int> *)
  _default_samples : Z                 (* int *)
}.

Definition new_runner : runner :=
  {| _default_state_iterations := [8; 64; 512; 4096; 8196];
     _default_samples := 1 |}.

Definition set_default_state_iterations (data : list Z) (r : runner) : runner :=
  {| _default_state_iterations := data; _default_samples := _default_samples r |}.

Definition set_default_samples (n : Z) (r : runner) : runner :=
  {| _default_state_iterations := _default_state_iterations r;
     _default_samples := n |}.

(** One call of a benchmark's callable by the scheduling loop: which
    benchmark, which of its states, and the [iterations()] of that state
    when it was handed over.  The runner does not keep this record; the
    embedding does, to state what was executed and in which order. *)
Record execution : Type := {
  executed_benchmark : pointer;
  executed_state : nat;
  executed_iterations : Z
}.

(** [v.empty()] *)
Definition vector_empty {A} (v : list A) : bool :=
  match v with
  | [] => true
  | _ :: _ => false
  end.

(** [_states.emplace(_states.begin() + index, iters)] *)
Definition emplace {A} (index : nat) (x : A) (l : list A) : list A :=
  take index l ++ x :: drop index l.

Section Runner.

Context {World : Type} {clock : high_res_clock World}.
Variable uint_fast32_bits : Z.

#[local] Abbreviation benchmark_impl := (benchmark_impl World).
#[local] Abbreviation registry := (registry World).

Definition deref (objs : list benchmark_impl) (p : pointer)
  : outcome benchmark_impl :=
  from_option null_pointer (objs !! p).

(** [random_seed] as the constructor of [rnd] receives it;
    [std::random_device()()] returns an [unsigned int], which the
    assignment converts to [int]. *)
Definition effective_seed (random_seed random_device : Z) : Z :=
  if random_seed =? -1 then wrap_int (wrap_uint random_device)
  else random_seed.

(** *** Collecting the benchmarks and identifying the baselines *)

(** The inner loop over one suite: every benchmark is pushed to
    [benchmarks], and [found_baseline] is raised by each one that is
    flagged. *)
Fixpoint scan_suite (objs : list benchmark_impl) (suite : list pointer)
    (benchmarks : list pointer) (found_baseline : bool)
  : outcome (list pointer * bool) :=
  match suite with
  | [] => Done (benchmarks, found_baseline)
  | rb :: rest =>
      b ← deref objs rb;
      scan_suite objs rest (benchmarks ++ [rb])
                 (if _baseline b then true else found_baseline)
  end.

(** [suite.second.front()->_baseline = true], under its guard *)
Definition default_baseline (objs : list benchmark_impl) (suite : list pointer)
    (found_baseline : bool) : outcome (list benchmark_impl) :=
  if negb found_baseline && negb (vector_empty suite) then
    front ← from_option past_the_end (head suite);
    b ← deref objs front;
    Done (<[front := set_baseline true b]> objs)
  else Done objs.

Fixpoint collect_benchmarks (registered_suites : list (option string * list pointer))
    (objs : list benchmark_impl) (benchmarks : list pointer)
  : outcome (list benchmark_impl * list pointer) :=
  match registered_suites with
  | [] => Done (objs, benchmarks)
  | (_, suite) :: rest =>
      '(benchmarks', found_baseline) ← scan_suite objs suite benchmarks false;
      objs' ← default_baseline objs suite found_baseline;
      collect_benchmarks rest objs' benchmarks'
  end.

(** *** Initialising the benchmarks *)

Definition effective_state_iterations (r : runner) (b : benchmark_impl) : list Z :=
  if vector_empty (_state_iterations b) then _default_state_iterations r
  else _state_iterations b.

Definition effective_samples (r : runner) (b : benchmark_impl) : Z :=
  if _samples b =? 0 then _default_samples r else _samples b.

(** The loop [for (int i = 0; i < b->_samples; ++i)], which runs
    [_samples] times, and not at all when [_samples] is negative. *)
Fixpoint emplace_samples (n : nat) (iters : Z) (states : list state)
    (rnd : minstd_rand) : list state * minstd_rand :=
  match n with
  | O => (states, rnd)
  | S n' =>
      let '(x, rnd') := minstd_rand_next rnd in
      let index := Z.to_nat (x mod (Z.of_nat (length states) + 1)) in
      emplace_samples n' iters (emplace index (new_state iters) states) rnd'
  end.

Fixpoint fill_states (state_iterations : list Z) (samples : Z)
    (states : list state) (rnd : minstd_rand) : list state * minstd_rand :=
  match state_iterations with
  | [] => (states, rnd)
  | iters :: rest =>
      let '(states', rnd') :=
        emplace_samples (Z.to_nat samples) iters states rnd in
      fill_states rest samples states' rnd'
  end.

Definition initialize_benchmark (r : runner) (b : benchmark_impl)
    (rnd : minstd_rand) : benchmark_impl * minstd_rand :=
  let state_iterations := effective_state_iterations r b in
  let b1 := set_samples (effective_samples r b) b in
  let '(states, rnd') :=
    fill_states state_iterations (_samples b1) (_states b1) rnd in
  (set_states states 0 b1, rnd').

Fixpoint initialize_benchmarks (r : runner) (benchmarks : list pointer)
    (objs : list benchmark_impl) (rnd : minstd_rand)
  : outcome (list benchmark_impl * minstd_rand) :=
  match benchmarks with
  | [] => Done (objs, rnd)
  | p :: rest =>
      b ← deref objs p;
      let '(b', rnd') := initialize_benchmark r b rnd in
      initialize_benchmarks r rest (<[p := b']> objs) rnd'
  end.

(** *** The scheduling loop *)

Fixpoint schedule (fuel : nat) (benchmarks : list pointer)
    (objs : list benchmark_impl) (rnd : minstd_rand) (w : World)
    (log : list execution)
  : outcome (list benchmark_impl * minstd_rand * World * list execution) :=
  match benchmarks with
  | [] => Done (objs, rnd, w, log)
  | _ :: _ =>
      match fuel with
      | O => OutOfFuel
      | S fuel' =>
          let '(x, rnd') := minstd_rand_next rnd in
          let i := Z.to_nat (x mod Z.of_nat (length benchmarks)) in
          p ← from_option past_the_end (benchmarks !! i);
          b ← deref objs p;
          s ← from_option past_the_end (_states b !! _istate b);
          '(s', w') ← _proc b s w;
          let b' := set_states (<[_istate b := s']> (_states b))
                               (S (_istate b)) b in
          let benchmarks' :=
            if decide (_istate b' = length (_states b'))
            then delete i benchmarks else benchmarks in
          schedule fuel' benchmarks' (<[p := b']> objs) rnd' w'
                   (log ++ [{| executed_benchmark := p;
                               executed_state := _istate b;
                               executed_iterations := iterations s |}])
      end
  end.

(** *** Generating the report *)

(** The body of the two nested loops over the states and the data. *)
Definition accumulate (s : state) (d : benchmark_problem_space)
  : benchmark_problem_space :=
  if iterations s =? dimension d then
    {| dimension := dimension d;
       samples := wrap_int (samples d + 1);
       total_time_ns := wrap_int64 (total_time_ns d + duration_ns s) |}
  else d.

(** [d.total_time_ns /= d.samples]: the division of C++, which truncates
    towards zero. *)
Definition average_out (d : benchmark_problem_space)
  : outcome benchmark_problem_space :=
  if (samples d =? 0)
     || ((total_time_ns d =? int64_min) && (samples d =? -1))
  then Fault division_by_zero
  else Done {| dimension := dimension d;
               samples := samples d;
               total_time_ns := Z.quot (total_time_ns d) (samples d) |}.

Definition report_of_benchmark (r : runner) (b : benchmark_impl)
  : outcome report_benchmark :=
  let state_iterations := effective_state_iterations r b in
  let data0 :=
    map (fun d => {| dimension := d; samples := 0; total_time_ns := 0 |})
        state_iterations in
  let data1 :=
    fold_left (fun data s => map (accumulate s) data) (_states b) data0 in
  data2 ← mapM average_out data1;
  Done {| benchmark_name := _name b;
          is_baseline := _baseline b;
          data := data2 |}.

Definition report_of_suite (r : runner) (objs : list benchmark_impl)
    (suite : option string * list pointer) : outcome report_suite :=
  bs ← mapM (fun p => b ← deref objs p; report_of_benchmark r b) suite.2;
  Done {| suite_name := suite.1; benchmarks := bs |}.

Definition generate_report (r : runner)
    (registered_suites : list (option string * list pointer))
    (objs : list benchmark_impl) : outcome report :=
  ss ← mapM (report_of_suite r objs) registered_suites;
  Done {| suites := ss |}.

(** *** runner::run_benchmarks

    [random_device] is the value [std::random_device()()] would return
    if it were called.  The function is cut at the comments of the
    source: [prepare] is everything before the scheduling loop,
    [execute] everything before the report. *)

Definition prepare (r : runner) (random_seed random_device : Z) (reg : registry)
  : outcome (list benchmark_impl * list pointer * minstd_rand) :=
  let rnd := minstd_rand_seed uint_fast32_bits
               (effective_seed random_seed random_device) in
  '(objs, benchmarks) ← collect_benchmarks (_suites reg) (_objects reg) [];
  '(objs', rnd') ← initialize_benchmarks r benchmarks objs rnd;
  Done (objs', benchmarks, rnd').

Definition execute (fuel : nat) (r : runner) (random_seed random_device : Z)
    (reg : registry) (w : World)
  : outcome (list benchmark_impl * World * list execution) :=
  '(objs, benchmarks, rnd) ← prepare r random_seed random_device reg;
  '(objs', _, w', log) ← schedule fuel benchmarks objs rnd w [];
  Done (objs', w', log).

Definition run_benchmarks (fuel : nat) (r : runner)
    (random_seed random_device : Z) (reg : registry) (w : World)
  : outcome (report * registry * World * list execution) :=
  '(objs, w', log) ← execute fuel r random_seed random_device reg w;
  rpt ← generate_report r (_suites reg) objs;
  Done (rpt, set_objects objs reg, w', log).

End Runner.

(** ** report::to_text

    The output stream is the string written to it.  Floating point is
    not embedded: the quotients the source computes on [double]s are
    kept as expressions, and [fixed] (the text of a [double] under
    [std::fixed] and a [setprecision]) is an argument. *)

Inductive double : Type :=
  | double_of (z : Z)
  | double_lit (numerator denominator : Z)
  | double_div (a b : double)
  | double_mul (a b : double).

(** report::problem_space_benchmark *)
Record problem_space_benchmark : Type := {
  psb_name : string;
  psb_is_baseline : bool;
  psb_total_time_ns : Z  (* int64_t *)
}.

(** [res[dim].push_back(x)] on a [std::map<int, std::vector<...>>],
    which is traversed by ascending key *)
Fixpoint view_push_back (dim : Z) (x : problem_space_benchmark)
    (res : list (Z * list problem_space_benchmark))
  : list (Z * list problem_space_benchmark) :=
  match res with
  | [] => [(dim, [x])]
  | (k, v) :: rest =>
      if dim <? k then (dim, [x]) :: res
      else if dim =? k then (k, v ++ [x]) :: rest
      else (k, v) :: view_push_back dim x rest
  end.

Definition get_problem_space_view (s : report_suite)
  : list (Z * list problem_space_benchmark) :=
  fold_left (fun res bm =>
    fold_left (fun res d =>
      view_push_back (dimension d)
        {| psb_name := benchmark_name bm;
           psb_is_baseline := is_baseline bm;
           psb_total_time_ns := total_time_ns d |} res)
      (data bm) res)
    (benchmarks s) [].

(** [std::setw]: right-aligned in a field of [n] characters *)
Definition setw (n : nat) (text : string) : string :=
  String.concat "" (replicate (n - String.length text)%nat " ") +:+ text.

(** [report::line] *)
Definition line : string :=
  String.concat "" (replicate 80 "_") +:+ String (Ascii.ascii_of_nat 10) "".

Definition endl : string := String (Ascii.ascii_of_nat 10) "".

(** The position of the first element flagged as baseline, for the
    pointer [baseline] of the source. *)
Fixpoint find_baseline (bms : list problem_space_benchmark) : option nat :=
  match bms with
  | [] => None
  | bm :: rest =>
      if psb_is_baseline bm then Some O else S <$> find_baseline rest
  end.

Section ToText.

Variable fixed : nat -> double -> string.

(** One row of the table; [j] is the position of [bm] in its problem
    space and [baseline] that of the baseline. *)
Definition to_text_row (dim : Z) (bms : list problem_space_benchmark)
    (baseline : option nat) (j : nat) (bm : problem_space_benchmark)
  : outcome string :=
  let label :=
    if psb_is_baseline bm then setw 23 (psb_name bm) +:+ " *"
    else setw 25 (psb_name bm) in
  ns_per_op ←
    (if (dim =? 0) || ((psb_total_time_ns bm =? int64_min) && (dim =? -1))
     then Fault division_by_zero
     else Done (Z.quot (psb_total_time_ns bm) dim));
  let ratio :=
    match baseline with
    | Some k =>
        if decide (k = j) then "      - |"
        else
          match bms !! k with
          | Some base =>
              setw 7 (fixed 3 (double_div (double_of (psb_total_time_ns bm))
                                          (double_of (psb_total_time_ns base))))
              +:+ " |"
          | None => "    ??? |"
          end
    | None => "    ??? |"
    end in
  let ops_per_sec :=
    double_mul (double_of dim)
      (double_div (double_lit 1000000000 1) (double_of (psb_total_time_ns bm))) in
  Done (label +:+ " |"
        +:+ setw 8 (pretty dim) +:+ " |"
        +:+ setw 10 (fixed 3 (double_div (double_of (psb_total_time_ns bm))
                                         (double_lit 1000000 1))) +:+ " |"
        +:+ setw 8 (pretty ns_per_op) +:+ " |"
        +:+ ratio
        +:+ setw 11 (fixed 1 ops_per_sec) +:+ endl).

Definition to_text_problem_space (ps : Z * list problem_space_benchmark)
  : outcome string :=
  let baseline := find_baseline ps.2 in
  rows ← mapM (fun jbm => to_text_row ps.1 ps.2 baseline jbm.1 jbm.2)
              (imap pair ps.2);
  Done (String.concat "" rows).

Definition to_text_suite (s : report_suite) : outcome string :=
  let title :=
    match suite_name s with
    | Some n => n +:+ ":" +:+ endl
    | None => ""
    end in
  let header :=
    "   Name (baseline is *)   |   Dim   |  Total ms |  ns/op  |Baseline| Ops/second"
    +:+ endl in
  tables ← mapM to_text_problem_space (get_problem_space_view s);
  Done (title +:+ line +:+ header +:+ line
        +:+ String.concat "" tables +:+ line).

Definition to_text (rpt : report) : outcome string :=
  texts ← mapM to_text_suite (suites rpt);
  Done (String.concat "" texts).

End ToText.

(** ** The vocabulary of the specification *)

(** The residue class of the positions: [hits k pos] is the number of
    values [x] the engine can return, [1 <= x <= 2147483646], with
    [x mod k = pos]; they are [pos + k * j] for [j] from [first_hit pos]
    on. *)
Definition first_hit (pos : Z) : Z := if pos =? 0 then 1 else 0.

Definition hits (k pos : Z) : Z :=
  (minstd_modulus - 1 - pos) / k + 1 - first_hit pos.

(** The states the engine can be in: [1 .. 2147483646]; these are also
    the values it can return. *)
Definition minstd_rand_range (x : Z) : Prop := 1 <= x <= minstd_modulus - 1.

(** The engine after [n] calls. *)
Definition minstd_rand_discard (n : nat) (rnd : minstd_rand) : minstd_rand :=
  Nat.iter n (fun rnd => (minstd_rand_next rnd).2) rnd.

(** The position a value [x] of the engine selects in a vector of [size]
    states: [rnd() % (_states.size() + 1)]. *)
Definition position (x : Z) (size : nat) : nat :=
  Z.to_nat (x mod (Z.of_nat size + 1)).

(** The position of the new state number [k] (from 0) of a benchmark
    whose vector held [size] states when the engine was [rnd]: the
    vector holds [size + k] states by then, and the engine has been
    called [k] times. *)
Definition drawn_position (rnd : minstd_rand) (size k : nat) : nat :=
  position (minstd_rand_next (minstd_rand_discard k rnd)).1 (size + k).

(** New states emplaced one after the other, each at its position. *)
Definition emplace_each (positions : list nat) (news states : list state)
  : list state :=
  fold_left (fun states (at_ : nat * state) => emplace at_.1 at_.2 states)
            (zip positions news) states.

(** [n] is the number of values of the engine that select the position
    [pos] in a vector of [size] states. *)
Definition drawn_by (size pos : nat) (n : Z) : Prop :=
  exists values : list Z,
    NoDup values /\ Z.of_nat (length values) = n /\
    forall x, x ∈ values <-> minstd_rand_range x /\ position x size = pos.

(** The two components of an execution unit the specification names. *)
Definition unit_of (e : execution) : pointer * Z :=
  (executed_benchmark e, executed_iterations e).

Section Vocabulary.

Context {World : Type} {clock : high_res_clock World}.

#[local] Abbreviation benchmark_impl := (benchmark_impl World).
#[local] Abbreviation registry := (registry World).

(** The pointers of all registered benchmarks, in the order of the
    vector [benchmarks] of the runner. *)
Definition registered (reg : registry) : list pointer :=
  concat (snd <$> _suites reg).

(** What the ownership by [unique_ptr] gives: the registered pointers
    are pairwise different and point to live objects. *)
Definition registry_wf (reg : registry) : Prop :=
  NoDup (registered reg) /\
  Forall (fun p => (p < length (_objects reg))%nat) (registered reg).

(** No benchmark carries states of an earlier run. *)
Definition fresh (reg : registry) : Prop :=
  Forall (fun b : benchmark_impl => _states b = []) (_objects reg).

Definition flagged (objs : list benchmark_impl) (p : pointer) : bool :=
  match objs !! p with
  | Some b => _baseline b
  | None => false
  end.

Definition count_baselines (objs : list benchmark_impl) (suite : list pointer)
  : nat :=
  length (filter (fun p => flagged objs p = true) suite).

(** The states one call of [run_benchmarks] generates for a benchmark:
    the effective sample count for each effective workload size. *)
Definition generated (r : runner) (b : benchmark_impl) : list state :=
  flat_map (fun iters =>
              replicate (Z.to_nat (effective_samples r b)) (new_state iters))
           (effective_state_iterations r b).

(** The callable returns on every state of [n] iterations. *)
Definition runs_on (proc : benchmark_proc World) (n : Z) : Prop :=
  forall s w, iterations s = n -> exists s' w', proc s w = Done (s', w').

(** The callable leaves the iteration count of its state alone. *)
Definition keeps_iterations (proc : benchmark_proc World) : Prop :=
  forall s w s' w', proc s w = Done (s', w') -> iterations s' = iterations s.

(** [s'] is what the callable made of [s], in some world. *)
Definition ran (proc : benchmark_proc World) (s s' : state) : Prop :=
  exists w w', proc s w = Done (s', w').

(** The scheduling loop can run the benchmark: it gets at least one
    state, and its callable returns on each of its states. *)
Definition runnable (r : runner) (b : benchmark_impl) : Prop :=
  0 < effective_samples r b /\
  effective_state_iterations r b <> [] /\
  Forall (fun s => runs_on (_proc b) (iterations s))
         (_states b ++ generated r b).

(** The report can account for the benchmark: the callable keeps the
    iteration counts, and the samples can be counted in an [int]. *)
Definition accountable (r : runner) (b : benchmark_impl) : Prop :=
  keeps_iterations (_proc b) /\
  Z.of_nat (length (_states b ++ generated r b)) <= int_max.

Definition every_registered (P : benchmark_impl -> Prop) (reg : registry)
  : Prop :=
  Forall (fun p => forall b, _objects reg !! p = Some b -> P b)
         (registered reg).

(** The number of calls the scheduling loop has to make. *)
Definition workload (r : runner) (reg : registry) : nat :=
  sum_list_with
    (fun p => match _objects reg !! p with
              | Some b => length (_states b ++ generated r b)
              | None => O
              end)
    (registered reg).

(** The number of states the cursor [_istate] of a benchmark still has
    before it. *)
Definition pending (objs : list benchmark_impl) (p : pointer) : nat :=
  match objs !! p with
  | Some b => length (_states b) - _istate b
  | None => O
  end.

(** What the scheduling loop reads of a benchmark: the cursor, the
    number of states, and the iteration counts from the cursor on. *)
Definition plan (b : benchmark_impl) : nat * nat * list Z :=
  (_istate b, length (_states b), drop (_istate b) (iterations <$> _states b)).

(** The calls of benchmark [p] in a log, and the calls that run the
    states of [p] one after the other, each once. *)
Definition executions_by (p : pointer) (log : list execution) : list execution :=
  filter (fun e => executed_benchmark e = p) log.

Definition executions_of (p : pointer) (first : nat) (states : list state)
  : list execution :=
  imap (fun i s => {| executed_benchmark := p;
                      executed_state := first + i;
                      executed_iterations := iterations s |}) states.

(** The states of one workload size, and the entry of the report for
    them. *)
Definition group (dim : Z) (states : list state) : list state :=
  filter (fun s => iterations s = dim) states.

Definition sum_durations (states : list state) : Z :=
  foldr (fun s acc => duration_ns s + acc) 0 states.

Definition summary (states : list state) (dim : Z) : benchmark_problem_space :=
  {| dimension := dim;
     samples := Z.of_nat (length (group dim states));
     total_time_ns :=
       Z.quot (wrap_int64 (sum_durations (group dim states)))
              (Z.of_nat (length (group dim states))) |}.

Definition report_entry (r : runner) (b : benchmark_impl) : report_benchmark :=
  {| benchmark_name := _name b;
     is_baseline := _baseline b;
     data := summary (_states b) <$> effective_state_iterations r b |}.

(** The report that belongs to the objects of a registry: suite by
    suite and benchmark by benchmark, the entry of each benchmark. *)
Definition reports (r : runner) (objs : list benchmark_impl)
    (registered_suites : list (option string * list pointer)) (rpt : report)
  : Prop :=
  Forall2 (fun (suite : option string * list pointer) (rs : report_suite) =>
             suite_name rs = suite.1 /\
             Forall2 (fun p rb => exists b, objs !! p = Some b /\
                                            rb = report_entry r b)
                     suite.2 (benchmarks rs))
          registered_suites (suites rpt).

(** The benchmark registered at position [j] of suite [i], and its
    entry in a report. *)
Definition registry_lookup (reg : registry) (i j : nat) : option pointer :=
  match _suites reg !! i with
  | Some suite => suite.2 !! j
  | None => None
  end.

Definition report_lookup (rpt : report) (i j : nat) : option report_benchmark :=
  match suites rpt !! i with
  | Some rs => benchmarks rs !! j
  | None => None
  end.

(** The number of positions at which a workload size is configured. *)
Definition multiplicity (dim : Z) (state_iterations : list Z) : nat :=
  length (filter (fun d => d = dim) state_iterations).

(** What a caller can compare of the result of a run: the report, the
    world, and the sequence of the executed units. *)
Definition observe
    (o : outcome (report * registry * World * list execution))
  : option (report * World * list (pointer * Z)) :=
  match o with
  | Done (rpt, _, w, log) => Some (rpt, w, unit_of <$> log)
  | _ => None
  end.

(** The number of baselines of each suite after the resolution. *)
Definition baselines_after (reg : registry) : option (list nat) :=
  match collect_benchmarks (_suites reg) (_objects reg) [] with
  | Done (objs, _) =>
      Some ((fun suite : option string * list pointer =>
               count_baselines objs suite.2) <$> _suites reg)
  | _ => None
  end.

(** The calls of a log, made one after the other: every entry calls the
    callable of its benchmark on the state at its index, in the world
    the call before has left, stores the state the callable has worked
    on and moves the cursor behind it. *)
Fixpoint replay (log : list execution) (objs : list benchmark_impl) (w : World)
  : outcome (list benchmark_impl * World) :=
  match log with
  | [] => Done (objs, w)
  | e :: rest =>
      b ← deref objs (executed_benchmark e);
      s ← from_option past_the_end (_states b !! executed_state e);
      '(s', w') ← _proc b s w;
      replay rest
        (<[executed_benchmark e :=
             set_states (<[executed_state e := s']> (_states b))
                        (S (executed_state e)) b]> objs)
        w'
  end.

(** The number of values the engine is asked for while the benchmarks
    [benchmarks] are initialised: one for each generated state. *)
Definition drawn (r : runner) (objs : list benchmark_impl)
    (benchmarks : list pointer) : nat :=
  sum_list_with
    (fun p => match objs !! p with
              | Some b => length (generated r b)
              | None => O
              end)
    benchmarks.

(** The benchmark whose loop body is a sleep of [k] nanoseconds on the
    fake clock. *)
Definition sleeper (k : Z) : benchmark_proc fake_time :=
  loop_benchmark (this_thread_sleep_for_ns k).

End Vocabulary.

(** ** report::to_text_concise, report::to_csv *)

(** The sums of the loops over [data]: [total_time += d.total_time_ns]
    on an [int64_t] and [total_iterations += d.dimension] on an [int]. *)
Definition sum_total_time (data : list benchmark_problem_space) : Z :=
  fold_left (fun total_time d => wrap_int64 (total_time + total_time_ns d)) data 0.

Definition sum_dimension (data : list benchmark_problem_space) : Z :=
  fold_left (fun total_iterations d => wrap_int (total_iterations + dimension d))
            data 0.

(** The division of an [int64_t] by an [int]. *)
Definition int64_div (a b : Z) : outcome Z :=
  if (b =? 0) || ((a =? int64_min) && (b =? -1)) then Fault division_by_zero
  else Done (Z.quot a b).

(** The position of the first benchmark flagged as baseline, for the
    pointer [baseline] of [to_text_concise]. *)
Fixpoint find_baseline_benchmark (bms : list report_benchmark) : option nat :=
  match bms with
  | [] => None
  | bm :: rest =>
      if is_baseline bm then Some O else S <$> find_baseline_benchmark rest
  end.

Section ToTextConcise.

Variable fixed : nat -> double -> string.

(** One row; [j] is the position of [bm] in the suite and [baseline]
    that of the baseline. *)
Definition to_text_concise_row (baseline : nat) (baseline_ns_per_op : Z)
    (j : nat) (bm : report_benchmark) : outcome string :=
  let label :=
    if is_baseline bm then setw 23 (benchmark_name bm) +:+ " *"
    else setw 25 (benchmark_name bm) in
  let total_time := sum_total_time (data bm) in
  let total_iterations := sum_dimension (data bm) in
  ns_per_op ← int64_div total_time total_iterations;
  let ratio :=
    if decide (j = baseline) then "        - |"
    else setw 9 (fixed 3 (double_div (double_of ns_per_op)
                                     (double_of baseline_ns_per_op))) +:+ " |" in
  let ops_per_sec :=
    double_mul (double_of total_iterations)
      (double_div (double_lit 1000000000 1) (double_of total_time)) in
  Done (label +:+ " |" +:+ setw 8 (pretty ns_per_op) +:+ " |"
        +:+ ratio +:+ setw 12 (fixed 1 ops_per_sec) +:+ endl).

(** The source asserts [baseline] in debug builds only; the loop over
    [baseline->data] dereferences it. *)
Definition to_text_concise_suite (s : report_suite) : outcome string :=
  let title :=
    match suite_name s with
    | Some n => n +:+ ":" +:+ endl
    | None => ""
    end in
  let header :=
    "   Name (baseline is *)   |  ns/op  | Baseline |  Ops/second" +:+ endl in
  baseline ← from_option null_pointer (find_baseline_benchmark (benchmarks s));
  base ← from_option null_pointer (benchmarks s !! baseline);
  baseline_ns_per_op ←
    int64_div (sum_total_time (data base)) (sum_dimension (data base));
  rows ← mapM (fun jbm => to_text_concise_row baseline baseline_ns_per_op
                                              jbm.1 jbm.2)
              (imap pair (benchmarks s));
  Done (title +:+ line +:+ header +:+ line +:+ String.concat "" rows +:+ line).

Definition to_text_concise (rpt : report) : outcome string :=
  texts ← mapM to_text_concise_suite (suites rpt);
  Done (String.concat "" texts).

End ToTextConcise.

(** The body of [to_csv] is empty. *)
Definition to_csv (rpt : report) : string := "".

(** ** main, of PICOBENCH_IMPLEMENT_MAIN

    A default runner, a run with the default seed, and the two text
    views on [std::cout]. *)
Definition main {World : Type} {clock : high_res_clock World}
    (uint_fast32_bits : Z) (fixed : nat -> double -> string) (fuel : nat)
    (random_device : Z) (reg : registry World) (w : World)
  : outcome (string * registry World * World) :=
  '(rpt, reg', w', _) ←
    run_benchmarks uint_fast32_bits fuel new_runner (-1) random_device reg w;
  detailed ← to_text fixed rpt;
  concise ← to_text_concise fixed rpt;
  Done (detailed +:+ concise, reg', w').

(** ** high_res_clock::now of the Windows build

    [(t.QuadPart * rep(period::den)) / high_res_clock_freq], on
    [long long]s; [ticks] is what [QueryPerformanceCounter] returns and
    [period::den] is that of [std::nano]. *)
Definition windows_now (high_res_clock_freq ticks : Z) : outcome Z :=
  int64_div (wrap_int64 (ticks * 1000000000)) high_res_clock_freq.

(** ** More vocabulary *)

(** The deque of a suite, by its key. *)
Fixpoint suite_lookup (key : option string)
    (suites : list (option string * list pointer)) : option (list pointer) :=
  match suites with
  | [] => None
  | (k, bs) :: rest =>
      if decide (k = key) then Some bs else suite_lookup key rest
  end.

(** What registration keeps true of the registry: the registered
    pointers are pairwise different and live, every object is
    registered, every suite has its own key and at least one
    benchmark. *)
Definition registration_invariant {World : Type} (reg : registry World) : Prop :=
  registry_wf reg /\
  (forall p, (p < length (_objects reg))%nat -> p ∈ registered reg) /\
  NoDup (fst <$> _suites reg) /\
  Forall (fun suite : option string * list pointer => suite.2 <> [])
         (_suites reg).

(** An entry the text views can divide by. *)
Definition divisible (total dim : Z) : Prop :=
  dim <> 0 /\ ~ (total = int64_min /\ dim = -1).

Definition renderable (d : benchmark_problem_space) : Prop :=
  divisible (total_time_ns d) (dimension d).

Definition renderable_concise (bm : report_benchmark) : Prop :=
  divisible (sum_total_time (data bm)) (sum_dimension (data bm)).

(** All data entries of a suite, in the order in which
    [get_problem_space_view] files them. *)
Definition suite_entries (s : report_suite)
  : list (Z * problem_space_benchmark) :=
  flat_map (fun bm =>
              (fun d => (dimension d,
                         {| psb_name := benchmark_name bm;
                            psb_is_baseline := is_baseline bm;
                            psb_total_time_ns := total_time_ns d |}))
                <$> data bm)
           (benchmarks s).

(** The entries filed under a key. *)
Definition filed_under (k : Z) (entries : list (Z * problem_space_benchmark))
  : list problem_space_benchmark :=
  snd <$> filter (fun e => e.1 = k) entries.

(** The workload sizes of a benchmark are positive and their sum is an
    [int]. *)
Definition sizes_positive {World : Type} (r : runner) (b : benchmark_impl World)
  : Prop :=
  Forall (fun dim => 0 < dim) (effective_state_iterations r b) /\
  foldr Z.add 0 (effective_state_iterations r b) <= int_max.

(** A report with a suite that has no baseline, and one with a workload
    size 0. *)
Definition report_without_baseline : report :=
  {| suites :=
       [{| suite_name := None;
           benchmarks :=
             [{| benchmark_name := "A"; is_baseline := false;
                 data := [{| dimension := 10; samples := 1;
                             total_time_ns := 1000 |}] |}] |}] |}.

Definition report_with_size_zero : report :=
  {| suites :=
       [{| suite_name := Some "S";
           benchmarks :=
             [{| benchmark_name := "A"; is_baseline := true;
                 data := [{| dimension := 10; samples := 1;
                             total_time_ns := 1000 |};
                          {| dimension := 0; samples := 1;
                             total_time_ns := 0 |}] |}] |}] |}.

(** ** Example registries, on the fake clock *)

(** The scenario of the specification: one suite with the benchmarks A,
    flagged as baseline, and B; both run the workload size 10 once, A
    with a body of 100 ns and B with one of 300 ns. *)
Definition scenario : registry fake_time :=
  let '(reg1, a) := new_benchmark "A" (sleeper 100) empty_registry in
  let reg1 :=
    configure a (fun b => set_baseline true
                            (set_samples 1 (set_iterations [10] b))) reg1 in
  let '(reg2, b) := new_benchmark "B" (sleeper 300) reg1 in
  configure b (fun b => set_samples 1 (set_iterations [10] b)) reg2.

(** Two benchmarks with several states each: A runs the sizes 10 and 20
    twice each, B the size 10 three times. *)
Definition several_states : registry fake_time :=
  let '(reg1, a) := new_benchmark "A" (sleeper 100) empty_registry in
  let reg1 :=
    configure a (fun b => set_samples 2 (set_iterations [10; 20] b)) reg1 in
  let '(reg2, b) := new_benchmark "B" (sleeper 300) reg1 in
  configure b (fun b => set_samples 3 (set_iterations [10] b)) reg2.

(** The same two benchmarks, both flagged as baseline by the user. *)
Definition two_baselines : registry fake_time :=
  configure 1%nat (set_baseline true) scenario.

(** The same two benchmarks, none flagged. *)
Definition no_baseline : registry fake_time :=
  configure O (set_baseline false) scenario.

(** The scenario with a negative sample count for B. *)
Definition negative_samples : registry fake_time :=
  configure 1%nat (set_samples (-1)) scenario.

(** One benchmark whose list of workload sizes has the size 4 twice,
    with three samples. *)
Definition repeated_size : registry fake_time :=
  let '(reg1, a) := new_benchmark "A" (sleeper 100) empty_registry in
  configure a (fun b => set_samples 3 (set_iterations [4; 4] b)) reg1.

(** * Properties *)

(** ** Machine integers *)

Lemma wrap_signed_small (bits x : Z) :
  0 < bits -> - 2 ^ (bits - 1) <= x < 2 ^ (bits - 1) -> wrap_signed bits x = x.
Proof.
  intros Hbits Hx. unfold wrap_signed.
  assert (H2 : 2 ^ bits = 2 * 2 ^ (bits - 1)).
  { rewrite <- Z.pow_succ_r by lia. f_equal. lia. }
  rewrite Z.mod_small by lia. lia.
Qed.

Lemma wrap_int_small (x : Z) : int_min <= x <= int_max -> wrap_int x = x.
Proof.
  unfold int_min, int_max, wrap_int. intros H.
  apply wrap_signed_small; [lia|]. simpl. lia.
Qed.

Lemma wrap_int64_small (x : Z) : int64_min <= x <= int64_max -> wrap_int64 x = x.
Proof.
  unfold int64_min, int64_max, wrap_int64. intros H.
  apply wrap_signed_small; [lia|]. simpl. lia.
Qed.

(** Wrapping depends on the value modulo [2 ^ bits] only. *)
Lemma wrap_signed_congr (bits x y : Z) :
  x mod 2 ^ bits = y mod 2 ^ bits -> wrap_signed bits x = wrap_signed bits y.
Proof.
  intros H. unfold wrap_signed.
  rewrite (Zplus_mod x), (Zplus_mod y), H. reflexivity.
Qed.

Lemma wrap_signed_mod (bits x : Z) :
  0 <= bits -> wrap_signed bits x mod 2 ^ bits = x mod 2 ^ bits.
Proof.
  intros Hbits. unfold wrap_signed.
  assert (Hpos : 2 ^ bits <> 0) by (apply Z.pow_nonzero; lia).
  rewrite Zminus_mod, Zmod_mod, <- Zminus_mod.
  f_equal. lia.
Qed.

Lemma wrap_int64_add (x y : Z) :
  wrap_int64 (wrap_int64 x + y) = wrap_int64 (x + y).
Proof.
  unfold wrap_int64. apply wrap_signed_congr.
  rewrite Zplus_mod, wrap_signed_mod, <- Zplus_mod by lia. reflexivity.
Qed.

Lemma wrap_int64_sub (x y : Z) :
  wrap_int64 (wrap_int64 x - wrap_int64 y) = wrap_int64 (x - y).
Proof.
  unfold wrap_int64. apply wrap_signed_congr.
  rewrite Zminus_mod, !wrap_signed_mod, <- Zminus_mod by lia.
  reflexivity.
Qed.

Lemma wrap_int64_unsigned (x : Z) : wrap_int64 (wrap_uint64 x) = wrap_int64 x.
Proof.
  unfold wrap_int64. apply wrap_signed_congr. unfold wrap_uint64, wrap_unsigned.
  apply Zmod_mod.
Qed.

(** ** The outcome monad *)

Lemma bind_Done {A B} (m : outcome A) (k : A -> outcome B) (b : B) :
  m ≫= k = Done b -> exists a, m = Done a /\ k a = Done b.
Proof. destruct m; simpl; intros H; try discriminate. eauto. Qed.

Lemma mapM_Done {A B} (f : A -> outcome B) (l : list A) (k : list B) :
  Forall2 (fun x y => f x = Done y) l k -> mapM f l = Done k.
Proof.
  induction 1 as [|x y l k Hxy _ IH]; simpl; [reflexivity|].
  rewrite Hxy. simpl. rewrite IH. reflexivity.
Qed.

Lemma mapM_cons_Done {A B} (f : A -> outcome B) (x : A) (l : list A)
    (y : B) (k : list B) :
  f x = Done y -> mapM f l = Done k -> mapM f (x :: l) = Done (y :: k).
Proof. intros Hx Hl. simpl. rewrite Hx. simpl. rewrite Hl. reflexivity. Qed.

(** ** The iteration protocol *)

Section ProtocolFacts.

Context {World : Type} {clock : high_res_clock World}.

Implicit Types (body : World -> World) (s : state) (w : World).

(** The loop proper: from a counter [n] it runs the body [n] times and
    then stops the timer. *)
Lemma range_for_loop_counts body (n : nat) :
  forall (fuel : nat) (it : iterator) s w (log : list event),
    _counter it = Z.of_nat n -> Z.of_nat n <= int_max -> _state it = true ->
    (n < fuel)%nat ->
    range_for_loop fuel body it s w log =
      Done ((stop_timer s (Nat.iter n body w)).1, Nat.iter n body w,
            log ++ replicate n body_run
                ++ [timer_stopped (high_res_clock_now (Nat.iter n body w))]).
Proof.
  induction n as [|n IH]; intros fuel it s w log Hc Hmax Hst Hfuel;
    (destruct fuel as [|fuel]; [lia|]).
  - simpl. unfold iterator_neq. rewrite Hc, Hst. reflexivity.
  - cbn [range_for_loop]. unfold iterator_neq.
    replace (_counter it =? 0) with false by (symmetry; apply Z.eqb_neq; lia).
    cbn [negb mbind outcome_bind].
    rewrite (IH fuel); [| | lia | assumption | lia].
    + rewrite <- Nat.iter_succ_r. cbn [replicate app].
      rewrite <- !app_assoc. reflexivity.
    + cbn [iterator_incr _counter]. rewrite Hc.
      rewrite wrap_int_small; [lia | unfold int_min; lia].
Qed.

Lemma range_for_runs body s w (fuel : nat) :
  0 <= iterations s <= int_max -> (Z.to_nat (iterations s) < fuel)%nat ->
  let n := Z.to_nat (iterations s) in
  let w' := Nat.iter n body w in
  range_for fuel body s w =
    Done ({| _start := high_res_clock_now w;
             _duration_ns :=
               wrap_int64 (high_res_clock_now w' - high_res_clock_now w);
             _iterations := iterations s |},
          w',
          timer_started (high_res_clock_now w) :: replicate n body_run
            ++ [timer_stopped (high_res_clock_now w')]).
Proof.
  intros Hn Hfuel n w'. unfold range_for, begin, start_timer.
  rewrite (range_for_loop_counts body n); try assumption; try reflexivity.
  - subst n. unfold iterations in *. cbn. lia.
  - subst n. lia.
Qed.

Lemma loop_benchmark_runs body s w :
  0 <= iterations s <= int_max ->
  let w' := Nat.iter (Z.to_nat (iterations s)) body w in
  loop_benchmark body s w =
    Done ({| _start := high_res_clock_now w;
             _duration_ns :=
               wrap_int64 (high_res_clock_now w' - high_res_clock_now w);
             _iterations := iterations s |}, w').
Proof.
  intros Hn w'. unfold loop_benchmark.
  rewrite range_for_runs by (try assumption; lia). reflexivity.
Qed.

Lemma loop_benchmark_runs_on body (n : Z) :
  0 <= n <= int_max -> runs_on (loop_benchmark body) n.
Proof.
  intros Hn s w Hs. rewrite loop_benchmark_runs by (rewrite Hs; exact Hn).
  eauto.
Qed.

Lemma loop_benchmark_keeps_iterations body :
  keeps_iterations (loop_benchmark (World := World) body).
Proof.
  intros s w s' w' H. unfold loop_benchmark in H.
  apply bind_Done in H as ([[s1 w1] evs] & Hrun & Hret).
  injection Hret as <- <-.
  unfold range_for, begin, start_timer in Hrun.
  set (s0 := {| _start := high_res_clock_now w;
                _duration_ns := _duration_ns s;
                _iterations := _iterations s |}) in Hrun.
  change (iterations s) with (iterations s0).
  generalize dependent (iterator_of s0).
  generalize [timer_started (high_res_clock_now w)] as log.
  generalize (S (Z.to_nat (iterations s))) as fuel.
  generalize s0 as s2. generalize w as w2.
  intros w2 s2 fuel. revert w2 s2.
  induction fuel as [|fuel IH]; intros w2 s2 log it Hrun; [discriminate|].
  cbn [range_for_loop] in Hrun. unfold iterator_neq in Hrun.
  destruct (negb (_counter it =? 0)).
  - cbn in Hrun. apply IH in Hrun. exact Hrun.
  - destruct (_state it); [|discriminate].
    cbn in Hrun. injection Hrun as <- _ _. reflexivity.
Qed.

(** The scoped helper measures the advance of the clock over its body. *)
Lemma scope_measures body s w :
  scope body s w =
    ({| _start := high_res_clock_now w;
        _duration_ns :=
          wrap_int64 (high_res_clock_now (body w) - high_res_clock_now w);
        _iterations := iterations s |},
     body w,
     [timer_started (high_res_clock_now w);
      timer_stopped (high_res_clock_now (body w))]).
Proof. reflexivity. Qed.

End ProtocolFacts.

(** ** The fake clock *)

Lemma fake_clock_sleeps (k : Z) (n : nat) (t : fake_time) :
  high_res_clock_now (Nat.iter n (this_thread_sleep_for_ns k) t) =
    wrap_int64 (now t + Z.of_nat n * k).
Proof.
  unfold high_res_clock_now, fake_clock.
  induction n as [|n IH].
  - simpl. f_equal. lia.
  - rewrite Nat.iter_succ. cbn [this_thread_sleep_for_ns now].
    rewrite wrap_int64_unsigned.
    rewrite <- (wrap_int64_add (now (Nat.iter n _ t)) k), IH, wrap_int64_add.
    f_equal. lia.
Qed.

Lemma sleeper_measures (k : Z) (s s' : state) :
  0 <= iterations s <= int_max ->
  ran (sleeper k) s s' ->
  iterations s' = iterations s /\
  duration_ns s' = wrap_int64 (k * iterations s).
Proof.
  intros Hn (w & w' & Hrun). unfold sleeper in Hrun.
  rewrite loop_benchmark_runs in Hrun by assumption.
  injection Hrun as <- _. split; [reflexivity|].
  cbn [duration_ns _duration_ns].
  rewrite fake_clock_sleeps. unfold high_res_clock_now, fake_clock.
  rewrite wrap_int64_sub. f_equal. rewrite Z2Nat.id by lia. lia.
Qed.

(** ** The runner *)

Section RunnerFacts.

Context {World : Type} {clock : high_res_clock World}.
Variable uint_fast32_bits : Z.

#[local] Abbreviation benchmark_impl := (benchmark_impl World).
#[local] Abbreviation registry := (registry World).

Implicit Types (objs : list benchmark_impl) (b : benchmark_impl)
  (p : pointer) (r : runner) (rnd : minstd_rand) (reg : registry).

Lemma deref_live objs p :
  (p < length objs)%nat -> exists b, objs !! p = Some b /\ deref objs p = Done b.
Proof.
  intros H. destruct (lookup_lt_is_Some_2 objs p H) as [b Hb].
  exists b. unfold deref. rewrite Hb. auto.
Qed.

(** *** Registration keeps the registry well-formed *)

Lemma suite_emplace_back_registered (key : option string) p
    (suites : list (option string * list pointer)) :
  concat (snd <$> suite_emplace_back key p suites)
    ≡ₚ p :: concat (snd <$> suites).
Proof.
  induction suites as [|[k bs] rest IH]; [reflexivity|].
  cbn [suite_emplace_back]. destruct (decide (k = key)).
  - cbn [fmap list_fmap snd concat]. rewrite <- app_assoc.
    cbn [app]. rewrite <- Permutation_middle. reflexivity.
  - cbn [fmap list_fmap snd concat]. fold (@fmap list _ _ _ (@snd (option string) (list pointer))).
    rewrite IH, <- Permutation_middle. reflexivity.
Qed.

Lemma empty_registry_wf : registry_wf (@empty_registry World).
Proof. split; constructor. Qed.

Lemma new_benchmark_wf (name : string) (proc : benchmark_proc World) reg :
  registry_wf reg -> registry_wf (new_benchmark name proc reg).1.
Proof.
  intros [Hnodup Hlive]. unfold registry_wf, registered, new_benchmark.
  cbn [fst _suites _objects]. rewrite suite_emplace_back_registered.
  rewrite length_app. cbn [length]. split.
  - apply NoDup_cons. split; [|exact Hnodup].
    intros Hin. rewrite Forall_forall in Hlive. specialize (Hlive _ Hin). lia.
  - constructor; [lia|]. eapply Forall_impl; [exact Hlive|]. cbn. lia.
Qed.

Lemma configure_wf p (f : benchmark_impl -> benchmark_impl) reg :
  registry_wf reg -> registry_wf (configure p f reg).
Proof.
  intros [Hnodup Hlive]. split; [exact Hnodup|].
  unfold configure. cbn [set_objects _objects]. rewrite length_alter. exact Hlive.
Qed.

(** *** Collecting the benchmarks *)

Lemma scan_suite_spec objs (suite : list pointer) :
  forall (benchmarks : list pointer) (found : bool),
    Forall (fun p => (p < length objs)%nat) suite ->
    scan_suite objs suite benchmarks found =
      Done (benchmarks ++ suite, found || existsb (flagged objs) suite).
Proof.
  induction suite as [|rb rest IH]; intros benchmarks found Hlive.
  - simpl. rewrite app_nil_r, orb_false_r. reflexivity.
  - inversion Hlive as [|? ? Hrb Hrest]; subst.
    destruct (deref_live objs rb Hrb) as (b & Hb & Hderef).
    cbn [scan_suite]. rewrite Hderef. cbn [mbind outcome_bind].
    rewrite IH by assumption. rewrite <- app_assoc. cbn [app existsb].
    unfold flagged at 2. rewrite Hb.
    destruct (_baseline b), found; reflexivity.
Qed.

(** Baseline resolution writes nothing but baseline flags, raises them
    only, and only those of the suites it scans. *)
Lemma default_baseline_spec objs (suite : list pointer) (found : bool) :
  Forall (fun p => (p < length objs)%nat) suite ->
  exists objs',
    default_baseline objs suite found = Done objs' /\
    length objs' = length objs /\
    (forall p, p ∉ suite -> objs' !! p = objs !! p) /\
    (forall p b, objs !! p = Some b ->
       exists v, objs' !! p = Some (set_baseline v b) /\
                 (_baseline b = true -> v = true)).
Proof.
  intros Hlive. unfold default_baseline.
  assert (Hsame : forall p b, objs !! p = Some b ->
            exists v, objs !! p = Some (set_baseline v b) /\
                      (_baseline b = true -> v = true)).
  { intros p b Hb. exists (_baseline b). split; [|auto].
    rewrite Hb. destruct b; reflexivity. }
  destruct found; cbn [negb andb]; [exists objs; auto|].
  destruct suite as [|front rest]; cbn [vector_empty negb]; [exists objs; auto|].
  inversion Hlive as [|? ? Hfront _]; subst.
  destruct (deref_live objs front Hfront) as (b & Hb & Hderef).
  cbn [head from_option mbind outcome_bind]. rewrite Hderef.
  cbn [mbind outcome_bind].
  exists (<[front := set_baseline true b]> objs).
  split; [reflexivity|]. split; [apply length_insert|]. split.
  - intros p Hp. apply list_lookup_insert_ne. intros ->. apply Hp. left.
  - intros p b' Hb'. destruct (decide (p = front)) as [->|Hne].
    + exists true. rewrite list_lookup_insert_eq by assumption.
      split; [|auto]. congruence.
    + rewrite list_lookup_insert_ne by auto. apply Hsame, Hb'.
Qed.

Lemma collect_benchmarks_spec (suites : list (option string * list pointer)) :
  forall objs (benchmarks : list pointer),
    Forall (fun p => (p < length objs)%nat) (concat (snd <$> suites)) ->
    exists objs',
      collect_benchmarks suites objs benchmarks =
        Done (objs', benchmarks ++ concat (snd <$> suites)) /\
      length objs' = length objs /\
      (forall p, p ∉ concat (snd <$> suites) -> objs' !! p = objs !! p) /\
      (forall p b, objs !! p = Some b ->
         exists v, objs' !! p = Some (set_baseline v b) /\
                   (_baseline b = true -> v = true)).
Proof.
  induction suites as [|[suite_name suite] rest IH]; intros objs benchmarks Hlive.
  - exists objs. cbn. rewrite app_nil_r. repeat split; auto.
    intros p b Hb. exists (_baseline b). rewrite Hb. destruct b; auto.
  - cbn [fmap list_fmap snd concat] in Hlive |- *.
    apply Forall_app in Hlive as [Hsuite Hrest].
    cbn [collect_benchmarks]. rewrite scan_suite_spec by assumption.
    cbn [mbind outcome_bind].
    destruct (default_baseline_spec objs suite
                (false || existsb (flagged objs) suite) Hsuite)
      as (objs1 & Hdef & Hlen1 & Hframe1 & Hflags1).
    rewrite Hdef. cbn [mbind outcome_bind].
    destruct (IH objs1 (benchmarks ++ suite)) as (objs' & Hrun & Hlen & Hframe & Hflags).
    { rewrite Hlen1. assumption. }
    exists objs'. rewrite Hrun, <- app_assoc.
    split; [reflexivity|]. split; [congruence|]. split.
    + intros p Hp. rewrite not_elem_of_app in Hp. destruct Hp as [Hp1 Hp2].
      rewrite Hframe, Hframe1 by assumption. reflexivity.
    + intros p b Hb.
      destruct (Hflags1 p b Hb) as (v1 & Hb1 & Hv1).
      destruct (Hflags p _ Hb1) as (v & Hb' & Hv).
      exists v. split; [exact Hb'|]. intros Hbase. apply Hv. cbn. auto.
Qed.

(** *** The baselines after the resolution *)

Lemma elem_of_suites (suites : list (option string * list pointer))
    (n : option string) (suite : list pointer) p :
  (n, suite) ∈ suites -> p ∈ suite -> p ∈ concat (snd <$> suites).
Proof.
  intros Hin Hp. induction suites as [|[n' su'] rest IH];
    [inversion Hin|].
  cbn [fmap list_fmap snd concat]. apply elem_of_app.
  apply elem_of_cons in Hin as [Heq|Hin].
  - injection Heq as <- <-. left. exact Hp.
  - right. apply IH, Hin.
Qed.

Lemma count_baselines_ext objs objs' (suite : list pointer) :
  (forall p, p ∈ suite -> flagged objs' p = flagged objs p) ->
  count_baselines objs' suite = count_baselines objs suite.
Proof.
  unfold count_baselines. induction suite as [|p rest IH]; intros Hsame;
    [reflexivity|].
  rewrite !filter_cons, (Hsame p) by left.
  destruct (decide (flagged objs p = true)); cbn [length];
    rewrite IH; auto; intros q Hq; apply Hsame; right; exact Hq.
Qed.

Lemma count_baselines_none objs (suite : list pointer) :
  existsb (flagged objs) suite = false <-> count_baselines objs suite = O.
Proof.
  unfold count_baselines. induction suite as [|p rest IH]; [easy|].
  cbn [existsb]. rewrite filter_cons.
  destruct (flagged objs p) eqn:Hp; cbn [orb].
  - rewrite decide_True by reflexivity. easy.
  - rewrite decide_False by discriminate. exact IH.
Qed.

Lemma default_baseline_counts objs (suite : list pointer) :
  NoDup suite -> Forall (fun p => (p < length objs)%nat) suite -> suite <> [] ->
  exists objs',
    default_baseline objs suite (false || existsb (flagged objs) suite)
      = Done objs' /\
    count_baselines objs' suite = Nat.max 1 (count_baselines objs suite) /\
    (count_baselines objs suite = O ->
       exists front, head suite = Some front /\ flagged objs' front = true).
Proof.
  intros Hnodup Hlive Hne. cbn [orb].
  destruct (existsb (flagged objs) suite) eqn:Hfound.
  - exists objs. unfold default_baseline. cbn [negb andb].
    split; [reflexivity|].
    assert (count_baselines objs suite <> O).
    { rewrite <- count_baselines_none. congruence. }
    split; [lia | intros; lia].
  - destruct suite as [|front rest]; [congruence|].
    inversion Hlive as [|? ? Hfront _]; subst.
    destruct (deref_live objs front Hfront) as (b & Hb & Hderef).
    unfold default_baseline.
    cbn [negb andb vector_empty head from_option mbind outcome_bind].
    rewrite Hderef. cbn [mbind outcome_bind].
    exists (<[front := set_baseline true b]> objs).
    split; [reflexivity|].
    assert (Hfront' : flagged (<[front := set_baseline true b]> objs) front = true).
    { unfold flagged. rewrite list_lookup_insert_eq by assumption. reflexivity. }
    apply count_baselines_none in Hfound as Hzero. rewrite Hzero.
    split; [|eauto].
    cbn [existsb] in Hfound. apply orb_false_elim in Hfound as [_ Hrest].
    apply count_baselines_none in Hrest.
    unfold count_baselines. rewrite filter_cons, decide_True by assumption.
    cbn [length]. fold (count_baselines (<[front := set_baseline true b]> objs) rest).
    rewrite (count_baselines_ext objs), Hrest; [reflexivity|].
    intros q Hq. unfold flagged. rewrite list_lookup_insert_ne; [reflexivity|].
    intros ->. apply NoDup_cons in Hnodup as [Hnot _]. exact (Hnot Hq).
Qed.

Lemma collect_benchmarks_baselines (suites : list (option string * list pointer)) :
  forall objs (benchmarks : list pointer),
    NoDup (concat (snd <$> suites)) ->
    Forall (fun p => (p < length objs)%nat) (concat (snd <$> suites)) ->
    exists objs',
      collect_benchmarks suites objs benchmarks =
        Done (objs', benchmarks ++ concat (snd <$> suites)) /\
      Forall (fun suite : option string * list pointer =>
                suite.2 <> [] ->
                count_baselines objs' suite.2 =
                  Nat.max 1 (count_baselines objs suite.2) /\
                (count_baselines objs suite.2 = O ->
                   exists front, head suite.2 = Some front /\
                                 flagged objs' front = true))
             suites.
Proof.
  induction suites as [|[suite_name suite] rest IH];
    intros objs benchmarks Hnodup Hlive.
  - exists objs. cbn. rewrite app_nil_r. auto.
  - cbn [fmap list_fmap snd concat] in Hnodup, Hlive |- *.
    apply NoDup_app in Hnodup as (Hnd1 & Hdisjoint & Hnd2).
    apply Forall_app in Hlive as [Hsuite Hrest].
    cbn [collect_benchmarks]. rewrite scan_suite_spec by assumption.
    cbn [mbind outcome_bind].
    destruct (default_baseline_spec objs suite
                (false || existsb (flagged objs) suite) Hsuite)
      as (objs1 & Hdef & Hlen1 & Hframe1 & _).
    rewrite Hdef. cbn [mbind outcome_bind].
    assert (Hrest1 : Forall (fun p => (p < length objs1)%nat)
                            (concat (snd <$> rest))) by (rewrite Hlen1; assumption).
    destruct (IH objs1 (benchmarks ++ suite) Hnd2 Hrest1) as (objs' & Hrun & Hcounts).
    destruct (collect_benchmarks_spec rest objs1 (benchmarks ++ suite) Hrest1)
      as (objs'' & Hrun' & _ & Hframe & _).
    rewrite Hrun in Hrun'. injection Hrun' as <-.
    exists objs'. rewrite Hrun, <- app_assoc. split; [reflexivity|].
    constructor.
    + cbn [snd]. intros Hne.
      destruct (default_baseline_counts objs suite Hnd1 Hsuite Hne)
        as (objs1' & Hdef' & Hcount & Hhead).
      rewrite Hdef in Hdef'. injection Hdef' as <-.
      assert (Hsame : forall p, p ∈ suite -> flagged objs' p = flagged objs1 p).
      { intros p Hp. unfold flagged. rewrite Hframe; [reflexivity|].
        apply Hdisjoint, Hp. }
      rewrite (count_baselines_ext objs1 objs') by exact Hsame.
      split; [exact Hcount|].
      intros Hzero. destruct (Hhead Hzero) as (front & Hfront & Hflag).
      exists front. split; [exact Hfront|].
      rewrite Hsame; [exact Hflag|].
      destruct suite; [discriminate|]. injection Hfront as ->. left.
    + rewrite Forall_forall in Hcounts |- *.
      intros [n su] Hin Hne. cbn [snd] in *.
      destruct (Hcounts _ Hin Hne) as [Hcount Hhead]. cbn [snd] in *.
      assert (Hsame : count_baselines objs1 su = count_baselines objs su).
      { apply count_baselines_ext. intros p Hp. unfold flagged.
        rewrite Hframe1; [reflexivity|]. intros Hp'.
        apply (Hdisjoint p Hp'), (elem_of_suites rest n su p Hin Hp). }
      rewrite <- Hsame. auto.
Qed.

(** *** Initialising the benchmarks *)

Lemma emplace_Permutation {A} (index : nat) (x : A) (l : list A) :
  emplace index x l ≡ₚ l ++ [x].
Proof.
  unfold emplace. rewrite <- Permutation_middle, Permutation_cons_append.
  rewrite take_drop. reflexivity.
Qed.

Lemma emplace_samples_Permutation (n : nat) (iters : Z) :
  forall (states : list state) rnd,
    (emplace_samples n iters states rnd).1
      ≡ₚ states ++ replicate n (new_state iters).
Proof.
  induction n as [|n IH]; intros states rnd.
  - cbn. rewrite app_nil_r. reflexivity.
  - cbn [emplace_samples minstd_rand_next]. rewrite IH, emplace_Permutation.
    rewrite <- app_assoc. reflexivity.
Qed.

Lemma fill_states_Permutation (state_iterations : list Z) (n : Z) :
  forall (states : list state) rnd,
    (fill_states state_iterations n states rnd).1
      ≡ₚ states ++ flat_map (fun iters => replicate (Z.to_nat n) (new_state iters))
                            state_iterations.
Proof.
  induction state_iterations as [|iters rest IH]; intros states rnd.
  - cbn. rewrite app_nil_r. reflexivity.
  - cbn [fill_states flat_map].
    pose proof (emplace_samples_Permutation (Z.to_nat n) iters states rnd) as Hperm.
    destruct (emplace_samples (Z.to_nat n) iters states rnd) as [states' rnd'].
    cbn [fst] in Hperm. rewrite IH, Hperm, <- app_assoc. reflexivity.
Qed.

Lemma initialize_benchmark_spec r b rnd :
  exists states',
    (initialize_benchmark r b rnd).1 =
      set_states states' 0 (set_samples (effective_samples r b) b) /\
    states' ≡ₚ _states b ++ generated r b.
Proof.
  unfold initialize_benchmark.
  pose proof (fill_states_Permutation (effective_state_iterations r b)
                (effective_samples r b) (_states b) rnd) as Hperm.
  cbn [set_samples _samples _states].
  destruct (fill_states _ _ _ rnd) as [states' rnd'].
  exists states'. split; [reflexivity|]. exact Hperm.
Qed.

Lemma initialize_benchmarks_spec r (benchmarks : list pointer) :
  forall objs rnd,
    NoDup benchmarks ->
    Forall (fun p => (p < length objs)%nat) benchmarks ->
    exists objs' rnd',
      initialize_benchmarks r benchmarks objs rnd = Done (objs', rnd') /\
      length objs' = length objs /\
      (forall p, p ∉ benchmarks -> objs' !! p = objs !! p) /\
      (forall p b, p ∈ benchmarks -> objs !! p = Some b ->
         exists states',
           objs' !! p =
             Some (set_states states' 0 (set_samples (effective_samples r b) b)) /\
           states' ≡ₚ _states b ++ generated r b).
Proof.
  induction benchmarks as [|q rest IH]; intros objs rnd Hnodup Hlive.
  - exists objs, rnd. repeat split; auto. intros p b Hp. inversion Hp.
  - apply NoDup_cons in Hnodup as [Hq Hnodup].
    inversion Hlive as [|? ? Hqlive Hrest]; subst.
    destruct (deref_live objs q Hqlive) as (bq & Hbq & Hderef).
    cbn [initialize_benchmarks]. rewrite Hderef. cbn [mbind outcome_bind].
    destruct (initialize_benchmark_spec r bq rnd) as (states_q & Hinit & Hperm).
    destruct (initialize_benchmark r bq rnd) as [bq' rnd1]. cbn [fst] in Hinit.
    destruct (IH (<[q := bq']> objs) rnd1 Hnodup) as (objs' & rnd' & Hrun & Hlen & Hframe & Hspec).
    { rewrite length_insert. assumption. }
    exists objs', rnd'. split; [exact Hrun|].
    split; [rewrite Hlen; apply length_insert|]. split.
    + intros p Hp. apply not_elem_of_cons in Hp as [Hne Hp].
      rewrite Hframe, list_lookup_insert_ne by auto. reflexivity.
    + intros p b Hp Hb. apply elem_of_cons in Hp as [->|Hp].
      * rewrite Hframe, list_lookup_insert_eq by assumption.
        assert (b = bq) as -> by congruence.
        exists states_q. rewrite Hinit. auto.
      * apply Hspec; [exact Hp|].
        rewrite list_lookup_insert_ne; [exact Hb|]. intros ->. exact (Hq Hp).
Qed.

(** *** The scheduling loop *)

Lemma sum_list_with_ext_in {A} (f g : A -> nat) (l : list A) :
  (forall x, x ∈ l -> f x = g x) -> sum_list_with f l = sum_list_with g l.
Proof.
  induction l as [|x l IH]; intros Hfg; [reflexivity|].
  cbn. rewrite (Hfg x) by left. rewrite IH; [reflexivity|].
  intros y Hy. apply Hfg. right. exact Hy.
Qed.


Lemma NoDup_delete_inv {A} (l : list A) (i : nat) (x : A) :
  NoDup l -> l !! i = Some x -> (x ∉ delete i l) /\ NoDup (delete i l).
Proof.
  intros Hnodup Hx. apply delete_Permutation in Hx.
  rewrite Hx in Hnodup. apply NoDup_cons in Hnodup. exact Hnodup.
Qed.

(** The pick of the loop is a position of the vector. *)
Lemma pick_in_range (x : Z) {A} (l : list A) :
  l <> [] -> exists y, l !! Z.to_nat (x mod Z.of_nat (length l)) = Some y.
Proof.
  intros Hne. apply lookup_lt_is_Some_2.
  assert (0 < Z.of_nat (length l)) by (destruct l; [congruence | cbn; lia]).
  pose proof (Z.mod_pos_bound x (Z.of_nat (length l))). lia.
Qed.

Lemma executions_by_cons_eq p (e : execution) (log : list execution) :
  executed_benchmark e = p ->
  executions_by p (e :: log) = e :: executions_by p log.
Proof. intros H. unfold executions_by. rewrite filter_cons_True; auto. Qed.

Lemma executions_by_cons_ne p (e : execution) (log : list execution) :
  executed_benchmark e <> p ->
  executions_by p (e :: log) = executions_by p log.
Proof. intros H. unfold executions_by. rewrite filter_cons_False; auto. Qed.

Lemma executions_by_absent p (log : list execution) :
  Forall (fun e => executed_benchmark e <> p) log -> executions_by p log = [].
Proof.
  induction 1 as [|e log He _ IH]; [reflexivity|].
  rewrite executions_by_cons_ne; assumption.
Qed.

Lemma executions_of_cons p (first : nat) (s : state) (states : list state) :
  executions_of p first (s :: states) =
    {| executed_benchmark := p; executed_state := first;
       executed_iterations := iterations s |}
    :: executions_of p (S first) states.
Proof.
  unfold executions_of. rewrite imap_cons, Nat.add_0_r. f_equal.
  apply imap_ext. intros i s' _. cbn. f_equal. lia.
Qed.

(** One turn of the loop. *)
Lemma schedule_step (fuel : nat) (benchmarks : list pointer) objs rnd
    (w w' : World) (log : list execution) (i : nat) p b (s s' : state) :
  benchmarks <> [] ->
  i = Z.to_nat ((minstd_rand_next rnd).1 mod Z.of_nat (length benchmarks)) ->
  benchmarks !! i = Some p ->
  objs !! p = Some b ->
  _states b !! _istate b = Some s ->
  _proc b s w = Done (s', w') ->
  schedule (S fuel) benchmarks objs rnd w log =
    schedule fuel
      (if decide (S (_istate b) = length (_states b))
       then delete i benchmarks else benchmarks)
      (<[p := set_states (<[_istate b := s']> (_states b)) (S (_istate b)) b]> objs)
      (minstd_rand_next rnd).2 w'
      (log ++ [{| executed_benchmark := p;
                  executed_state := _istate b;
                  executed_iterations := iterations s |}]).
Proof.
  intros Hne -> Hp Hb Hs Hrun.
  destruct benchmarks as [|q0 rest] eqn:Hbs; [congruence|]. rewrite <- Hbs in *.
  cbn [schedule]. rewrite Hbs at 1. cbn [minstd_rand_next fst snd] in *.
  rewrite Hp. cbn [from_option mbind outcome_bind].
  unfold deref. rewrite Hb. cbn [from_option mbind outcome_bind].
  rewrite Hs. cbn [from_option mbind outcome_bind].
  rewrite Hrun. cbn [mbind outcome_bind set_states _istate _states].
  rewrite length_insert. reflexivity.
Qed.

(** What the loop needs to know of a benchmark of its working set: the
    cursor is before the end, and the callable returns on the states
    from the cursor on. *)
Lemma schedule_spec (fuel : nat) :
  forall (benchmarks : list pointer) objs rnd (w : World) (log : list execution),
    NoDup benchmarks ->
    Forall (fun p => exists b,
              objs !! p = Some b /\
              (_istate b < length (_states b))%nat /\
              Forall (fun s => runs_on (_proc b) (iterations s))
                     (drop (_istate b) (_states b)))
           benchmarks ->
    (sum_list_with (pending objs) benchmarks <= fuel)%nat ->
    exists objs' rnd' w' log',
      schedule fuel benchmarks objs rnd w log = Done (objs', rnd', w', log ++ log') /\
      length objs' = length objs /\
      (forall p, p ∉ benchmarks -> objs' !! p = objs !! p) /\
      Forall (fun e => executed_benchmark e ∈ benchmarks) log' /\
      (forall p b, p ∈ benchmarks -> objs !! p = Some b ->
         exists states',
           objs' !! p = Some (set_states states' (length (_states b)) b) /\
           take (_istate b) states' = take (_istate b) (_states b) /\
           Forall2 (ran (_proc b)) (drop (_istate b) (_states b))
                   (drop (_istate b) states') /\
           executions_by p log' =
             executions_of p (_istate b) (drop (_istate b) (_states b))).
Proof.
  induction fuel as [|fuel IH]; intros benchmarks objs rnd w log Hnodup Hinv Hfuel.
  all: destruct benchmarks as [|q0 rest] eqn:Hbs.
  1, 3: exists objs, rnd, w, []; rewrite app_nil_r;
        repeat split; auto; intros p b Hp; inversion Hp.
  - exfalso. inversion Hinv as [|? ? (b & Hb & Hlt & _) _]; subst.
    cbn in Hfuel. unfold pending in Hfuel at 1. rewrite Hb in Hfuel. lia.
  - rewrite <- Hbs in *. assert (Hne : benchmarks <> []) by (subst; discriminate).
    clear Hbs q0 rest.
    set (i := Z.to_nat ((minstd_rand_next rnd).1 mod Z.of_nat (length benchmarks))).
    destruct (pick_in_range (minstd_rand_next rnd).1 benchmarks Hne) as [p Hp].
    fold i in Hp.
    assert (Hpin : p ∈ benchmarks) by (eapply list_elem_of_lookup_2; exact Hp).
    pose proof Hinv as Hinv'. rewrite Forall_forall in Hinv'.
    destruct (Hinv' p Hpin) as (b & Hb & Hlt & Hruns).
    destruct (lookup_lt_is_Some_2 (_states b) (_istate b) Hlt) as [s Hs].
    rewrite (drop_S _ _ _ Hs) in Hruns.
    inversion Hruns as [|? ? Hrun_s Hruns']; subst.
    destruct (Hrun_s s w eq_refl) as (s' & w' & Hrun).
    rewrite (schedule_step fuel benchmarks objs rnd w w' log i p b s s'
               Hne eq_refl Hp Hb Hs Hrun).
    set (states1 := <[_istate b := s']> (_states b)).
    set (b1 := set_states states1 (S (_istate b)) b).
    set (objs1 := <[p := b1]> objs).
    set (entry := {| executed_benchmark := p; executed_state := _istate b;
                     executed_iterations := iterations s |}).
    assert (Hlive : (p < length objs)%nat) by (eapply lookup_lt_Some; exact Hb).
    assert (Hb1 : objs1 !! p = Some b1) by (apply list_lookup_insert_eq; exact Hlive).
    assert (Hother : forall q, q <> p -> objs1 !! q = objs !! q).
    { intros q Hq. apply list_lookup_insert_ne. congruence. }
    assert (Hpend_other : forall q, q <> p -> pending objs1 q = pending objs q).
    { intros q Hq. unfold pending. rewrite Hother by exact Hq. reflexivity. }
    assert (Hpend : pending objs p = S (pending objs1 p)).
    { unfold pending. rewrite Hb, Hb1. cbn. unfold states1.
      rewrite length_insert. lia. }
    destruct (NoDup_delete_inv benchmarks i p Hnodup Hp) as [Hp_gone Hnodup_del].
    assert (Hsum : sum_list_with (pending objs) benchmarks =
                   S (pending objs1 p + sum_list_with (pending objs1) (delete i benchmarks))).
    { rewrite (delete_Permutation benchmarks i p Hp) at 1. cbn.
      rewrite Hpend. cbn. do 2 f_equal. apply sum_list_with_ext_in.
      intros q Hq. symmetry. apply Hpend_other. intros ->. exact (Hp_gone Hq). }
    assert (Hdrop1 : drop (S (_istate b)) states1 = drop (S (_istate b)) (_states b))
      by (apply drop_insert_lt; lia).
    assert (Htake1 : take (_istate b) states1 = take (_istate b) (_states b))
      by (apply take_insert_ge; lia).
    assert (Hs1 : states1 !! _istate b = Some s')
      by (apply list_lookup_insert_eq; exact Hlt).
    assert (Hran : ran (_proc b) s s') by (exists w, w'; exact Hrun).
    assert (Hkept : forall q, q ∈ benchmarks -> q <> p -> q ∈ delete i benchmarks).
    { intros q Hq Hqp. rewrite (delete_Permutation benchmarks i p Hp) in Hq.
      apply elem_of_cons in Hq as [?|?]; [contradiction | assumption]. }
    assert (Hinv_other : forall q, q ∈ benchmarks -> q <> p ->
              exists bq, objs1 !! q = Some bq /\
                (_istate bq < length (_states bq))%nat /\
                Forall (fun s => runs_on (_proc bq) (iterations s))
                       (drop (_istate bq) (_states bq))).
    { intros q Hq Hqp. rewrite Hother by exact Hqp. apply Hinv', Hq. }
    destruct (decide (S (_istate b) = length (_states b))) as [Hend|Hmore].
    + (* the benchmark is finished and leaves the working set *)
      destruct (IH (delete i benchmarks) objs1 (minstd_rand_next rnd).2 w'
                   (log ++ [entry]) Hnodup_del)
        as (objs' & rnd' & w'' & log'' & Hdone & Hlen & Hframe & Hlog & Hspec).
      { rewrite Forall_forall. intros q Hq.
        apply Hinv_other; [eapply list_elem_of_delete_inv; exact Hq|].
        intros ->. exact (Hp_gone Hq). }
      { lia. }
      exists objs', rnd', w'', (entry :: log'').
      rewrite Hdone, <- app_assoc. split; [reflexivity|].
      split; [rewrite Hlen; apply length_insert|]. split; [|split].
      * intros q Hq. rewrite Hframe.
        -- apply Hother. intros ->. exact (Hq Hpin).
        -- intros Hq'. apply Hq. eapply list_elem_of_delete_inv. exact Hq'.
      * constructor; [exact Hpin|].
        eapply Forall_impl; [exact Hlog|]. cbn. intros e He.
        eapply list_elem_of_delete_inv. exact He.
      * intros q bq Hq Hbq. destruct (decide (q = p)) as [->|Hqp].
        -- assert (bq = b) as -> by congruence.
           exists states1. rewrite (Hframe p Hp_gone), Hb1. unfold b1.
           rewrite Hend. split; [reflexivity|]. split; [exact Htake1|].
           rewrite (drop_S _ _ _ Hs), (drop_S _ _ _ Hs1), Hdrop1.
           rewrite drop_ge by lia. split; [repeat constructor; exact Hran|].
           rewrite executions_by_cons_eq by reflexivity.
           rewrite executions_by_absent, executions_of_cons; [reflexivity|].
           eapply Forall_impl; [exact Hlog|]. cbn. intros e He Heq.
           rewrite Heq in He. exact (Hp_gone He).
        -- rewrite executions_by_cons_ne by (cbn; congruence).
           apply Hspec; [apply Hkept; assumption|].
           rewrite Hother by exact Hqp. exact Hbq.
    + (* the benchmark stays, with its cursor one state further *)
      destruct (IH benchmarks objs1 (minstd_rand_next rnd).2 w'
                   (log ++ [entry]) Hnodup)
        as (objs' & rnd' & w'' & log'' & Hdone & Hlen & Hframe & Hlog & Hspec).
      { rewrite Forall_forall. intros q Hq.
        destruct (decide (q = p)) as [->|Hqp]; [|apply Hinv_other; assumption].
        exists b1. split; [exact Hb1|]. cbn [b1 set_states _istate _states _proc].
        unfold states1 at 1. rewrite length_insert, Hdrop1.
        split; [lia | exact Hruns']. }
      { rewrite (delete_Permutation benchmarks i p Hp). cbn. lia. }
      exists objs', rnd', w'', (entry :: log'').
      rewrite Hdone, <- app_assoc. split; [reflexivity|].
      split; [rewrite Hlen; apply length_insert|]. split; [|split].
      * intros q Hq. rewrite Hframe by exact Hq.
        apply Hother. intros ->. exact (Hq Hpin).
      * constructor; [exact Hpin | exact Hlog].
      * intros q bq Hq Hbq. destruct (decide (q = p)) as [->|Hqp].
        -- assert (bq = b) as -> by congruence.
           destruct (Hspec p b1 Hpin Hb1)
             as (states2 & Hb2 & Htake2 & Hran2 & Hexec2).
           cbn [b1 set_states _istate _states _proc] in Hb2, Htake2, Hran2, Hexec2.
           unfold states1 in Hb2 at 1. rewrite length_insert in Hb2.
           exists states2. split; [exact Hb2|].
           assert (Hs2 : states2 !! _istate b = Some s').
           { rewrite <- (lookup_take_lt states2 (S (_istate b))) by lia.
             rewrite Htake2, lookup_take_lt by lia. exact Hs1. }
           split.
           { assert (Ht : forall l : list state,
                       take (_istate b) l = take (_istate b) (take (S (_istate b)) l))
               by (intros l; rewrite take_take; f_equal; lia).
             rewrite (Ht states2), Htake2, <- Ht. exact Htake1. }
           rewrite (drop_S _ _ _ Hs), (drop_S _ _ _ Hs2).
           rewrite Hdrop1 in Hran2, Hexec2.
           split; [constructor; assumption|].
           rewrite executions_by_cons_eq by reflexivity.
           rewrite Hexec2, executions_of_cons. reflexivity.
        -- rewrite executions_by_cons_ne by (cbn; congruence).
           apply Hspec; [exact Hq|].
           rewrite Hother by exact Hqp. exact Hbq.
Qed.

(** *** From the call to the end of the scheduling loop *)

Lemma length_generated r b :
  length (generated r b) =
    (length (effective_state_iterations r b) * Z.to_nat (effective_samples r b))%nat.
Proof.
  unfold generated. induction (effective_state_iterations r b) as [|iters rest IH];
    [reflexivity|].
  cbn [flat_map length]. rewrite length_app, length_replicate, IH. lia.
Qed.

Lemma registered_live reg p :
  registry_wf reg -> p ∈ registered reg -> exists b, _objects reg !! p = Some b.
Proof.
  intros [_ Hlive] Hp. rewrite Forall_forall in Hlive.
  apply lookup_lt_is_Some_2, Hlive, Hp.
Qed.

Lemma prepare_spec r (random_seed random_device : Z) reg :
  registry_wf reg ->
  exists objs0 objs1 rnd1,
    collect_benchmarks (_suites reg) (_objects reg) [] =
      Done (objs0, registered reg) /\
    prepare uint_fast32_bits r random_seed random_device reg =
      Done (objs1, registered reg, rnd1) /\
    length objs1 = length (_objects reg) /\
    (forall p, p ∉ registered reg -> objs1 !! p = _objects reg !! p) /\
    (forall p b, p ∈ registered reg -> _objects reg !! p = Some b ->
       exists states0,
         objs1 !! p =
           Some (set_states states0 0
                   (set_samples (effective_samples r b)
                      (set_baseline (flagged objs0 p) b))) /\
         states0 ≡ₚ _states b ++ generated r b).
Proof.
  intros [Hnodup Hlive]. unfold prepare.
  destruct (collect_benchmarks_spec (_suites reg) (_objects reg) [] Hlive)
    as (objs0 & Hcollect & Hlen0 & Hframe0 & Hflags0).
  cbn [app] in Hcollect. fold (registered reg) in Hcollect, Hframe0.
  rewrite Hcollect. cbn [mbind outcome_bind].
  destruct (initialize_benchmarks_spec r (registered reg) objs0
              (minstd_rand_seed uint_fast32_bits
                 (effective_seed random_seed random_device)) Hnodup)
    as (objs1 & rnd1 & Hinit & Hlen1 & Hframe1 & Hspec1).
  { rewrite Hlen0. exact Hlive. }
  rewrite Hinit. cbn [mbind outcome_bind].
  exists objs0, objs1, rnd1. split; [reflexivity|]. split; [reflexivity|].
  split; [congruence|]. split.
  - intros p Hp. rewrite Hframe1, Hframe0 by exact Hp. reflexivity.
  - intros p b Hp Hb. destruct (Hflags0 p b Hb) as (v & Hb0 & _).
    destruct (Hspec1 p _ Hp Hb0) as (states0 & Hb1 & Hperm).
    exists states0. unfold flagged. rewrite Hb0. split; [exact Hb1 | exact Hperm].
Qed.

Lemma execute_spec (fuel : nat) r (random_seed random_device : Z) reg (w : World) :
  registry_wf reg ->
  every_registered (runnable r) reg ->
  (workload r reg <= fuel)%nat ->
  exists objs0 objs' w' log,
    collect_benchmarks (_suites reg) (_objects reg) [] =
      Done (objs0, registered reg) /\
    execute uint_fast32_bits fuel r random_seed random_device reg w =
      Done (objs', w', log) /\
    length objs' = length (_objects reg) /\
    (forall p, p ∉ registered reg -> objs' !! p = _objects reg !! p) /\
    Forall (fun e => executed_benchmark e ∈ registered reg) log /\
    (forall p b, p ∈ registered reg -> _objects reg !! p = Some b ->
       exists states0 states',
         states0 ≡ₚ _states b ++ generated r b /\
         objs' !! p =
           Some (set_states states' (length states0)
                   (set_samples (effective_samples r b)
                      (set_baseline (flagged objs0 p) b))) /\
         Forall2 (ran (_proc b)) states0 states' /\
         executions_by p log = executions_of p 0 states0).
Proof.
  intros Hwf Hrunnable Hfuel.
  destruct (prepare_spec r random_seed random_device reg Hwf)
    as (objs0 & objs1 & rnd1 & Hcollect & Hprepare & Hlen1 & Hframe1 & Hspec1).
  unfold execute. rewrite Hprepare. cbn [mbind outcome_bind].
  unfold every_registered in Hrunnable. rewrite Forall_forall in Hrunnable.
  destruct (schedule_spec fuel (registered reg) objs1 rnd1 w [])
    as (objs' & rnd' & w' & log & Hrun & Hlen & Hframe & Hlog & Hspec).
  - apply Hwf.
  - rewrite Forall_forall. intros p Hp.
    destruct (registered_live reg p Hwf Hp) as [b Hb].
    destruct (Hspec1 p b Hp Hb) as (states0 & Hb1 & Hperm).
    destruct (Hrunnable p Hp b Hb) as (Hsamples & Hsizes & Hruns).
    eexists. split; [exact Hb1|]. cbn [set_states _istate _states _proc drop].
    split.
    + rewrite Hperm, length_app, length_generated.
      destruct (effective_state_iterations r b); [congruence|]. cbn [length]. lia.
    + rewrite Hperm. exact Hruns.
  - etransitivity; [|exact Hfuel]. unfold workload.
    apply Nat.eq_le_incl, sum_list_with_ext_in. intros p Hp.
    destruct (registered_live reg p Hwf Hp) as [b Hb].
    destruct (Hspec1 p b Hp Hb) as (states0 & Hb1 & Hperm).
    unfold pending. rewrite Hb1, Hb. cbn [set_states _istate _states].
    rewrite Hperm. lia.
  - rewrite Hrun. cbn [mbind outcome_bind app].
    exists objs0, objs', w', log. split; [exact Hcollect|]. split; [reflexivity|].
    split; [congruence|]. split; [|split; [exact Hlog|]].
    + intros p Hp. rewrite Hframe, Hframe1 by exact Hp. reflexivity.
    + intros p b Hp Hb.
      destruct (Hspec1 p b Hp Hb) as (states0 & Hb1 & Hperm).
      destruct (Hspec p _ Hp Hb1) as (states' & Hb' & _ & Hran & Hexec).
      cbn [set_states _istate _states _proc drop] in Hb', Hran, Hexec.
      exists states0, states'. auto.
Qed.

(** *** The report *)

Lemma wrap_int_add (x y : Z) : wrap_int (wrap_int x + y) = wrap_int (x + y).
Proof.
  unfold wrap_int. apply wrap_signed_congr.
  rewrite Zplus_mod, wrap_signed_mod, <- Zplus_mod by lia. reflexivity.
Qed.

Lemma accumulate_all (dim : Z) (states : list state) :
  forall c t : Z,
    fold_left (fun d s => accumulate s d) states
      {| dimension := dim; samples := wrap_int c; total_time_ns := wrap_int64 t |} =
    {| dimension := dim;
       samples := wrap_int (c + Z.of_nat (length (group dim states)));
       total_time_ns := wrap_int64 (t + sum_durations (group dim states)) |}.
Proof.
  induction states as [|s rest IH]; intros c t.
  - cbn. rewrite !Z.add_0_r. reflexivity.
  - cbn [fold_left]. unfold accumulate at 2. cbn [dimension samples total_time_ns].
    unfold group. rewrite filter_cons. fold (group dim rest).
    destruct (decide (iterations s = dim)) as [Heq|Hne].
    + rewrite (proj2 (Z.eqb_eq _ _) Heq), wrap_int_add, wrap_int64_add, IH.
      cbn [length sum_durations foldr]. fold (sum_durations (group dim rest)).
      rewrite Nat2Z.inj_succ, Z.add_assoc.
      replace (c + Z.succ (Z.of_nat (length (group dim rest))))
        with (c + 1 + Z.of_nat (length (group dim rest))) by lia.
      reflexivity.
    + rewrite (proj2 (Z.eqb_neq _ _) Hne). apply IH.
Qed.

Lemma accumulate_columns (states : list state) :
  forall data0 : list benchmark_problem_space,
    fold_left (fun data s => map (accumulate s) data) states data0 =
      map (fun d => fold_left (fun d s => accumulate s d) states d) data0.
Proof.
  induction states as [|s rest IH]; intros data0; cbn [fold_left].
  - symmetry. apply map_id.
  - rewrite IH, map_map. reflexivity.
Qed.

Lemma report_of_benchmark_spec r b :
  Forall (fun dim => 0 < Z.of_nat (length (group dim (_states b))) <= int_max)
         (effective_state_iterations r b) ->
  report_of_benchmark r b = Done (report_entry r b).
Proof.
  intros Hcounts. unfold report_of_benchmark, report_entry.
  rewrite accumulate_columns, map_map.
  erewrite mapM_Done; [reflexivity|].
  induction Hcounts as [|dim rest Hdim _ IH]; cbn [map fmap list_fmap];
    constructor; [|exact IH].
  change 0 with (wrap_int64 0) at 2. change 0 with (wrap_int 0) at 1.
  rewrite accumulate_all, !Z.add_0_l.
  rewrite wrap_int_small by (unfold int_min; lia).
  unfold average_out. cbn [dimension samples total_time_ns].
  replace (Z.of_nat (length (group dim (_states b))) =? 0) with false
    by (symmetry; apply Z.eqb_neq; lia).
  replace (Z.of_nat (length (group dim (_states b))) =? -1) with false
    by (symmetry; apply Z.eqb_neq; lia).
  rewrite andb_false_r. reflexivity.
Qed.

Lemma generate_report_spec r (registered_suites : list (option string * list pointer))
    objs :
  Forall (fun p => exists b, objs !! p = Some b /\
                    report_of_benchmark r b = Done (report_entry r b))
         (concat (snd <$> registered_suites)) ->
  exists rpt,
    generate_report r registered_suites objs = Done rpt /\
    reports r objs registered_suites rpt.
Proof.
  intros Hall. unfold generate_report, reports.
  assert (Hsuite : forall suite : list pointer,
            Forall (fun p => exists b, objs !! p = Some b /\
                      report_of_benchmark r b = Done (report_entry r b)) suite ->
            exists bs,
              mapM (fun p => b ← deref objs p; report_of_benchmark r b) suite
                = Done bs /\
              Forall2 (fun p rb => exists b, objs !! p = Some b /\
                                             rb = report_entry r b) suite bs).
  { induction 1 as [|p rest (b & Hb & Hrep) _ (bs & Hrun & Hbs)].
    - exists []. split; [reflexivity | constructor].
    - exists (report_entry r b :: bs). split; [|constructor; eauto].
      apply mapM_cons_Done; [|exact Hrun].
      unfold deref. rewrite Hb. exact Hrep. }
  induction registered_suites as [|[n suite] rest IH].
  - exists {| suites := [] |}. split; [reflexivity | constructor].
  - cbn [fmap list_fmap snd concat] in Hall. apply Forall_app in Hall as [H1 H2].
    destruct (Hsuite suite H1) as (bs & Hrun & Hbs).
    destruct (IH H2) as (rpt & Hrest & Hrpt).
    apply bind_Done in Hrest as (ss & Hss & Hret). injection Hret as <-.
    exists {| suites := {| suite_name := n; benchmarks := bs |} :: ss |}.
    erewrite mapM_cons_Done; [| |exact Hss].
    + split; [reflexivity|]. constructor; [|exact Hrpt]. auto.
    + unfold report_of_suite. cbn [fst snd]. rewrite Hrun. reflexivity.
Qed.

(** *** Counting the states of a workload size *)

Lemma length_group_le (dim : Z) (states : list state) :
  (length (group dim states) <= length states)%nat.
Proof. apply length_filter. Qed.

Lemma group_ran (proc : benchmark_proc World) (dim : Z) (states states' : list state) :
  keeps_iterations proc ->
  Forall2 (ran proc) states states' ->
  length (group dim states') = length (group dim states).
Proof.
  intros Hkeeps. induction 1 as [|s s' l l' (w & w' & Hrun) _ IH]; [reflexivity|].
  unfold group. rewrite !filter_cons. fold (group dim l) (group dim l').
  rewrite (Hkeeps s w s' w' Hrun).
  destruct (decide (iterations s = dim)); cbn [length]; rewrite IH; reflexivity.
Qed.

Lemma group_replicate (dim iters : Z) (n : nat) :
  length (group dim (replicate n (new_state iters))) =
    if decide (iters = dim) then n else O.
Proof.
  unfold group. induction n as [|n IH]; cbn [replicate].
  - destruct (decide (iters = dim)); reflexivity.
  - rewrite filter_cons. cbn [iterations new_state _iterations].
    destruct (decide (iters = dim)); cbn [length]; rewrite IH; reflexivity.
Qed.

Lemma length_group_generated r b (dim : Z) :
  length (group dim (generated r b)) =
    (multiplicity dim (effective_state_iterations r b)
     * Z.to_nat (effective_samples r b))%nat.
Proof.
  unfold generated, multiplicity.
  induction (effective_state_iterations r b) as [|iters rest IH]; [reflexivity|].
  cbn [flat_map]. unfold group in *. rewrite filter_app, length_app, IH.
  fold (group dim (replicate (Z.to_nat (effective_samples r b)) (new_state iters))).
  rewrite group_replicate, filter_cons.
  destruct (decide (iters = dim)); cbn [length]; lia.
Qed.

Lemma multiplicity_pos (dim : Z) (state_iterations : list Z) :
  dim ∈ state_iterations -> (0 < multiplicity dim state_iterations)%nat.
Proof.
  unfold multiplicity. intros Hin.
  assert (Hd : dim ∈ filter (fun d => d = dim) state_iterations)
    by (apply list_elem_of_filter; auto).
  destruct (filter _ state_iterations); [inversion Hd | cbn; lia].
Qed.

Lemma multiplicity_NoDup (dim : Z) (state_iterations : list Z) :
  NoDup state_iterations -> dim ∈ state_iterations ->
  multiplicity dim state_iterations = 1%nat.
Proof.
  unfold multiplicity. induction 1 as [|d rest Hd _ IH]; intros Hin; [inversion Hin|].
  rewrite filter_cons. destruct (decide (d = dim)) as [->|Hne].
  - cbn [length]. f_equal.
    destruct (filter (fun d => d = dim) rest) as [|d' ?] eqn:Hf; [reflexivity|].
    assert (Hd' : d' ∈ filter (fun d => d = dim) rest) by (rewrite Hf; left).
    apply list_elem_of_filter in Hd' as [-> Hd']. contradiction.
  - apply IH. apply elem_of_cons in Hin as [?|?]; [congruence | assumption].
Qed.

(** The states of a workload size after a run: those that were there
    before, and the sample count for each position of the size. *)
Lemma length_group_after r b (dim : Z) (states0 states' : list state) :
  keeps_iterations (_proc b) ->
  states0 ≡ₚ _states b ++ generated r b ->
  Forall2 (ran (_proc b)) states0 states' ->
  length (group dim states') =
    (length (group dim (_states b))
     + multiplicity dim (effective_state_iterations r b)
       * Z.to_nat (effective_samples r b))%nat.
Proof.
  intros Hkeeps Hperm Hran.
  rewrite (group_ran _ dim _ _ Hkeeps Hran). unfold group. rewrite Hperm.
  rewrite filter_app, length_app. fold (group dim (generated r b)).
  rewrite length_group_generated. reflexivity.
Qed.

(** *** The whole call *)

Lemma run_benchmarks_spec (fuel : nat) r (random_seed random_device : Z) reg
    (w : World) :
  registry_wf reg ->
  every_registered (runnable r) reg ->
  every_registered (accountable r) reg ->
  (workload r reg <= fuel)%nat ->
  exists objs0 objs' w' log rpt,
    collect_benchmarks (_suites reg) (_objects reg) [] =
      Done (objs0, registered reg) /\
    execute uint_fast32_bits fuel r random_seed random_device reg w =
      Done (objs', w', log) /\
    run_benchmarks uint_fast32_bits fuel r random_seed random_device reg w =
      Done (rpt, set_objects objs' reg, w', log) /\
    reports r objs' (_suites reg) rpt /\
    length objs' = length (_objects reg) /\
    (forall p, p ∉ registered reg -> objs' !! p = _objects reg !! p) /\
    Forall (fun e => executed_benchmark e ∈ registered reg) log /\
    (forall p b, p ∈ registered reg -> _objects reg !! p = Some b ->
       exists states0 states',
         states0 ≡ₚ _states b ++ generated r b /\
         objs' !! p =
           Some (set_states states' (length states0)
                   (set_samples (effective_samples r b)
                      (set_baseline (flagged objs0 p) b))) /\
         Forall2 (ran (_proc b)) states0 states' /\
         executions_by p log = executions_of p 0 states0).
Proof.
  intros Hwf Hrunnable Haccountable Hfuel.
  destruct (execute_spec fuel r random_seed random_device reg w Hwf Hrunnable Hfuel)
    as (objs0 & objs' & w' & log & Hcollect & Hexec & Hlen & Hframe & Hlog & Hspec).
  unfold every_registered in *. rewrite Forall_forall in Hrunnable, Haccountable.
  destruct (generate_report_spec r (_suites reg) objs') as (rpt & Hrpt & Hreports).
  { fold (registered reg). rewrite Forall_forall. intros p Hp.
    destruct (registered_live reg p Hwf Hp) as [b Hb].
    destruct (Hspec p b Hp Hb) as (states0 & states' & Hperm & Hb' & Hran & _).
    destruct (Hrunnable p Hp b Hb) as (Hsamples & _ & _).
    destruct (Haccountable p Hp b Hb) as (Hkeeps & Hmax).
    eexists. split; [exact Hb'|]. apply report_of_benchmark_spec.
    cbn [set_states _states]. change (effective_state_iterations r _)
      with (effective_state_iterations r b).
    rewrite Forall_forall. intros dim Hdim.
    pose proof (length_group_after r b dim states0 states' Hkeeps Hperm Hran) as Hcount.
    pose proof (multiplicity_pos dim _ Hdim).
    pose proof (length_group_le dim states').
    apply Forall2_length in Hran. rewrite Hperm in Hran. nia. }
  exists objs0, objs', w', log, rpt. unfold run_benchmarks.
  rewrite Hexec. cbn [mbind outcome_bind]. rewrite Hrpt. cbn [mbind outcome_bind].
  repeat (split; [assumption || reflexivity|]). exact Hspec.
Qed.

(** *** The order of the calls does not depend on what the calls do *)

Lemma schedule_step_inv (fuel : nat) (benchmarks : list pointer) objs rnd
    (w : World) (log : list execution)
    (out : list benchmark_impl * minstd_rand * World * list execution) :
  benchmarks <> [] ->
  schedule (S fuel) benchmarks objs rnd w log = Done out ->
  let i := Z.to_nat ((minstd_rand_next rnd).1 mod Z.of_nat (length benchmarks)) in
  exists p b s s' w',
    benchmarks !! i = Some p /\
    objs !! p = Some b /\
    _states b !! _istate b = Some s /\
    _proc b s w = Done (s', w') /\
    schedule fuel
      (if decide (S (_istate b) = length (_states b))
       then delete i benchmarks else benchmarks)
      (<[p := set_states (<[_istate b := s']> (_states b)) (S (_istate b)) b]> objs)
      (minstd_rand_next rnd).2 w'
      (log ++ [{| executed_benchmark := p;
                  executed_state := _istate b;
                  executed_iterations := iterations s |}]) = Done out.
Proof.
  intros Hne Hrun i.
  destruct (pick_in_range (minstd_rand_next rnd).1 benchmarks Hne) as [p Hp].
  fold i in Hp.
  destruct (objs !! p) as [b|] eqn:Hb.
  2: { destruct benchmarks; [congruence|]. cbn [schedule minstd_rand_next] in Hrun.
       cbn [minstd_rand_next fst] in i. fold i in Hrun. rewrite Hp in Hrun.
       cbn [from_option mbind outcome_bind] in Hrun. unfold deref in Hrun.
       rewrite Hb in Hrun. discriminate. }
  destruct (_states b !! _istate b) as [s|] eqn:Hs.
  2: { destruct benchmarks; [congruence|]. cbn [schedule minstd_rand_next] in Hrun.
       cbn [minstd_rand_next fst] in i. fold i in Hrun. rewrite Hp in Hrun.
       cbn [from_option mbind outcome_bind] in Hrun. unfold deref in Hrun.
       rewrite Hb in Hrun. cbn [from_option mbind outcome_bind] in Hrun.
       rewrite Hs in Hrun. discriminate. }
  destruct (_proc b s w) as [[s' w']| |] eqn:Hproc.
  2, 3: destruct benchmarks; [congruence|]; cbn [schedule minstd_rand_next] in Hrun;
       cbn [minstd_rand_next fst] in i; fold i in Hrun; rewrite Hp in Hrun;
       cbn [from_option mbind outcome_bind] in Hrun; unfold deref in Hrun;
       rewrite Hb in Hrun; cbn [from_option mbind outcome_bind] in Hrun;
       rewrite Hs in Hrun; cbn [from_option mbind outcome_bind] in Hrun;
       rewrite Hproc in Hrun; discriminate.
  exists p, b, s, s', w'.
  rewrite <- (schedule_step fuel benchmarks objs rnd w w' log i p b s s'
                Hne eq_refl Hp Hb Hs Hproc).
  auto.
Qed.

Lemma plan_head b1 b2 (s1 s2 : state) :
  plan b1 = plan b2 ->
  _states b1 !! _istate b1 = Some s1 ->
  _states b2 !! _istate b2 = Some s2 ->
  _istate b1 = _istate b2 /\
  length (_states b1) = length (_states b2) /\
  iterations s1 = iterations s2 /\
  forall s1' s2' : state,
    plan (set_states (<[_istate b1 := s1']> (_states b1)) (S (_istate b1)) b1) =
    plan (set_states (<[_istate b2 := s2']> (_states b2)) (S (_istate b2)) b2).
Proof.
  unfold plan. intros Hplan Hs1 Hs2.
  injection Hplan as Hi Hlen Hdrop.
  assert (H1 : (iterations <$> _states b1) !! _istate b1 = Some (iterations s1))
    by (rewrite list_lookup_fmap, Hs1; reflexivity).
  assert (H2 : (iterations <$> _states b2) !! _istate b2 = Some (iterations s2))
    by (rewrite list_lookup_fmap, Hs2; reflexivity).
  rewrite (drop_S _ _ _ H1), (drop_S _ _ _ H2) in Hdrop.
  injection Hdrop as Hit Hdrop.
  repeat (split; [assumption|]).
  intros s1' s2'. cbn [set_states _istate _states].
  rewrite !length_insert, !list_fmap_insert, !drop_insert_lt by lia.
  rewrite Hdrop, Hlen, Hi. reflexivity.
Qed.

Lemma schedule_deterministic (fuel1 : nat) :
  forall (fuel2 : nat) (benchmarks : list pointer) objs1 objs2 rnd (w1 w2 : World)
         (log : list execution) out1 out2,
    plan <$> objs1 = plan <$> objs2 ->
    schedule fuel1 benchmarks objs1 rnd w1 log = Done out1 ->
    schedule fuel2 benchmarks objs2 rnd w2 log = Done out2 ->
    out1.2 = out2.2.
Proof.
  induction fuel1 as [|fuel1 IH];
    intros fuel2 benchmarks objs1 objs2 rnd w1 w2 log out1 out2 Hplans Hrun1 Hrun2.
  all: destruct benchmarks as [|q0 rest] eqn:Hbs.
  1, 3: destruct fuel2; cbn in Hrun1, Hrun2;
        injection Hrun1 as <-; injection Hrun2 as <-; reflexivity.
  - discriminate.
  - destruct fuel2 as [|fuel2]; [discriminate|].
    rewrite <- Hbs in *. assert (Hne : benchmarks <> []) by (subst; discriminate).
    clear Hbs q0 rest.
    apply schedule_step_inv in Hrun1
      as (p1 & b1 & s1 & s1' & w1' & Hp1 & Hb1 & Hs1 & _ & Hrun1); [|exact Hne].
    apply schedule_step_inv in Hrun2
      as (p2 & b2 & s2 & s2' & w2' & Hp2 & Hb2 & Hs2 & _ & Hrun2); [|exact Hne].
    assert (p2 = p1) as -> by congruence.
    assert (Hplan : plan b1 = plan b2).
    { assert (H : (plan <$> objs1) !! p1 = (plan <$> objs2) !! p1) by congruence.
      rewrite !list_lookup_fmap, Hb1, Hb2 in H. cbn in H. congruence. }
    destruct (plan_head b1 b2 s1 s2 Hplan Hs1 Hs2) as (Hi & Hlen & Hit & Hnext).
    rewrite <- Hi, <- Hlen, <- Hit in Hrun2.
    eapply IH; [|exact Hrun1|exact Hrun2].
    rewrite !list_fmap_insert, Hplans. f_equal.
    rewrite <- Hi in Hnext. apply Hnext.
Qed.

Lemma effective_seed_explicit (random_seed random_device : Z) :
  random_seed <> -1 -> effective_seed random_seed random_device = random_seed.
Proof.
  intros Hne. unfold effective_seed.
  destruct (Z.eqb_spec random_seed (-1)); [contradiction | reflexivity].
Qed.

Lemma run_benchmarks_deterministic (fuel1 fuel2 : nat) r (random_seed rd1 rd2 : Z)
    reg (w1 w2 : World) out1 out2 :
  random_seed <> -1 ->
  run_benchmarks uint_fast32_bits fuel1 r random_seed rd1 reg w1 = Done out1 ->
  run_benchmarks uint_fast32_bits fuel2 r random_seed rd2 reg w2 = Done out2 ->
  out1.2 = out2.2.
Proof.
  intros Hseed Hrun1 Hrun2. unfold run_benchmarks in Hrun1, Hrun2.
  apply bind_Done in Hrun1 as ([[objs1 w1'] log1] & Hexec1 & Hrpt1).
  apply bind_Done in Hrun2 as ([[objs2 w2'] log2] & Hexec2 & Hrpt2).
  apply bind_Done in Hrpt1 as (rpt1 & _ & Hout1).
  apply bind_Done in Hrpt2 as (rpt2 & _ & Hout2).
  injection Hout1 as <-. injection Hout2 as <-. cbn [snd].
  unfold execute in Hexec1, Hexec2.
  apply bind_Done in Hexec1 as ([[objs bs] rnd] & Hprep1 & Hsched1).
  apply bind_Done in Hexec2 as ([[objs' bs'] rnd'] & Hprep2 & Hsched2).
  unfold prepare in Hprep1, Hprep2.
  rewrite effective_seed_explicit in Hprep1, Hprep2 by exact Hseed.
  rewrite Hprep1 in Hprep2. injection Hprep2 as <- <- <-.
  apply bind_Done in Hsched1 as ([[[o1 g1] v1] l1] & Hsched1 & Hret1).
  apply bind_Done in Hsched2 as ([[[o2 g2] v2] l2] & Hsched2 & Hret2).
  injection Hret1 as <- <- <-. injection Hret2 as <- <- <-.
  exact (schedule_deterministic _ _ _ _ _ _ _ _ _ _ _ eq_refl Hsched1 Hsched2).
Qed.

(** *** Finding a benchmark in the registry and in the report *)

Lemma registry_lookup_registered reg (i j : nat) p :
  registry_lookup reg i j = Some p -> p ∈ registered reg.
Proof.
  unfold registry_lookup, registered. intros H.
  destruct (_suites reg !! i) as [[n suite]|] eqn:Hi; [|discriminate].
  apply (elem_of_suites (_suites reg) n suite p).
  - eapply list_elem_of_lookup_2. exact Hi.
  - eapply list_elem_of_lookup_2. exact H.
Qed.

Lemma reports_lookup r objs reg (rpt : report) (i j : nat) p :
  reports r objs (_suites reg) rpt ->
  registry_lookup reg i j = Some p ->
  exists b, objs !! p = Some b /\ report_lookup rpt i j = Some (report_entry r b).
Proof.
  unfold reports, registry_lookup, report_lookup. intros Hreports Hp.
  destruct (_suites reg !! i) as [suite|] eqn:Hi; [|discriminate].
  destruct (Forall2_lookup_l _ _ _ i suite Hreports Hi) as (rs & Hrs & _ & Hbs).
  rewrite Hrs.
  destruct (Forall2_lookup_l _ _ _ j p Hbs Hp) as (rb & Hrb & b & Hb & ->).
  eauto.
Qed.

Lemma executions_of_states p (first : nat) (states : list state) :
  executed_state <$> executions_of p first states = seq first (length states).
Proof.
  revert first. induction states as [|s rest IH]; intros first; [reflexivity|].
  rewrite executions_of_cons. cbn [fmap list_fmap length seq executed_state].
  f_equal. apply IH.
Qed.

Lemma executions_of_group p (first : nat) (dim : Z) (states : list state) :
  length (filter (fun e => executed_iterations e = dim)
                 (executions_of p first states)) =
    length (group dim states).
Proof.
  revert first. induction states as [|s rest IH]; intros first; [reflexivity|].
  rewrite executions_of_cons. unfold group. rewrite !filter_cons.
  fold (group dim rest). cbn [executed_iterations].
  destruct (decide (iterations s = dim)); cbn [length]; rewrite IH; reflexivity.
Qed.

Lemma executions_of_iterations p (first : nat) (states : list state) :
  executed_iterations <$> executions_of p first states = iterations <$> states.
Proof.
  revert first. induction states as [|s rest IH]; intros first; [reflexivity|].
  rewrite executions_of_cons. cbn [fmap list_fmap executed_iterations].
  f_equal. apply IH.
Qed.

(** *** Running again on the registry a run has left *)





(** *** The engine and the positions it draws *)

Lemma minstd_rand_seed_range (s : Z) :
  minstd_rand_range (_x (minstd_rand_seed uint_fast32_bits s)).
Proof.
  unfold minstd_rand_range, minstd_rand_seed, minstd_modulus. cbn [_x].
  pose proof (Z.mod_pos_bound (wrap_unsigned uint_fast32_bits s) 2147483647 eq_refl).
  destruct (Z.eqb_spec (wrap_unsigned uint_fast32_bits s mod 2147483647) 0); lia.
Qed.

Lemma minstd_rand_next_range rnd :
  minstd_rand_range (_x rnd) ->
  minstd_rand_range (minstd_rand_next rnd).1 /\
  _x (minstd_rand_next rnd).2 = (minstd_rand_next rnd).1.
Proof.
  unfold minstd_rand_range, minstd_rand_next, minstd_modulus, minstd_multiplier.
  cbn [fst snd _x]. intros Hx. split; [|reflexivity].
  pose proof (Z.mod_pos_bound (48271 * _x rnd) 2147483647 eq_refl) as Hbound.
  assert (Hinv : _x rnd = (1899818559 * ((48271 * _x rnd) mod 2147483647))
                            mod 2147483647).
  { rewrite Zmult_mod_idemp_r.
    replace (1899818559 * (48271 * _x rnd))
      with (_x rnd + (42704 * _x rnd) * 2147483647) by lia.
    rewrite Z_mod_plus_full, Z.mod_small by lia. reflexivity. }
  destruct (Z.eq_dec ((48271 * _x rnd) mod 2147483647) 0) as [Hzero|Hnz]; [|lia].
  rewrite Hzero, Z.mul_0_r, Zmod_0_l in Hinv. lia.
Qed.

(** Every value of the range is returned from some state of the range:
    48271 has the inverse 1899818559 modulo 2147483647. *)
Lemma minstd_rand_next_onto (x : Z) :
  minstd_rand_range x ->
  exists rnd, minstd_rand_range (_x rnd) /\ (minstd_rand_next rnd).1 = x.
Proof.
  unfold minstd_rand_range, minstd_rand_next, minstd_modulus, minstd_multiplier.
  intros Hx. exists {| _x := (1899818559 * x) mod 2147483647 |}. cbn [_x fst].
  pose proof (Z.mod_pos_bound (1899818559 * x) 2147483647 eq_refl) as Hbound.
  assert (Hback : (48271 * ((1899818559 * x) mod 2147483647)) mod 2147483647 = x).
  { rewrite Zmult_mod_idemp_r.
    replace (48271 * (1899818559 * x))
      with (x + (42704 * x) * 2147483647) by lia.
    rewrite Z_mod_plus_full, Z.mod_small by lia. reflexivity. }
  split; [|exact Hback].
  destruct (Z.eq_dec ((1899818559 * x) mod 2147483647) 0) as [Hzero|Hnz]; [|lia].
  rewrite Hzero, Z.mul_0_r, Zmod_0_l in Hback. lia.
Qed.

Lemma position_le (x : Z) (len : nat) :
  (Z.to_nat (x mod (Z.of_nat len + 1)) <= len)%nat.
Proof.
  pose proof (Z.mod_pos_bound x (Z.of_nat len + 1)). lia.
Qed.

(** The engine values that give a position are an arithmetic progression
    of [hits k pos] members. *)
Lemma position_class (k pos x : Z) :
  0 < k -> 0 <= pos < k ->
  (minstd_rand_range x /\ x mod k = pos) <->
  (exists j, first_hit pos <= j < first_hit pos + hits k pos /\ x = pos + k * j).
Proof.
  intros Hk Hpos. unfold minstd_rand_range, hits, first_hit, minstd_modulus.
  split.
  - intros [Hx Hmod]. exists (x / k).
    pose proof (Z.div_mod x k ltac:(lia)) as Hdiv. rewrite Hmod in Hdiv.
    split; [|lia].
    assert (Hup : x / k <= (2147483647 - 1 - pos) / k)
      by (apply Z.div_le_lower_bound; lia).
    destruct (Z.eqb_spec pos 0) as [->|Hne]; [|split; [|lia]].
    + assert (0 < x / k) by nia. lia.
    + apply Z.div_pos; lia.
  - intros (j & Hj & ->).
    pose proof (Z.mul_div_le (2147483647 - 1 - pos) k Hk) as Hle.
    split.
    + destruct (Z.eqb_spec pos 0) as [->|Hne]; nia.
    + rewrite (Z.mul_comm k j), Z_mod_plus_full. apply Z.mod_small. lia.
Qed.

Lemma hits_balanced (k pos pos' : Z) :
  0 < k -> 0 <= pos < k -> 0 <= pos' < k ->
  Z.abs (hits k pos - hits k pos') <= 1.
Proof.
  intros Hk Hpos Hpos'.
  assert (Hrange : forall q, 0 <= q < k ->
            (minstd_modulus - 1) / k <= hits k q <= (minstd_modulus - 1) / k + 1).
  { intros q Hq. unfold hits, first_hit.
    destruct (Z.eqb_spec q 0) as [->|Hne].
    - rewrite Z.sub_0_r. lia.
    - assert ((minstd_modulus - 1 - q) / k <= (minstd_modulus - 1) / k)
        by (apply Z.div_le_mono; lia).
      assert ((minstd_modulus - 1) / k - 1 <= (minstd_modulus - 1 - q) / k).
      { replace ((minstd_modulus - 1) / k - 1)
          with ((minstd_modulus - 1 + (-1) * k) / k)
          by (rewrite Z.div_add by lia; lia).
        apply Z.div_le_mono; lia. }
      lia. }
  pose proof (Hrange pos Hpos). pose proof (Hrange pos' Hpos'). lia.
Qed.

Lemma hits_nonneg (k pos : Z) : 0 < k -> 0 <= pos < k -> 0 <= hits k pos.
Proof.
  intros Hk Hpos. unfold hits, first_hit, minstd_modulus.
  destruct (Z.eqb_spec pos 0) as [->|Hne].
  - assert (0 <= (2147483647 - 1 - 0) / k) by (apply Z.div_pos; lia). lia.
  - assert (-1 <= (2147483647 - 1 - pos) / k)
      by (apply Z.div_le_lower_bound; lia).
    lia.
Qed.

(** The first two positions are selected by equally many values only
    when the number of positions divides the number of values. *)
Lemma hits_bias (k : Z) :
  1 < k ->
  (2147483646 mod k = 0 -> hits k 1 = hits k 0) /\
  (2147483646 mod k <> 0 -> hits k 1 = hits k 0 + 1).
Proof.
  intros Hk. unfold hits, first_hit, minstd_modulus. cbn [Z.eqb].
  change (2147483647 - 1 - 0) with 2147483646.
  change (2147483647 - 1 - 1) with 2147483645.
  pose proof (Z.div_mod 2147483646 k ltac:(lia)) as Hdiv.
  pose proof (Z.mod_pos_bound 2147483646 k ltac:(lia)) as Hmod.
  split; intros Hrem.
  - assert (2147483645 / k = 2147483646 / k - 1); [|lia].
    symmetry. apply Z.div_unique with (r := k - 1); lia.
  - assert (2147483645 / k = 2147483646 / k); [|lia].
    symmetry. apply Z.div_unique with (r := 2147483646 mod k - 1); lia.
Qed.

(** The values of the engine that select a position, counted. *)
Lemma drawn_by_hits (size pos : nat) :
  (pos <= size)%nat ->
  drawn_by size pos (hits (Z.of_nat size + 1) (Z.of_nat pos)).
Proof.
  intros Hpos.
  set (k := Z.of_nat size + 1). set (c := Z.of_nat pos).
  assert (Hk : 0 < k) by lia. assert (Hc : 0 <= c < k) by lia.
  exists ((fun j => c + k * j) <$> seqZ (first_hit c) (hits k c)).
  split; [|split].
  - apply NoDup_fmap_2; [|apply NoDup_seqZ]. intros j j' Hj. nia.
  - rewrite length_fmap, length_seqZ. pose proof (hits_nonneg k c Hk Hc). lia.
  - intros x. rewrite list_elem_of_fmap.
    assert (Hiff : position x size = pos <-> x mod k = c).
    { unfold position. fold k. pose proof (Z.mod_pos_bound x k Hk). lia. }
    rewrite Hiff, (position_class k c x Hk Hc). split.
    + intros (j & -> & Hj). apply elem_of_seqZ in Hj. exists j. auto.
    + intros (j & Hj & ->). exists j. split; [reflexivity|].
      apply elem_of_seqZ. exact Hj.
Qed.

(** *** The positions of the new states *)

Lemma minstd_rand_discard_S (k : nat) rnd :
  minstd_rand_discard (S k) rnd = minstd_rand_discard k (minstd_rand_next rnd).2.
Proof.
  exact (Nat.iter_succ_r k (fun rnd => (minstd_rand_next rnd).2) rnd).
Qed.

Lemma minstd_rand_discard_add (a k : nat) rnd :
  minstd_rand_discard (a + k) rnd =
    minstd_rand_discard k (minstd_rand_discard a rnd).
Proof.
  unfold minstd_rand_discard. rewrite Nat.add_comm.
  exact (Nat.iter_add k a (fun rnd => (minstd_rand_next rnd).2) rnd).
Qed.

Lemma drawn_position_S rnd (size k : nat) :
  drawn_position rnd size (S k) =
    drawn_position (minstd_rand_next rnd).2 (S size) k.
Proof.
  unfold drawn_position. rewrite minstd_rand_discard_S. f_equal. lia.
Qed.

Lemma drawn_position_add rnd (size a k : nat) :
  drawn_position rnd size (a + k) =
    drawn_position (minstd_rand_discard a rnd) (size + a) k.
Proof.
  unfold drawn_position. rewrite minstd_rand_discard_add. f_equal. lia.
Qed.

Lemma drawn_position_le rnd (size k : nat) :
  (drawn_position rnd size k <= size + k)%nat.
Proof. apply position_le. Qed.

Lemma emplace_spec {A} (index : nat) (x : A) (l : list A) :
  (index <= length l)%nat ->
  emplace index x l !! index = Some x /\
  take index (emplace index x l) = take index l /\
  drop (S index) (emplace index x l) = drop index l.
Proof.
  intros Hindex. unfold emplace. split; [|split].
  - rewrite lookup_app_r by (rewrite length_take; lia).
    rewrite length_take, Nat.min_l, Nat.sub_diag by lia. reflexivity.
  - rewrite take_app_le by (rewrite length_take; lia).
    rewrite take_take, Nat.min_id. reflexivity.
  - rewrite drop_app_ge by (rewrite length_take; lia).
    rewrite length_take, Nat.min_l by lia.
    replace (S index - index)%nat with 1%nat by lia. reflexivity.
Qed.

Lemma length_emplace {A} (index : nat) (x : A) (l : list A) :
  length (emplace index x l) = S (length l).
Proof.
  unfold emplace. rewrite length_app, length_take. cbn [length].
  rewrite length_drop. lia.
Qed.

Lemma emplace_each_app (positions1 positions2 : list nat)
    (news1 news2 states : list state) :
  length positions1 = length news1 ->
  emplace_each (positions1 ++ positions2) (news1 ++ news2) states =
    emplace_each positions2 news2 (emplace_each positions1 news1 states).
Proof.
  intros Hlen. unfold emplace_each.
  rewrite zip_with_app by exact Hlen. apply fold_left_app.
Qed.

Lemma emplace_each_spec (positions : list nat) :
  forall news states : list state,
    length positions = length news ->
    length (emplace_each positions news states) =
      (length states + length news)%nat /\
    emplace_each positions news states ≡ₚ states ++ news.
Proof.
  induction positions as [|index positions IH]; intros [|s news] states Hlen;
    try discriminate.
  - cbn. rewrite app_nil_r. split; [lia | reflexivity].
  - injection Hlen as Hlen.
    change (emplace_each (index :: positions) (s :: news) states)
      with (emplace_each positions news (emplace index s states)).
    destruct (IH news (emplace index s states) Hlen) as [Hlength Hperm].
    split.
    + rewrite Hlength, length_emplace. cbn [length]. lia.
    + rewrite Hperm, emplace_Permutation, <- app_assoc. reflexivity.
Qed.

(** The loop over the samples of one workload size. *)
Lemma emplace_samples_drawn (n : nat) (iters : Z) :
  forall (states : list state) rnd,
    emplace_samples n iters states rnd =
      (emplace_each (drawn_position rnd (length states) <$> seq 0 n)
                    (replicate n (new_state iters)) states,
       minstd_rand_discard n rnd).
Proof.
  induction n as [|n IH]; intros states rnd; [reflexivity|].
  cbn [emplace_samples minstd_rand_next fst snd]. rewrite IH, length_emplace.
  rewrite minstd_rand_discard_S. f_equal.
  cbn [seq replicate fmap list_fmap].
  change (emplace_each (?index :: ?positions) (?s :: ?news) ?l)
    with (emplace_each positions news (emplace index s l)).
  rewrite <- fmap_S_seq, <- list_fmap_compose.
  f_equal.
  - apply list_fmap_ext. intros ? k _. cbn. symmetry. apply drawn_position_S.
  - unfold drawn_position, position, minstd_rand_discard.
    cbn [Nat.iter minstd_rand_next fst]. rewrite Nat.add_0_r. reflexivity.
Qed.

(** The loop over the workload sizes. *)
Lemma fill_states_drawn (state_iterations : list Z) (samples : Z) :
  forall (states : list state) rnd,
    let news :=
      flat_map (fun iters => replicate (Z.to_nat samples) (new_state iters))
               state_iterations in
    fill_states state_iterations samples states rnd =
      (emplace_each (drawn_position rnd (length states) <$> seq 0 (length news))
                    news states,
       minstd_rand_discard (length news) rnd).
Proof.
  induction state_iterations as [|iters rest IH]; intros states rnd; cbn zeta;
    [reflexivity|].
  cbn [fill_states flat_map]. rewrite emplace_samples_drawn, IH.
  set (n := Z.to_nat samples).
  set (news := flat_map (fun iters => replicate n (new_state iters)) rest).
  assert (Hn : length (drawn_position rnd (length states) <$> seq 0 n) =
               length (replicate n (new_state iters)))
    by (rewrite length_fmap, length_seq, length_replicate; reflexivity).
  destruct (emplace_each_spec _ _ states Hn) as [Hlength _].
  rewrite Hlength, length_app, length_replicate.
  rewrite minstd_rand_discard_add. f_equal.
  rewrite seq_app, fmap_app, (emplace_each_app _ _ _ _ _ Hn). f_equal.
  rewrite (Nat.add_comm 0 n), <- fmap_add_seq, <- list_fmap_compose.
  apply list_fmap_ext. intros ? k _. cbn. symmetry. apply drawn_position_add.
Qed.

Lemma initialize_benchmark_drawn r b rnd :
  initialize_benchmark r b rnd =
    (set_states
       (emplace_each
          (drawn_position rnd (length (_states b))
             <$> seq 0 (length (generated r b)))
          (generated r b) (_states b))
       0 (set_samples (effective_samples r b) b),
     minstd_rand_discard (length (generated r b)) rnd).
Proof.
  unfold initialize_benchmark. cbn [set_samples _samples _states].
  rewrite fill_states_drawn. reflexivity.
Qed.

Lemma drawn_ext r objs objs' (benchmarks : list pointer) :
  (forall p, p ∈ benchmarks ->
     match objs' !! p with Some b => length (generated r b) | None => O end =
     match objs !! p with Some b => length (generated r b) | None => O end) ->
  drawn r objs' benchmarks = drawn r objs benchmarks.
Proof. intros H. apply sum_list_with_ext_in. exact H. Qed.

(** The loop over the benchmarks: the engine goes from one benchmark to
    the next. *)
Lemma initialize_benchmarks_drawn r (benchmarks : list pointer) :
  forall objs rnd,
    NoDup benchmarks ->
    Forall (fun p => (p < length objs)%nat) benchmarks ->
    exists objs',
      initialize_benchmarks r benchmarks objs rnd =
        Done (objs', minstd_rand_discard (drawn r objs benchmarks) rnd) /\
      (forall p, p ∉ benchmarks -> objs' !! p = objs !! p) /\
      (forall pre p post b,
         benchmarks = pre ++ p :: post -> objs !! p = Some b ->
         objs' !! p =
           Some (set_states
                   (emplace_each
                      (drawn_position
                         (minstd_rand_discard (drawn r objs pre) rnd)
                         (length (_states b))
                         <$> seq 0 (length (generated r b)))
                      (generated r b) (_states b))
                   0 (set_samples (effective_samples r b) b))).
Proof.
  induction benchmarks as [|q rest IH]; intros objs rnd Hnodup Hlive.
  - exists objs. split; [reflexivity|]. split; [auto|].
    intros [|? ?] p post b Heq; discriminate.
  - apply NoDup_cons in Hnodup as [Hq Hnodup].
    inversion Hlive as [|? ? Hqlive Hrest]; subst.
    destruct (deref_live objs q Hqlive) as (bq & Hbq & Hderef).
    cbn [initialize_benchmarks]. rewrite Hderef. cbn [mbind outcome_bind].
    rewrite initialize_benchmark_drawn.
    set (bq' := set_states _ 0 (set_samples (effective_samples r bq) bq)).
    destruct (IH (<[q := bq']> objs)
                 (minstd_rand_discard (length (generated r bq)) rnd) Hnodup)
      as (objs' & Hrun & Hframe & Hspec).
    { rewrite length_insert. assumption. }
    assert (Hdrawn : forall l : list pointer, q ∉ l ->
              drawn r (<[q := bq']> objs) l = drawn r objs l).
    { intros l Hl. apply drawn_ext. intros p Hp.
      rewrite list_lookup_insert_ne; [reflexivity|].
      intros ->. exact (Hl Hp). }
    assert (Hcons : forall l : list pointer,
              drawn r objs (q :: l) =
                (length (generated r bq) + drawn r objs l)%nat).
    { intros l. unfold drawn. cbn [sum_list_with]. rewrite Hbq. reflexivity. }
    exists objs'. split; [|split].
    + rewrite Hrun, (Hdrawn rest Hq), Hcons, minstd_rand_discard_add.
      reflexivity.
    + intros p Hp. apply not_elem_of_cons in Hp as [Hpq Hp].
      rewrite Hframe by exact Hp. apply list_lookup_insert_ne. congruence.
    + intros pre p post b Heq Hb. destruct pre as [|q' pre].
      * cbn [app] in Heq. injection Heq as <- <-.
        rewrite Hframe by exact Hq.
        rewrite list_lookup_insert_eq by exact Hqlive.
        assert (bq = b) as -> by congruence. reflexivity.
      * cbn [app] in Heq. injection Heq as <- ->.
        assert (Hpq : p <> q).
        { intros ->. apply Hq. apply elem_of_app. right. left. }
        assert (Hqpre : q ∉ pre).
        { intros Hin. apply Hq. apply elem_of_app. left. exact Hin. }
        rewrite (Hspec pre p post b eq_refl)
          by (rewrite list_lookup_insert_ne by congruence; exact Hb).
        rewrite (Hdrawn pre Hqpre), Hcons, minstd_rand_discard_add.
        reflexivity.
Qed.

(** *** The calls of the log are the calls of the loop *)

Lemma schedule_replay (fuel : nat) :
  forall (benchmarks : list pointer) objs rnd (w : World) (log : list execution)
         objs' rnd' w' log1,
    schedule fuel benchmarks objs rnd w log = Done (objs', rnd', w', log1) ->
    exists log', log1 = log ++ log' /\ replay log' objs w = Done (objs', w').
Proof.
  induction fuel as [|fuel IH];
    intros benchmarks objs rnd w log objs' rnd' w' log1 Hrun.
  all: destruct benchmarks as [|q0 rest] eqn:Hbs.
  1, 3: cbn in Hrun; injection Hrun as <- <- <- <-; exists [];
        rewrite app_nil_r; auto.
  - discriminate.
  - rewrite <- Hbs in *. assert (Hne : benchmarks <> []) by (subst; discriminate).
    clear Hbs q0 rest.
    apply schedule_step_inv in Hrun
      as (p & b & s & s' & w1 & Hp & Hb & Hs & Hproc & Hrun); [|exact Hne].
    apply IH in Hrun as (log' & -> & Hreplay).
    eexists (_ :: log'). split; [rewrite <- app_assoc; reflexivity|].
    cbn [replay executed_benchmark executed_state]. unfold deref. rewrite Hb.
    cbn [from_option mbind outcome_bind]. rewrite Hs.
    cbn [from_option mbind outcome_bind]. rewrite Hproc.
    cbn [mbind outcome_bind]. exact Hreplay.
Qed.

(** The run, from the prepared objects on: the loop returns, what it
    has done is what the calls of its log do, made in that order, and
    every benchmark has been called on the states of its prepared
    vector, one after the other. *)
Lemma execute_prepared (fuel : nat) r (random_seed random_device : Z) reg
    (w : World) :
  registry_wf reg ->
  every_registered (runnable r) reg ->
  (workload r reg <= fuel)%nat ->
  exists objs0 objs1 rnd1 objs' w' log,
    collect_benchmarks (_suites reg) (_objects reg) [] =
      Done (objs0, registered reg) /\
    prepare uint_fast32_bits r random_seed random_device reg =
      Done (objs1, registered reg, rnd1) /\
    execute uint_fast32_bits fuel r random_seed random_device reg w =
      Done (objs', w', log) /\
    replay log objs1 w = Done (objs', w') /\
    Forall (fun e => executed_benchmark e ∈ registered reg) log /\
    (forall p b, p ∈ registered reg -> _objects reg !! p = Some b ->
       exists states0 states',
         states0 ≡ₚ _states b ++ generated r b /\
         objs1 !! p =
           Some (set_states states0 0
                   (set_samples (effective_samples r b)
                      (set_baseline (flagged objs0 p) b))) /\
         objs' !! p =
           Some (set_states states' (length states0)
                   (set_samples (effective_samples r b)
                      (set_baseline (flagged objs0 p) b))) /\
         Forall2 (ran (_proc b)) states0 states' /\
         executions_by p log = executions_of p 0 states0).
Proof.
  intros Hwf Hrunnable Hfuel.
  destruct (prepare_spec r random_seed random_device reg Hwf)
    as (objs0 & objs1 & rnd1 & Hcollect & Hprepare & Hlen1 & Hframe1 & Hspec1).
  unfold every_registered in Hrunnable. rewrite Forall_forall in Hrunnable.
  destruct (schedule_spec fuel (registered reg) objs1 rnd1 w [])
    as (objs' & rnd' & w' & log & Hrun & Hlen & Hframe & Hlog & Hspec).
  - apply Hwf.
  - rewrite Forall_forall. intros p Hp.
    destruct (registered_live reg p Hwf Hp) as [b Hb].
    destruct (Hspec1 p b Hp Hb) as (states0 & Hb1 & Hperm).
    destruct (Hrunnable p Hp b Hb) as (Hsamples & Hsizes & Hruns).
    eexists. split; [exact Hb1|]. cbn [set_states _istate _states _proc drop].
    split.
    + rewrite Hperm, length_app, length_generated.
      destruct (effective_state_iterations r b); [congruence|]. cbn [length]. lia.
    + rewrite Hperm. exact Hruns.
  - etransitivity; [|exact Hfuel]. unfold workload.
    apply Nat.eq_le_incl, sum_list_with_ext_in. intros p Hp.
    destruct (registered_live reg p Hwf Hp) as [b Hb].
    destruct (Hspec1 p b Hp Hb) as (states0 & Hb1 & Hperm).
    unfold pending. rewrite Hb1, Hb. cbn [set_states _istate _states].
    rewrite Hperm. lia.
  - cbn [app] in Hrun.
    destruct (schedule_replay fuel (registered reg) objs1 rnd1 w [] _ _ _ _ Hrun)
      as (log' & Hlog' & Hreplay).
    cbn [app] in Hlog'. subst log'.
    exists objs0, objs1, rnd1, objs', w', log.
    split; [exact Hcollect|]. split; [exact Hprepare|]. split.
    { unfold execute. rewrite Hprepare. cbn [mbind outcome_bind].
      rewrite Hrun. reflexivity. }
    split; [exact Hreplay|]. split; [exact Hlog|].
    intros p b Hp Hb.
    destruct (Hspec1 p b Hp Hb) as (states0 & Hb1 & Hperm).
    destruct (Hspec p _ Hp Hb1) as (states' & Hb' & _ & Hran & Hexec).
    cbn [set_states _istate _states _proc drop] in Hb', Hran, Hexec.
    exists states0, states'. auto.
Qed.

(** ** The claims about the runner *)

(** C1.  Every registered benchmark gets, from one call of
    [run_benchmarks], the effective sample count of new states for each
    of its effective workload sizes: [|W| * s] states in all, and [s]
    for each size when the sizes are pairwise different.  The scheduling
    loop then calls the benchmark on the states of its vector one after
    the other, each exactly once and none left over, and returns: the
    objects and the world it leaves are those the calls of the log
    leave, made in the order of the log from the prepared objects on;
    the calls of a benchmark are the calls on state 0, 1, ... of its
    prepared vector, and the vector it holds afterwards consists, state
    by state, of what its callable has made of them.  The vector holds
    the new states and those it held before the call.  So on a registry
    without earlier states exactly [s] states of each size are executed.
    The run returns a report as well when the benchmarks can be
    accounted for. *)
Theorem every_state_runs_once (fuel : nat) r (random_seed random_device : Z) reg
    (w : World) :
  registry_wf reg ->
  every_registered (runnable r) reg ->
  (workload r reg <= fuel)%nat ->
  exists objs1 rnd1 objs' w' log,
    prepare uint_fast32_bits r random_seed random_device reg =
      Done (objs1, registered reg, rnd1) /\
    execute uint_fast32_bits fuel r random_seed random_device reg w =
      Done (objs', w', log) /\
    replay log objs1 w = Done (objs', w') /\
    (every_registered (accountable r) reg ->
     exists rpt,
       run_benchmarks uint_fast32_bits fuel r random_seed random_device reg w =
         Done (rpt, set_objects objs' reg, w', log)) /\
    Forall (fun e => executed_benchmark e ∈ registered reg) log /\
    forall p b, p ∈ registered reg -> _objects reg !! p = Some b ->
      let sizes := effective_state_iterations r b in
      let count := Z.to_nat (effective_samples r b) in
      length (generated r b) = (length sizes * count)%nat /\
      (NoDup sizes -> forall dim, dim ∈ sizes ->
         length (group dim (generated r b)) = count) /\
      exists states0 b1 b',
        states0 ≡ₚ _states b ++ generated r b /\
        objs1 !! p = Some b1 /\
        _states b1 = states0 /\
        _istate b1 = O /\
        _proc b1 = _proc b /\
        executions_by p log = executions_of p 0 states0 /\
        executed_state <$> executions_by p log = seq 0 (length states0) /\
        executed_iterations <$> executions_by p log = iterations <$> states0 /\
        objs' !! p = Some b' /\
        _proc b' = _proc b /\
        Forall2 (ran (_proc b)) states0 (_states b') /\
        length (_states b') = length states0 /\
        _istate b' = length states0 /\
        (_states b = [] -> NoDup sizes -> forall dim, dim ∈ sizes ->
           length (filter (fun e => executed_iterations e = dim)
                          (executions_by p log)) = count).
Proof.
  intros Hwf Hrunnable Hfuel.
  destruct (execute_prepared fuel r random_seed random_device reg w
              Hwf Hrunnable Hfuel)
    as (objs0 & objs1 & rnd1 & objs' & w' & log & _ & Hprepare & Hexec
        & Hreplay & Hlog & Hspec).
  exists objs1, rnd1, objs', w', log. split; [exact Hprepare|].
  split; [exact Hexec|]. split; [exact Hreplay|].
  split; [|split; [exact Hlog|]].
  - intros Haccountable.
    destruct (run_benchmarks_spec fuel r random_seed random_device reg w
                Hwf Hrunnable Haccountable Hfuel)
      as (? & objs'' & w'' & log'' & rpt & _ & Hexec' & Hrun & _).
    rewrite Hexec in Hexec'. injection Hexec' as <- <- <-. eauto.
  - intros p b Hp Hb sizes count.
    split; [apply length_generated|]. split.
    + intros Hnodup dim Hdim. rewrite length_group_generated.
      fold sizes. rewrite (multiplicity_NoDup dim sizes Hnodup Hdim). subst count. lia.
    + destruct (Hspec p b Hp Hb)
        as (states0 & states' & Hperm & Hb1 & Hb' & Hran & Hby).
      exists states0. eexists _, _. split; [exact Hperm|].
      split; [exact Hb1|]. cbn [set_states set_samples set_baseline
                                _states _istate _proc].
      do 3 (split; [reflexivity|]).
      split; [exact Hby|].
      split; [rewrite Hby; apply executions_of_states|].
      split; [rewrite Hby; apply executions_of_iterations|].
      split; [exact Hb'|]. cbn [set_states set_samples set_baseline
                                _states _istate _proc].
      split; [reflexivity|]. split; [exact Hran|].
      split; [symmetry; eapply Forall2_length; exact Hran|].
      split; [reflexivity|].
      intros Hempty Hnodup dim Hdim.
      rewrite Hby, executions_of_group. unfold group. rewrite Hperm, Hempty.
      cbn [app]. fold (group dim (generated r b)).
      rewrite length_group_generated. fold sizes.
      rewrite (multiplicity_NoDup dim sizes Hnodup Hdim). subst count. lia.
Qed.

(** C4, as amended.  After the baseline resolution every non-empty suite
    has at least one benchmark flagged as baseline: the flags the user
    set stay as they are, and a suite without any gets the flag on its
    first benchmark.  So the number of baselines of a suite is the
    number the user flagged, or one if that is zero; it is one exactly
    when the user flagged at most one. *)
Theorem baseline_resolution reg :
  registry_wf reg ->
  exists objs',
    collect_benchmarks (_suites reg) (_objects reg) [] =
      Done (objs', registered reg) /\
    (forall p, flagged (_objects reg) p = true -> flagged objs' p = true) /\
    Forall (fun suite : option string * list pointer =>
              suite.2 <> [] ->
              count_baselines objs' suite.2 =
                Nat.max 1 (count_baselines (_objects reg) suite.2) /\
              (count_baselines (_objects reg) suite.2 = O ->
                 exists front, head suite.2 = Some front /\
                               flagged objs' front = true))
           (_suites reg).
Proof.
  intros [Hnodup Hlive].
  destruct (collect_benchmarks_baselines (_suites reg) (_objects reg) []
              Hnodup Hlive) as (objs' & Hrun & Hcounts).
  destruct (collect_benchmarks_spec (_suites reg) (_objects reg) [] Hlive)
    as (objs'' & Hrun' & _ & _ & Hflags).
  rewrite Hrun in Hrun'. injection Hrun' as <-.
  exists objs'. split; [exact Hrun|]. split; [|exact Hcounts].
  intros p. unfold flagged.
  destruct (_objects reg !! p) as [b|] eqn:Hb; [|discriminate].
  destruct (Hflags p b Hb) as (v & -> & Hv). exact Hv.
Qed.

(** C5, as amended.  The seed -1, which is also the default argument,
    is replaced by the value of [std::random_device].  Every other seed,
    the negative ones too, is used as it is: the preparation of the run
    does not read the random device, and the order of the calls is the
    same in any two runs on the same registry, whatever the random
    device, the world and the callables do. *)
Theorem seed_policy (fuel1 fuel2 : nat) r (random_seed rd1 rd2 : Z) reg
    (w1 w2 : World) out1 out2 :
  effective_seed (-1) rd1 = wrap_int (wrap_uint rd1) /\
  (random_seed <> -1 ->
   effective_seed random_seed rd1 = random_seed /\
   prepare uint_fast32_bits r random_seed rd1 reg =
     prepare uint_fast32_bits r random_seed rd2 reg /\
   (run_benchmarks uint_fast32_bits fuel1 r random_seed rd1 reg w1 = Done out1 ->
    run_benchmarks uint_fast32_bits fuel2 r random_seed rd2 reg w2 = Done out2 ->
    out1.2 = out2.2)).
Proof.
  split; [reflexivity|]. intros Hseed.
  split; [apply effective_seed_explicit; exact Hseed|]. split.
  - unfold prepare. rewrite !effective_seed_explicit by exact Hseed. reflexivity.
  - apply run_benchmarks_deterministic. exact Hseed.
Qed.

(** C6.  With an explicit seed (any seed but -1, which asks for a random
    one) two calls of [run_benchmarks] on the same registry contents
    make the same calls in the same order, whatever the random device
    and the world are in the two calls: the sequence of the executed
    units, each a benchmark and an iteration count, is the same. *)
Theorem same_seed_same_order (fuel1 fuel2 : nat) r (random_seed rd1 rd2 : Z) reg
    (w1 w2 : World) :
  random_seed <> -1 ->
  registry_wf reg ->
  every_registered (runnable r) reg ->
  every_registered (accountable r) reg ->
  (workload r reg <= fuel1)%nat ->
  (workload r reg <= fuel2)%nat ->
  exists rpt1 reg1 w1' log1 rpt2 reg2 w2' log2,
    run_benchmarks uint_fast32_bits fuel1 r random_seed rd1 reg w1 =
      Done (rpt1, reg1, w1', log1) /\
    run_benchmarks uint_fast32_bits fuel2 r random_seed rd2 reg w2 =
      Done (rpt2, reg2, w2', log2) /\
    log1 = log2 /\
    unit_of <$> log1 = unit_of <$> log2.
Proof.
  intros Hseed Hwf Hrunnable Haccountable Hfuel1 Hfuel2.
  destruct (run_benchmarks_spec fuel1 r random_seed rd1 reg w1
              Hwf Hrunnable Haccountable Hfuel1)
    as (? & objs1 & w1' & log1 & rpt1 & _ & _ & Hrun1 & _).
  destruct (run_benchmarks_spec fuel2 r random_seed rd2 reg w2
              Hwf Hrunnable Haccountable Hfuel2)
    as (? & objs2 & w2' & log2 & rpt2 & _ & _ & Hrun2 & _).
  pose proof (run_benchmarks_deterministic _ _ _ _ _ _ _ _ _ _ _
                Hseed Hrun1 Hrun2) as Hlogs.
  cbn [snd] in Hlogs.
  exists rpt1, (set_objects objs1 reg), w1', log1,
         rpt2, (set_objects objs2 reg), w2', log2.
  rewrite Hlogs in *. repeat split; assumption || reflexivity.
Qed.

(** C8.  On a registry without suites [run_benchmarks] returns, with a
    report whose sequence of suites is empty and without having called
    anything; the detailed text of that report is empty, so it has no
    row, and rendering it does not fail. *)
Theorem empty_registry_empty_report (fuel : nat) r (random_seed random_device : Z)
    (objs : list benchmark_impl) (current : option string) (w : World)
    (fixed : nat -> double -> string) :
  run_benchmarks uint_fast32_bits fuel r random_seed random_device
      {| _objects := objs; _suites := []; _current_suite := current |} w =
    Done ({| suites := [] |},
          {| _objects := objs; _suites := []; _current_suite := current |},
          w, []) /\
  to_text fixed {| suites := [] |} = Done "".
Proof. split; [destruct fuel; reflexivity | reflexivity]. Qed.

(** C7, as amended.  The runner emplaces every new state in the vector of
    the benchmark it is generated for, at the position
    [rnd() mod (size + 1)], where [size] is the number of states that
    vector holds at that moment and [rnd] is the engine the seed
    started: the vector a benchmark has after the initialisation is its
    old vector with the generated states emplaced one after the other,
    the state number [k] at the position selected by the value number
    [k] the engine returns after the values drawn for the benchmarks
    before.  That position is one of [0 .. size]; the states before it
    stay where they are and those from it on move up by one.  No vector
    of another benchmark is written, and what a benchmark holds is a
    permutation of its old and its generated states.  The position is
    not drawn uniformly: of the values of the engine,
    [1 .. 2147483646], each of which it returns from some state, a
    position is selected by [hits] many, and two
    positions differ in that number by one at most; the positions 0 and
    1 are selected by equally many only when the number of positions
    divides 2147483646. *)
Theorem states_are_emplaced_at_drawn_positions r (random_seed random_device : Z)
    reg :
  registry_wf reg ->
  let rnd0 :=
    minstd_rand_seed uint_fast32_bits
      (effective_seed random_seed random_device) in
  (exists objs0 objs1,
     collect_benchmarks (_suites reg) (_objects reg) [] =
       Done (objs0, registered reg) /\
     prepare uint_fast32_bits r random_seed random_device reg =
       Done (objs1, registered reg,
             minstd_rand_discard (drawn r (_objects reg) (registered reg)) rnd0) /\
     (forall q, q ∉ registered reg -> objs1 !! q = _objects reg !! q) /\
     (forall pre p post b,
        registered reg = pre ++ p :: post -> _objects reg !! p = Some b ->
        let rnd := minstd_rand_discard (drawn r (_objects reg) pre) rnd0 in
        let size := length (_states b) in
        let news := generated r b in
        let positions := drawn_position rnd size <$> seq 0 (length news) in
        objs1 !! p =
          Some (set_states (emplace_each positions news (_states b)) 0
                  (set_samples (effective_samples r b)
                     (set_baseline (flagged objs0 p) b))) /\
        (forall k index, positions !! k = Some index ->
           index =
             position (minstd_rand_next (minstd_rand_discard k rnd)).1 (size + k) /\
           (index <= size + k)%nat) /\
        emplace_each positions news (_states b) ≡ₚ _states b ++ news)) /\
  (forall (index : nat) (s : state) (states : list state),
     (index <= length states)%nat ->
     emplace index s states !! index = Some s /\
     take index (emplace index s states) = take index states /\
     drop (S index) (emplace index s states) = drop index states) /\
  (minstd_rand_range (_x rnd0) /\
   (forall rnd, minstd_rand_range (_x rnd) ->
      minstd_rand_range (minstd_rand_next rnd).1 /\
      _x (minstd_rand_next rnd).2 = (minstd_rand_next rnd).1) /\
   (forall x, minstd_rand_range x ->
      exists rnd, minstd_rand_range (_x rnd) /\ (minstd_rand_next rnd).1 = x)) /\
  (forall size pos : nat, (pos <= size)%nat ->
     drawn_by size pos (hits (Z.of_nat size + 1) (Z.of_nat pos))) /\
  (forall size pos pos' : nat, (pos <= size)%nat -> (pos' <= size)%nat ->
     Z.abs (hits (Z.of_nat size + 1) (Z.of_nat pos)
            - hits (Z.of_nat size + 1) (Z.of_nat pos')) <= 1) /\
  (forall size : nat, (1 <= size)%nat ->
     (2147483646 mod (Z.of_nat size + 1) = 0 ->
      hits (Z.of_nat size + 1) 1 = hits (Z.of_nat size + 1) 0) /\
     (2147483646 mod (Z.of_nat size + 1) <> 0 ->
      hits (Z.of_nat size + 1) 1 = hits (Z.of_nat size + 1) 0 + 1)).
Proof.
  intros [Hnodup Hlive] rnd0.
  split; [|split; [|split; [|split; [|split]]]].
  - destruct (collect_benchmarks_spec (_suites reg) (_objects reg) [] Hlive)
      as (objs0 & Hcollect & Hlen0 & Hframe0 & Hflags0).
    cbn [app] in Hcollect. fold (registered reg) in Hcollect, Hframe0, Hlive, Hnodup.
    destruct (initialize_benchmarks_drawn r (registered reg) objs0 rnd0 Hnodup)
      as (objs1 & Hinit & Hframe1 & Hspec1).
    { rewrite Hlen0. exact Hlive. }
    assert (Hsame : forall l : list pointer,
              drawn r objs0 l = drawn r (_objects reg) l).
    { intros l. apply drawn_ext. intros p _.
      destruct (_objects reg !! p) as [b|] eqn:Hb.
      - destruct (Hflags0 p b Hb) as (v & -> & _). reflexivity.
      - rewrite (lookup_ge_None_2 objs0 p); [reflexivity|].
        rewrite Hlen0. apply lookup_ge_None. exact Hb. }
    exists objs0, objs1. split; [exact Hcollect|]. split; [|split].
    + unfold prepare. rewrite Hcollect. cbn [mbind outcome_bind].
      fold rnd0. rewrite Hinit. cbn [mbind outcome_bind].
      rewrite Hsame. reflexivity.
    + intros q Hq. rewrite Hframe1, Hframe0 by exact Hq. reflexivity.
    + intros pre p post b Heq Hb rnd size news positions.
      destruct (Hflags0 p b Hb) as (v & Hb0 & _).
      assert (Hlength : length positions = length news)
        by (subst positions; rewrite length_fmap, length_seq; reflexivity).
      split; [|split].
      * rewrite (Hspec1 pre p post _ Heq Hb0), Hsame.
        unfold flagged. rewrite Hb0. reflexivity.
      * intros k index Hk. subst positions.
        rewrite list_lookup_fmap in Hk.
        destruct (seq 0 (length news) !! k) as [k'|] eqn:Hk'; [|discriminate].
        apply lookup_seq in Hk' as [-> _]. cbn in Hk. injection Hk as <-.
        split; [reflexivity | apply drawn_position_le].
      * apply emplace_each_spec. exact Hlength.
  - intros index s states. apply emplace_spec.
  - split; [apply minstd_rand_seed_range|].
    split; [apply minstd_rand_next_range | apply minstd_rand_next_onto].
  - apply drawn_by_hits.
  - intros size pos pos' Hpos Hpos'. apply hits_balanced; lia.
  - intros size Hsize. apply hits_bias. lia.
Qed.

Lemma summary_columns (states : list state) (dim : Z) (sizes : list Z) :
  length (filter (fun d => dimension d = dim) (summary states <$> sizes)) =
    multiplicity dim sizes.
Proof.
  unfold multiplicity. induction sizes as [|d rest IH]; [reflexivity|].
  cbn [fmap list_fmap]. rewrite !filter_cons. cbn [summary dimension].
  destruct (decide (d = dim)); cbn [length]; rewrite <- IH; reflexivity.
Qed.

(** C10.  A workload size that is configured at [m] positions of a
    benchmark has [m] entries in the report of the benchmark.  The run
    generates the sample count of states for each position, and every
    state of the size is added to each of the entries: each entry counts
    [m] times the sample count, and its time is the total over all these
    states divided by that number. *)
Theorem repeated_size_counts_every_copy (fuel : nat) r (random_seed random_device : Z)
    reg (w : World) (i j : nat) p b (dim : Z) :
  registry_wf reg ->
  fresh reg ->
  every_registered (runnable r) reg ->
  every_registered (accountable r) reg ->
  (workload r reg <= fuel)%nat ->
  registry_lookup reg i j = Some p ->
  _objects reg !! p = Some b ->
  let m := multiplicity dim (effective_state_iterations r b) in
  let count := Z.to_nat (effective_samples r b) in
  exists rpt objs' w' log b' rb,
    run_benchmarks uint_fast32_bits fuel r random_seed random_device reg w =
      Done (rpt, set_objects objs' reg, w', log) /\
    objs' !! p = Some b' /\
    executed_state <$> executions_by p log = seq 0 (length (_states b')) /\
    report_lookup rpt i j = Some rb /\
    length (filter (fun d => dimension d = dim) (data rb)) = m /\
    length (group dim (_states b')) = (m * count)%nat /\
    Forall (fun d => dimension d = dim ->
              samples d = Z.of_nat (m * count) /\
              total_time_ns d =
                Z.quot (wrap_int64 (sum_durations (group dim (_states b'))))
                       (Z.of_nat (m * count)))
           (data rb).
Proof.
  intros Hwf Hfresh Hrunnable Haccountable Hfuel Hlookup Hb m count.
  destruct (run_benchmarks_spec fuel r random_seed random_device reg w
              Hwf Hrunnable Haccountable Hfuel)
    as (objs0 & objs' & w' & log & rpt & _ & _ & Hrun & Hreports & _ & _ & _ & Hspec).
  pose proof (registry_lookup_registered reg i j p Hlookup) as Hp.
  destruct (Hspec p b Hp Hb) as (states0 & states' & Hperm & Hb' & Hran & Hby).
  destruct (reports_lookup r objs' reg rpt i j p Hreports Hlookup)
    as (b'' & Hb'' & Hrb).
  rewrite Hb' in Hb''. injection Hb'' as <-.
  unfold every_registered in Haccountable. rewrite Forall_forall in Haccountable.
  destruct (Haccountable p Hp b Hb) as (Hkeeps & _).
  assert (Hempty : _states b = []).
  { unfold fresh in Hfresh. rewrite Forall_forall in Hfresh.
    apply Hfresh. eapply list_elem_of_lookup_2. exact Hb. }
  assert (Hcount : length (group dim states') = (m * count)%nat).
  { rewrite (length_group_after r b dim states0 states' Hkeeps Hperm Hran), Hempty.
    reflexivity. }
  eexists rpt, objs', w', log, _, _.
  split; [exact Hrun|]. split; [exact Hb'|]. split; [|split; [exact Hrb|]].
  - rewrite Hby, executions_of_states. cbn [set_states _states].
    rewrite (Forall2_length _ _ _ Hran). reflexivity.
  - cbn [report_entry data set_states _states].
    split; [apply summary_columns|]. split; [exact Hcount|].
    rewrite Forall_forall. intros d Hd.
    apply list_elem_of_fmap in Hd as (dim' & -> & _).
    cbn [summary dimension samples total_time_ns]. intros ->.
    rewrite Hcount. auto.
Qed.


End RunnerFacts.

(** ** The claim about the iteration protocol *)

(** C2.  A range-based for over a state of [n > 0] iterations runs the
    loop body exactly [n] times.  The timer is started by [begin],
    before the first body, and stopped once, by the comparison that
    finds the counter at 0, after the last body and before the loop
    returns.  So the two timer calls lie outside the bodies, and the
    duration recorded is the advance of the clock over the [n] bodies
    (as an [int64_t]). *)
Theorem range_for_times_the_bodies {World : Type} {clock : high_res_clock World}
    (body : World -> World) (s : state) (w : World) (fuel : nat) :
  0 < iterations s <= int_max ->
  (Z.to_nat (iterations s) < fuel)%nat ->
  let n := Z.to_nat (iterations s) in
  let w' := Nat.iter n body w in
  let advance := high_res_clock_now w' - high_res_clock_now w in
  exists s',
    range_for fuel body s w =
      Done (s', w',
            timer_started (high_res_clock_now w) :: replicate n body_run
              ++ [timer_stopped (high_res_clock_now w')]) /\
    iterations s' = iterations s /\
    _start s' = high_res_clock_now w /\
    duration_ns s' = wrap_int64 advance /\
    (int64_min <= advance <= int64_max -> duration_ns s' = advance).
Proof.
  intros Hn Hfuel n w' advance. eexists. split.
  - apply range_for_runs; [lia | exact Hfuel].
  - cbn [iterations _iterations _start duration_ns _duration_ns].
    repeat (split; [reflexivity|]). apply wrap_int64_small.
Qed.

(** ** The claim about the averages *)

Lemma sum_durations_constant (c : Z) (states : list state) :
  Forall (fun s => duration_ns s = c) states ->
  sum_durations states = Z.of_nat (length states) * c.
Proof.
  induction 1 as [|s rest Hs _ IH]; [reflexivity|].
  cbn [sum_durations foldr length]. fold (sum_durations rest).
  rewrite Hs, IH. lia.
Qed.

Lemma sleeper_group (k dim : Z) (states states' : list state) :
  0 <= dim <= int_max ->
  Forall2 (ran (sleeper k)) states states' ->
  Forall (fun s => duration_ns s = wrap_int64 (k * dim)) (group dim states').
Proof.
  intros Hdim. induction 1 as [|s s' l l' Hran _ IH]; [constructor|].
  unfold group. rewrite filter_cons. fold (group dim l').
  destruct (decide (iterations s' = dim)) as [Heq|Hne]; [|exact IH].
  constructor; [|exact IH].
  destruct (Hran) as (w & w' & Hrun).
  pose proof (loop_benchmark_keeps_iterations _ s w s' w' Hrun) as Hkeep.
  destruct (sleeper_measures k s s' ltac:(lia) Hran) as [_ Hd].
  rewrite Hd. congruence.
Qed.

(** C3.  The entry of the report for a benchmark and one of its workload
    sizes holds the number of the states of the benchmark with that
    iteration count, and the sum of their durations divided by that
    number, by the division of C++ on integers.  When the benchmark is a
    loop whose body advances the fake clock by [k] nanoseconds, the
    sizes are pairwise different and the registry held no states of the
    benchmark before, the entry for the size [dim] is the sample count
    and [k * dim]. *)
Theorem report_averages_per_size (uint_fast32_bits : Z) (fuel : nat) (r : runner)
    (random_seed random_device : Z) (reg : registry fake_time) (w : fake_time)
    (i j : nat) (p : pointer) (b : benchmark_impl fake_time) (k : Z) :
  registry_wf reg ->
  every_registered (runnable r) reg ->
  every_registered (accountable r) reg ->
  (workload r reg <= fuel)%nat ->
  registry_lookup reg i j = Some p ->
  _objects reg !! p = Some b ->
  let sizes := effective_state_iterations r b in
  exists rpt objs' w' log b' rb,
    run_benchmarks uint_fast32_bits fuel r random_seed random_device reg w =
      Done (rpt, set_objects objs' reg, w', log) /\
    objs' !! p = Some b' /\
    executed_state <$> executions_by p log = seq 0 (length (_states b')) /\
    report_lookup rpt i j = Some rb /\
    data rb =
      (fun dim =>
         {| dimension := dim;
            samples := Z.of_nat (length (group dim (_states b')));
            total_time_ns :=
              Z.quot (wrap_int64 (sum_durations (group dim (_states b'))))
                     (Z.of_nat (length (group dim (_states b')))) |}) <$> sizes /\
    (_proc b = sleeper k ->
     _states b = [] ->
     NoDup sizes ->
     Forall (fun dim => 0 <= dim <= int_max /\
               int64_min <= k * dim * effective_samples r b <= int64_max) sizes ->
     data rb =
       (fun dim => {| dimension := dim;
                      samples := effective_samples r b;
                      total_time_ns := k * dim |}) <$> sizes).
Proof.
  intros Hwf Hrunnable Haccountable Hfuel Hlookup Hb sizes.
  destruct (run_benchmarks_spec uint_fast32_bits fuel r random_seed random_device
              reg w Hwf Hrunnable Haccountable Hfuel)
    as (objs0 & objs' & w' & log & rpt & _ & _ & Hrun & Hreports & _ & _ & _ & Hspec).
  pose proof (registry_lookup_registered reg i j p Hlookup) as Hp.
  destruct (Hspec p b Hp Hb) as (states0 & states' & Hperm & Hb' & Hran & Hby).
  destruct (reports_lookup r objs' reg rpt i j p Hreports Hlookup)
    as (b'' & Hb'' & Hrb).
  rewrite Hb' in Hb''. injection Hb'' as <-.
  unfold every_registered in *. rewrite Forall_forall in Hrunnable, Haccountable.
  destruct (Hrunnable p Hp b Hb) as (Hsamples & _ & _).
  destruct (Haccountable p Hp b Hb) as (Hkeeps & _).
  eexists rpt, objs', w', log, _, _.
  split; [exact Hrun|]. split; [exact Hb'|]. split; [|split; [exact Hrb|]].
  { rewrite Hby, executions_of_states. cbn [set_states _states].
    rewrite (Forall2_length _ _ _ Hran). reflexivity. }
  cbn [report_entry data set_states _states].
  change (effective_state_iterations r _) with sizes.
  split; [reflexivity|].
  intros Hproc Hempty Hnodup Hsizes.
  apply list_fmap_ext. intros n dim Hdim. unfold summary.
  apply list_elem_of_lookup_2 in Hdim. rewrite Forall_forall in Hsizes.
  destruct (Hsizes dim Hdim) as [Hint Hrange].
  assert (Hcount : length (group dim states') = Z.to_nat (effective_samples r b)).
  { rewrite (length_group_after r b dim states0 states' Hkeeps Hperm Hran), Hempty.
    fold sizes. rewrite (multiplicity_NoDup dim sizes Hnodup Hdim).
    change (length (group dim [])) with O. lia. }
  rewrite Hproc in Hran.
  rewrite (sum_durations_constant _ _ (sleeper_group k dim states0 states' Hint Hran)).
  rewrite Hcount, Z2Nat.id by lia.
  assert (Hsmall : int64_min <= k * dim <= int64_max)
    by (unfold int64_min, int64_max in *; nia).
  rewrite (wrap_int64_small (k * dim)) by exact Hsmall.
  rewrite wrap_int64_small by lia.
  rewrite Z.mul_comm, Z.quot_mul by lia. reflexivity.
Qed.

(** ** The claims at concrete registries *)

Lemma sleeper_runs_on (k n : Z) : 0 <= n <= int_max -> runs_on (sleeper k) n.
Proof. apply loop_benchmark_runs_on. Qed.

Lemma sleeper_keeps_iterations (k : Z) : keeps_iterations (sleeper k).
Proof. apply loop_benchmark_keeps_iterations. Qed.

Lemma scenario_wf : registry_wf scenario.
Proof.
  split.
  - apply (bool_decide_unpack _). vm_compute. exact I.
  - repeat constructor.
Qed.

(** The benchmarks of a small registry, one after the other. *)
Ltac each_registered :=
  unfold every_registered;
  repeat (apply Forall_cons; split; [intros ? [= <-]|]);
  [..|constructor].

Lemma scenario_runnable : every_registered (runnable new_runner) scenario.
Proof.
  each_registered.
  all: split; [reflexivity|]; split; [discriminate|].
  all: repeat constructor; apply sleeper_runs_on; cbn; unfold int_max; lia.
Qed.

Lemma scenario_accountable : every_registered (accountable new_runner) scenario.
Proof.
  each_registered.
  all: split; [apply sleeper_keeps_iterations | vm_compute; discriminate].
Qed.


(** The scenario, run: A takes 1000 ns and B 3000 ns for the size 10. *)
Example scenario_report :
  observe (run_benchmarks 64 2 new_runner 42 0 scenario {| now := 5 |}) =
    Some ({| suites :=
               [{| suite_name := None;
                   benchmarks :=
                     [{| benchmark_name := "A"; is_baseline := true;
                         data := [{| dimension := 10; samples := 1;
                                     total_time_ns := 1000 |}] |};
                      {| benchmark_name := "B"; is_baseline := false;
                         data := [{| dimension := 10; samples := 1;
                                     total_time_ns := 3000 |}] |}] |}] |},
          {| now := 4005 |},
          [(1%nat, 10); (O, 10)]).
Proof. vm_compute. reflexivity. Qed.

(** With the seed -1 the order of the calls follows the random device. *)
Example random_seed_follows_the_device :
  (snd <$> observe (run_benchmarks 64 2 new_runner (-1) 1 scenario {| now := 0 |}))
    = Some [(O, 10); (1%nat, 10)] /\
  (snd <$> observe (run_benchmarks 64 2 new_runner (-1) 2 scenario {| now := 0 |}))
    = Some [(1%nat, 10); (O, 10)].
Proof. split; vm_compute; reflexivity. Qed.

(** A benchmark with a negative sample count gets no state; the
    scheduling loop then dereferences the end of its vector. *)
Example empty_vector_is_dereferenced :
  run_benchmarks 64 2 new_runner 42 0 negative_samples {| now := 0 |} =
    Fault past_the_end.
Proof. vm_compute. reflexivity. Qed.

Lemma several_states_wf : registry_wf several_states.
Proof.
  split; [apply (bool_decide_unpack _); vm_compute; exact I|].
  repeat constructor.
Qed.

Lemma several_states_runnable :
  every_registered (runnable new_runner) several_states.
Proof.
  each_registered.
  all: split; [reflexivity|]; split; [discriminate|].
  all: repeat constructor; apply sleeper_runs_on; cbn; unfold int_max; lia.
Qed.

Lemma every_state_runs_once_at_several_states :
  registry_wf several_states /\
  every_registered (runnable new_runner) several_states /\
  (workload new_runner several_states <= 7)%nat /\
  exists objs1 objs' w' log b',
    execute 64 7 new_runner 3 0 several_states {| now := 0 |} =
      Done (objs', w', log) /\
    replay log objs1 {| now := 0 |} = Done (objs', w') /\
    iterations <$> default [] (_states <$> objs1 !! O) = [10; 20; 10; 20] /\
    executed_state <$> executions_by O log = [O; 1; 2; 3]%nat /\
    executed_iterations <$> executions_by O log = [10; 20; 10; 20] /\
    executed_state <$> executions_by 1%nat log = [O; 1; 2]%nat /\
    objs' !! O = Some b' /\
    Forall2 (ran (sleeper 100))
            [new_state 10; new_state 20; new_state 10; new_state 20]
            (_states b') /\
    now w' = 15000.
Proof.
  split; [exact several_states_wf|]. split; [exact several_states_runnable|].
  split; [vm_compute; lia|].
  destruct (every_state_runs_once 64 7 new_runner 3 0 several_states {| now := 0 |}
              several_states_wf several_states_runnable ltac:(vm_compute; lia))
    as (objs1 & rnd1 & objs' & w' & log & Hprepare & Hexec & Hreplay & _ & _ & Hspec).
  destruct (Hspec O _ ltac:(left) eq_refl)
    as (_ & _ & states0 & b1 & b' & _ & Hb1 & Hstates1 & _ & _ & _ & Hseq & Hits
        & Hb' & _ & Hran & _).
  destruct (Hspec 1%nat _ ltac:(right; left) eq_refl)
    as (_ & _ & states0' & b2 & b2' & Hperm' & _ & _ & _ & _ & _ & Hseq' & _).
  assert (Hprepared : iterations <$> default [] (_states <$> objs1 !! O)
                      = [10; 20; 10; 20]).
  { assert (H : match prepare 64 new_runner 3 0 several_states with
                | Done (objs, _, _) =>
                    iterations <$> default [] (_states <$> objs !! O)
                | _ => []
                end = [10; 20; 10; 20]) by (vm_compute; reflexivity).
    rewrite Hprepare in H. exact H. }
  assert (Hstates0 : states0 = [new_state 10; new_state 20; new_state 10; new_state 20]).
  { assert (H : match prepare 64 new_runner 3 0 several_states with
                | Done (objs, _, _) => default [] (_states <$> objs !! O)
                | _ => []
                end = [new_state 10; new_state 20; new_state 10; new_state 20])
      by (vm_compute; reflexivity).
    rewrite Hprepare, Hb1 in H. cbn [fmap option_fmap option_map default] in H.
    rewrite Hstates1 in H. exact H. }
  assert (Hnow : now w' = 15000).
  { assert (H : match execute 64 7 new_runner 3 0 several_states {| now := 0 |} with
                | Done (_, w, _) => now w
                | _ => 0
                end = 15000) by (vm_compute; reflexivity).
    rewrite Hexec in H. exact H. }
  exists objs1, objs', w', log, b'. split; [exact Hexec|]. split; [exact Hreplay|].
  split; [exact Hprepared|].
  split; [rewrite Hseq, Hstates0; reflexivity|].
  split; [rewrite Hits, Hstates0; reflexivity|].
  split; [rewrite Hseq'; apply Permutation_length in Hperm'; rewrite Hperm';
          reflexivity|].
  split; [exact Hb'|]. split; [rewrite <- Hstates0; exact Hran | exact Hnow].
Defined.

Lemma range_for_times_the_bodies_at_three :
  0 < iterations (new_state 3) <= int_max /\
  (Z.to_nat (iterations (new_state 3)) < 5)%nat /\
  exists s',
    range_for 5 (this_thread_sleep_for_ns 7) (new_state 3) {| now := 0 |} =
      Done (s', {| now := 21 |},
            [timer_started 0; body_run; body_run; body_run; timer_stopped 21]) /\
    duration_ns s' = 21.
Proof.
  split; [vm_compute; split; [reflexivity | discriminate]|].
  split; [vm_compute; lia|].
  destruct (range_for_times_the_bodies (this_thread_sleep_for_ns 7) (new_state 3)
              {| now := 0 |} 5
              ltac:(vm_compute; split; [reflexivity | discriminate])
              ltac:(vm_compute; lia))
    as (s' & Hrun & _ & _ & _ & Hexact).
  exists s'. split; [exact Hrun|].
  apply Hexact. vm_compute. split; discriminate.
Defined.

Lemma report_averages_per_size_at_scenario :
  registry_wf scenario /\
  every_registered (runnable new_runner) scenario /\
  every_registered (accountable new_runner) scenario /\
  (workload new_runner scenario <= 2)%nat /\
  registry_lookup scenario 0 1 = Some 1%nat /\
  exists rpt reg' w' log rb,
    run_benchmarks 64 2 new_runner 42 0 scenario {| now := 0 |} =
      Done (rpt, reg', w', log) /\
    report_lookup rpt 0 1 = Some rb /\
    data rb = [{| dimension := 10; samples := 1; total_time_ns := 3000 |}].
Proof.
  split; [exact scenario_wf|]. split; [exact scenario_runnable|].
  split; [exact scenario_accountable|]. split; [vm_compute; lia|].
  split; [reflexivity|].
  pose proof (report_averages_per_size 64 2 new_runner 42 0 scenario {| now := 0 |}
                0 1 1%nat _ 300 scenario_wf scenario_runnable scenario_accountable
                ltac:(vm_compute; lia) eq_refl eq_refl) as H.
  cbv zeta in H.
  destruct H as (rpt & objs' & w' & log & b' & rb & Hrun & _ & _ & Hrb & _ & Hfake).
  exists rpt, (set_objects objs' scenario), w', log, rb.
  split; [exact Hrun|]. split; [exact Hrb|].
  apply Hfake; [reflexivity | reflexivity | apply NoDup_singleton |].
  repeat constructor; vm_compute; discriminate.
Defined.

(** C4, as the claim states it, fails when the user flags two benchmarks
    of a suite: the resolution leaves both flags, and the report shows
    two baselines. *)
Lemma two_flagged_baselines_stay :
  registry_wf two_baselines /\
  count_baselines (_objects two_baselines) [O; 1%nat] = 2%nat /\
  baselines_after two_baselines = Some [2%nat] /\
  (fst <$> observe (run_benchmarks 64 2 new_runner 42 0 two_baselines
                                   {| now := 0 |})) =
    Some ({| suites :=
               [{| suite_name := None;
                   benchmarks :=
                     [{| benchmark_name := "A"; is_baseline := true;
                         data := [{| dimension := 10; samples := 1;
                                     total_time_ns := 1000 |}] |};
                      {| benchmark_name := "B"; is_baseline := true;
                         data := [{| dimension := 10; samples := 1;
                                     total_time_ns := 3000 |}] |}] |}] |},
          {| now := 4000 |}).
Proof.
  split; [|split; [|split]].
  - split; [apply (bool_decide_unpack _); vm_compute; exact I | repeat constructor].
  - reflexivity.
  - vm_compute. reflexivity.
  - vm_compute. reflexivity.
Qed.

Lemma baseline_resolution_at_no_baseline :
  registry_wf no_baseline /\
  count_baselines (_objects no_baseline) [O; 1%nat] = O /\
  exists objs',
    collect_benchmarks (_suites no_baseline) (_objects no_baseline) [] =
      Done (objs', [O; 1%nat]) /\
    count_baselines objs' [O; 1%nat] = 1%nat /\
    flagged objs' O = true.
Proof.
  assert (Hwf : registry_wf no_baseline).
  { split; [apply (bool_decide_unpack _); vm_compute; exact I | repeat constructor]. }
  split; [exact Hwf|]. split; [reflexivity|].
  destruct (baseline_resolution no_baseline Hwf) as (objs' & Hrun & _ & Hcounts).
  exists objs'. split; [exact Hrun|].
  inversion Hcounts as [|suite rest Hsuite _]; subst.
  destruct (Hsuite ltac:(discriminate)) as [Hcount Hhead].
  split; [exact Hcount|].
  destruct (Hhead eq_refl) as (front & [= <-] & Hflag). exact Hflag.
Defined.

(** C5, as the claim states it, fails at the seed -2: the claim has the
    runner draw a seed from the random device, here one that returns 7,
    and the runner takes -2, whatever the device returns. *)
Lemma negative_seed_is_taken_as_it_is :
  -2 < 0 /\
  effective_seed (-2) 7 <> wrap_int (wrap_uint 7) /\
  (forall random_device, effective_seed (-2) random_device = -2) /\
  (forall random_device,
     prepare 64 new_runner (-2) random_device scenario =
     prepare 64 new_runner (-2) 7 scenario).
Proof.
  split; [reflexivity|]. split; [vm_compute; discriminate|].
  split; reflexivity.
Qed.

Lemma seed_policy_at_minus_two :
  -2 <> -1 /\
  exists out1 out2,
    run_benchmarks 64 2 new_runner (-2) 1 scenario {| now := 0 |} = Done out1 /\
    run_benchmarks 64 2 new_runner (-2) 2 scenario {| now := 77 |} = Done out2 /\
    out1.2 = out2.2.
Proof.
  split; [discriminate|].
  destruct (run_benchmarks_spec 64 2 new_runner (-2) 1 scenario {| now := 0 |}
              scenario_wf scenario_runnable scenario_accountable
              ltac:(vm_compute; lia))
    as (? & objs1 & w1 & log1 & rpt1 & _ & _ & Hrun1 & _).
  destruct (run_benchmarks_spec 64 2 new_runner (-2) 2 scenario {| now := 77 |}
              scenario_wf scenario_runnable scenario_accountable
              ltac:(vm_compute; lia))
    as (? & objs2 & w2 & log2 & rpt2 & _ & _ & Hrun2 & _).
  eexists _, _. split; [exact Hrun1|]. split; [exact Hrun2|].
  destruct (seed_policy 64 2 2 new_runner (-2) 1 2 scenario
              {| now := 0 |} {| now := 77 |}
              (rpt1, set_objects objs1 scenario, w1, log1)
              (rpt2, set_objects objs2 scenario, w2, log2)) as (_ & Hexplicit).
  destruct (Hexplicit ltac:(discriminate)) as (_ & _ & Hsame).
  exact (Hsame Hrun1 Hrun2).
Defined.

Lemma same_seed_same_order_at_scenario :
  42 <> -1 /\
  registry_wf scenario /\
  every_registered (runnable new_runner) scenario /\
  every_registered (accountable new_runner) scenario /\
  (workload new_runner scenario <= 2)%nat /\
  (workload new_runner scenario <= 5)%nat /\
  exists rpt1 reg1 w1' rpt2 reg2 w2' log,
    run_benchmarks 64 2 new_runner 42 1 scenario {| now := 0 |} =
      Done (rpt1, reg1, w1', log) /\
    run_benchmarks 64 5 new_runner 42 2 scenario {| now := 77 |} =
      Done (rpt2, reg2, w2', log).
Proof.
  split; [discriminate|]. split; [exact scenario_wf|].
  split; [exact scenario_runnable|]. split; [exact scenario_accountable|].
  split; [vm_compute; lia|]. split; [vm_compute; lia|].
  destruct (same_seed_same_order 64 2 5 new_runner 42 1 2 scenario
              {| now := 0 |} {| now := 77 |} ltac:(discriminate)
              scenario_wf scenario_runnable scenario_accountable
              ltac:(vm_compute; lia) ltac:(vm_compute; lia))
    as (rpt1 & reg1 & w1' & log1 & rpt2 & reg2 & w2' & log2 & Hrun1 & Hrun2 & <- & _).
  exists rpt1, reg1, w1', rpt2, reg2, w2', log1. auto.
Defined.

(** In a vector of three states the position 0 is selected by fewer
    values of the engine than the position 1. *)
Lemma positions_are_not_equally_likely :
  drawn_by 3 0 536870911 /\ drawn_by 3 1 536870912.
Proof.
  split.
  - exact (drawn_by_hits 3 0 ltac:(lia)).
  - exact (drawn_by_hits 3 1 ltac:(lia)).
Qed.

Lemma states_are_emplaced_at_drawn_positions_at_several_states :
  registry_wf several_states /\
  exists objs1 rnd1 b,
    prepare 64 new_runner 3 0 several_states = Done (objs1, [O; 1%nat], rnd1) /\
    drawn_position (minstd_rand_seed 64 3) 0 <$> seq 0 4 = [O; O; 2; 1]%nat /\
    objs1 !! O = Some b /\
    (iterations <$> _states b) = [10; 20; 10; 20].
Proof.
  split; [exact several_states_wf|].
  pose proof (states_are_emplaced_at_drawn_positions 64 new_runner 3 0
                several_states several_states_wf) as H.
  cbv zeta in H.
  destruct H as ((objs0 & objs1 & _ & Hprepare & _ & Hspec) & _).
  destruct (Hspec [] O [1%nat] _ eq_refl eq_refl) as (Hb & _).
  eexists objs1, _, _. split; [exact Hprepare|].
  split; [vm_compute; reflexivity|]. split; [exact Hb|].
  vm_compute. reflexivity.
Defined.


Lemma repeated_size_wf : registry_wf repeated_size.
Proof. split; [apply NoDup_singleton | repeat constructor]. Qed.

Lemma repeated_size_runnable : every_registered (runnable new_runner) repeated_size.
Proof.
  each_registered.
  split; [reflexivity|]; split; [discriminate|].
  repeat constructor; apply sleeper_runs_on; cbn; unfold int_max; lia.
Qed.

Lemma repeated_size_accountable :
  every_registered (accountable new_runner) repeated_size.
Proof.
  each_registered.
  split; [apply sleeper_keeps_iterations | vm_compute; discriminate].
Qed.

Lemma repeated_size_counts_every_copy_at_four :
  registry_wf repeated_size /\
  fresh repeated_size /\
  every_registered (runnable new_runner) repeated_size /\
  every_registered (accountable new_runner) repeated_size /\
  (workload new_runner repeated_size <= 6)%nat /\
  registry_lookup repeated_size 0 0 = Some O /\
  exists rpt reg' w' log rb,
    run_benchmarks 64 6 new_runner 42 0 repeated_size {| now := 0 |} =
      Done (rpt, reg', w', log) /\
    report_lookup rpt 0 0 = Some rb /\
    length (filter (fun d => dimension d = 4) (data rb)) = 2%nat /\
    Forall (fun d => dimension d = 4 -> samples d = 6) (data rb).
Proof.
  assert (Hfresh : fresh repeated_size) by repeat constructor.
  split; [exact repeated_size_wf|]. split; [exact Hfresh|].
  split; [exact repeated_size_runnable|]. split; [exact repeated_size_accountable|].
  split; [vm_compute; lia|]. split; [reflexivity|].
  pose proof (repeated_size_counts_every_copy 64 6 new_runner 42 0 repeated_size
                {| now := 0 |} 0 0 O _ 4 repeated_size_wf Hfresh
                repeated_size_runnable repeated_size_accountable
                ltac:(vm_compute; lia) eq_refl eq_refl) as H.
  cbv zeta in H.
  destruct H as (rpt & objs' & w' & log & b' & rb & Hrun & _ & _ & Hrb & Hcols & _ & Hall).
  exists rpt, (set_objects objs' repeated_size), w', log, rb.
  split; [exact Hrun|]. split; [exact Hrb|]. split; [exact Hcols|].
  eapply Forall_impl; [exact Hall|]. cbn. intros d Hd Hdim.
  destruct (Hd Hdim) as [Hsamples _]. exact Hsamples.
Defined.

(** * More of the header *)

(** ** The state and its timer *)

Lemma range_for_loop_negative {World : Type} {clock : high_res_clock World}
    (body : World -> World) (fuel : nat) :
  forall (it : iterator) (s : state) (w : World) (log : list event),
    int_min <= _counter it < 0 ->
    (fuel <= Z.to_nat (_counter it - int_min) + 1)%nat ->
    range_for_loop fuel body it s w log = OutOfFuel.
Proof.
  induction fuel as [|fuel IH]; intros it s w log Hc Hfuel; [reflexivity|].
  cbn [range_for_loop]. unfold iterator_neq.
  replace (_counter it =? 0) with false by (symmetry; apply Z.eqb_neq; lia).
  cbn [negb mbind outcome_bind].
  destruct fuel as [|fuel']; [reflexivity|].
  apply IH; cbn [iterator_incr _counter];
    rewrite wrap_int_small by (unfold int_max; lia); lia.
Qed.

(** X1.  A range-based for over a state of 0 iterations does not run the
    body: the timer is started and stopped on the same reading of the
    clock, the duration recorded is 0 and the world is as it was.  (The
    constructor asserts a positive count in debug builds only.) *)
Theorem range_for_of_zero {World : Type} {clock : high_res_clock World}
    (body : World -> World) (s : state) (w : World) (fuel : nat) :
  iterations s = 0 ->
  range_for (S fuel) body s w =
    Done ({| _start := high_res_clock_now w; _duration_ns := 0;
             _iterations := 0 |},
          w,
          [timer_started (high_res_clock_now w);
           timer_stopped (high_res_clock_now w)]).
Proof.
  intros Hzero.
  rewrite range_for_runs by (rewrite Hzero; unfold int_max; lia).
  rewrite Hzero. cbn [Z.to_nat Nat.iter replicate app].
  rewrite Z.sub_diag. reflexivity.
Qed.

Lemma range_for_of_zero_example :
  iterations (new_state 0) = 0 /\
  range_for 1 (this_thread_sleep_for_ns 7) (new_state 0) {| now := 5 |} =
    Done ({| _start := 5; _duration_ns := 0; _iterations := 0 |},
          {| now := 5 |}, [timer_started 5; timer_stopped 5]).
Proof.
  split; [reflexivity|].
  exact (range_for_of_zero (this_thread_sleep_for_ns 7) (new_state 0)
           {| now := 5 |} 0 eq_refl).
Defined.

(** X2.  A range-based for over a state of a negative count [n] does not
    stop where a count of 0 would: the test of [operator!=] succeeds on
    every counter from [n] down to [INT_MIN], so the loop is still
    running after [n - INT_MIN + 1] tests, each but the last followed by
    the body. *)
Theorem range_for_of_negative {World : Type} {clock : high_res_clock World}
    (body : World -> World) (s : state) (w : World) (fuel : nat) :
  int_min <= iterations s < 0 ->
  (fuel <= Z.to_nat (iterations s - int_min) + 1)%nat ->
  range_for fuel body s w = OutOfFuel.
Proof.
  intros Hn Hfuel. unfold range_for, begin, start_timer.
  apply range_for_loop_negative; cbn [iterator_of _counter]; assumption.
Qed.

Lemma range_for_of_negative_example :
  int_min <= iterations (new_state (-2147483646)) < 0 /\
  (3 <= Z.to_nat (iterations (new_state (-2147483646)) - int_min) + 1)%nat /\
  range_for 3 (this_thread_sleep_for_ns 7) (new_state (-2147483646))
            {| now := 0 |} = OutOfFuel.
Proof.
  assert (H1 : int_min <= iterations (new_state (-2147483646)) < 0)
    by (vm_compute; split; [discriminate | reflexivity]).
  assert (H2 : (3 <= Z.to_nat (iterations (new_state (-2147483646)) - int_min) + 1)%nat)
    by (vm_compute; lia).
  split; [exact H1|]. split; [exact H2|].
  exact (range_for_of_negative (this_thread_sleep_for_ns 7)
           (new_state (-2147483646)) {| now := 0 |} 3 H1 H2).
Defined.

(** X3.  Bracketing [n] repetitions of a body by hand, with a [scope],
    measures what the range-based for over a state of [n] iterations
    measures: the two leave the same state, with the same start and the
    same duration, and the same world. *)
Theorem scope_measures_like_range_for {World : Type} {clock : high_res_clock World}
    (body : World -> World) (s : state) (w : World) :
  0 <= iterations s <= int_max ->
  let n := Z.to_nat (iterations s) in
  exists s' w' started stopped,
    range_for (S n) body s w =
      Done (s', w',
            timer_started started :: replicate n body_run
              ++ [timer_stopped stopped]) /\
    scope (Nat.iter n body) s w =
      (s', w', [timer_started started; timer_stopped stopped]) /\
    duration_ns s' = wrap_int64 (stopped - started).
Proof.
  intros Hn n. eexists _, _, _, _. split; [|split].
  - apply range_for_runs; [assumption | lia].
  - reflexivity.
  - reflexivity.
Qed.

Lemma scope_measures_like_range_for_example :
  0 <= iterations (new_state 3) <= int_max /\
  range_for 4 (this_thread_sleep_for_ns 7) (new_state 3) {| now := 1 |} =
    Done ({| _start := 1; _duration_ns := 21; _iterations := 3 |},
          {| now := 22 |},
          [timer_started 1; body_run; body_run; body_run; timer_stopped 22]) /\
  scope (Nat.iter 3 (this_thread_sleep_for_ns 7)) (new_state 3) {| now := 1 |} =
    ({| _start := 1; _duration_ns := 21; _iterations := 3 |},
     {| now := 22 |}, [timer_started 1; timer_stopped 22]).
Proof.
  assert (H : 0 <= iterations (new_state 3) <= int_max)
    by (vm_compute; split; discriminate).
  split; [exact H|].
  destruct (scope_measures_like_range_for (this_thread_sleep_for_ns 7)
              (new_state 3) {| now := 1 |} H)
    as (s' & w' & started & stopped & Hrun & Hscope & _).
  split; [|reflexivity].
  vm_compute in Hscope. injection Hscope as <- <- <- <-. exact Hrun.
Defined.

(** ** The clocks *)

Lemma wrap_uint64_add (x y : Z) :
  wrap_uint64 (wrap_uint64 x + y) = wrap_uint64 (x + y).
Proof.
  unfold wrap_uint64, wrap_unsigned. rewrite Zplus_mod_idemp_l. reflexivity.
Qed.

(** X4.  Sleeps on the fake clock add up: two sleeps in a row are one
    sleep of the sum.  While the counter stays below [2 ^ 63] the clock
    reads exactly the nanoseconds slept more. *)
Theorem fake_clock_adds_up (a b : Z) (the_time : fake_time) :
  this_thread_sleep_for_ns b (this_thread_sleep_for_ns a the_time) =
    this_thread_sleep_for_ns (a + b) the_time /\
  (0 <= now the_time -> 0 <= a -> now the_time + a <= int64_max ->
   high_res_clock_now (this_thread_sleep_for_ns a the_time) =
     high_res_clock_now the_time + a).
Proof.
  split.
  - unfold this_thread_sleep_for_ns. cbn [now]. f_equal.
    rewrite wrap_uint64_add. f_equal. lia.
  - intros Hnow Ha Hmax. unfold high_res_clock_now, fake_clock.
    cbn [this_thread_sleep_for_ns now]. rewrite wrap_int64_unsigned.
    rewrite !wrap_int64_small; unfold int64_min, int64_max in *; lia.
Qed.

Lemma fake_clock_adds_up_example :
  0 <= now {| now := 5 |} /\ 0 <= 100 /\ now {| now := 5 |} + 100 <= int64_max /\
  this_thread_sleep_for_ns 200 (this_thread_sleep_for_ns 100 {| now := 5 |}) =
    this_thread_sleep_for_ns 300 {| now := 5 |} /\
  high_res_clock_now (this_thread_sleep_for_ns 100 {| now := 5 |}) = 105.
Proof.
  assert (H1 : 0 <= now {| now := 5 |}) by (vm_compute; discriminate).
  assert (H2 : 0 <= 100) by (vm_compute; discriminate).
  assert (H3 : now {| now := 5 |} + 100 <= int64_max) by (vm_compute; discriminate).
  destruct (fake_clock_adds_up 100 200 {| now := 5 |}) as [Hsum Hread].
  split; [exact H1|]. split; [exact H2|]. split; [exact H3|].
  split; [exact Hsum | exact (Hread H1 H2 H3)].
Defined.

(** X5.  On Windows the clock reads the ticks of the performance counter
    as nanoseconds: as long as [ticks * 10^9] is an [int64_t] the
    reading is that product divided by the frequency, rounded down; it
    does not decrease when the ticks grow, and a whole number of seconds
    of ticks reads as that many times [10^9]. *)
Theorem windows_now_in_range (high_res_clock_freq ticks later seconds : Z) :
  0 < high_res_clock_freq ->
  0 <= ticks <= later ->
  later * 1000000000 <= int64_max ->
  exists t t',
    windows_now high_res_clock_freq ticks = Done t /\
    windows_now high_res_clock_freq later = Done t' /\
    t = ticks * 1000000000 / high_res_clock_freq /\
    t' = later * 1000000000 / high_res_clock_freq /\
    0 <= t <= t' /\
    (ticks = high_res_clock_freq * seconds -> t = seconds * 1000000000).
Proof.
  intros Hfreq Hticks Hmax.
  assert (Hread : forall x, 0 <= x <= later ->
            windows_now high_res_clock_freq x =
              Done (x * 1000000000 / high_res_clock_freq)).
  { intros x Hx. unfold windows_now, int64_div.
    rewrite wrap_int64_small by (unfold int64_min, int64_max in *; lia).
    replace (high_res_clock_freq =? 0) with false
      by (symmetry; apply Z.eqb_neq; lia).
    replace (high_res_clock_freq =? -1) with false
      by (symmetry; apply Z.eqb_neq; lia).
    rewrite andb_false_r. cbn [orb].
    rewrite Z.quot_div_nonneg by lia. reflexivity. }
  exists (ticks * 1000000000 / high_res_clock_freq),
         (later * 1000000000 / high_res_clock_freq).
  split; [apply Hread; lia|]. split; [apply Hread; lia|].
  split; [reflexivity|]. split; [reflexivity|]. split.
  - split; [apply Z.div_pos; lia | apply Z.div_le_mono; lia].
  - intros ->.
    replace (high_res_clock_freq * seconds * 1000000000)
      with (seconds * 1000000000 * high_res_clock_freq) by lia.
    apply Z.div_mul. lia.
Qed.

Lemma windows_now_in_range_example :
  0 < 10000000 /\ 0 <= 30000000 <= 30000001 /\
  30000001 * 1000000000 <= int64_max /\
  windows_now 10000000 30000000 = Done 3000000000 /\
  windows_now 10000000 30000001 = Done 3000000100.
Proof.
  assert (H1 : 0 < 10000000) by reflexivity.
  assert (H2 : 0 <= 30000000 <= 30000001) by (split; discriminate).
  assert (H3 : 30000001 * 1000000000 <= int64_max) by (vm_compute; discriminate).
  destruct (windows_now_in_range 10000000 30000000 30000001 3 H1 H2 H3)
    as (t & t' & Hnow & Hlater & -> & -> & _ & _).
  split; [exact H1|]. split; [exact H2|]. split; [exact H3|].
  split; [exact Hnow | exact Hlater].
Defined.

(** After 922 seconds of a 10 MHz counter the product leaves the
    [int64_t] and the reading is negative. *)
Example windows_now_overflows :
  windows_now 10000000 9223372037 = Done (-922337203670).
Proof. vm_compute. reflexivity. Qed.

(** ** Registration *)

Lemma suite_emplace_back_keys (key : option string) (p : pointer)
    (suites : list (option string * list pointer)) :
  NoDup (fst <$> suites) ->
  NoDup (fst <$> suite_emplace_back key p suites) /\
  (forall k, k ∈ fst <$> suite_emplace_back key p suites ->
             k = key \/ k ∈ fst <$> suites).
Proof.
  induction suites as [|[k bs] rest IH]; intros Hnodup.
  - cbn. split; [apply NoDup_singleton|].
    intros k' Hk'. apply list_elem_of_singleton in Hk'. auto.
  - cbn [suite_emplace_back]. destruct (decide (k = key)) as [->|Hne].
    + cbn [fmap list_fmap fst] in *. split; [exact Hnodup | auto].
    + cbn [fmap list_fmap fst] in *.
      apply NoDup_cons in Hnodup as [Hk Hrest].
      destruct (IH Hrest) as [Hnodup' Hkeys]. split.
      * apply NoDup_cons. split; [|exact Hnodup'].
        intros Hin. destruct (Hkeys k Hin) as [->|Hin']; [congruence | contradiction].
      * intros k' Hk'. apply elem_of_cons in Hk' as [->|Hk']; [right; left|].
        destruct (Hkeys k' Hk') as [->|Hin']; [auto | right; right; exact Hin'].
Qed.

Lemma suite_emplace_back_nonempty (key : option string) (p : pointer)
    (suites : list (option string * list pointer)) :
  Forall (fun suite : option string * list pointer => suite.2 <> []) suites ->
  Forall (fun suite : option string * list pointer => suite.2 <> [])
         (suite_emplace_back key p suites).
Proof.
  induction 1 as [|[k bs] rest Hbs Hrest IH]; cbn [suite_emplace_back].
  - repeat constructor. discriminate.
  - destruct (decide (k = key)); constructor; try assumption.
    cbn [snd] in *. destruct bs; discriminate.
Qed.

(** X6.  The empty registry is well-formed, and registering a benchmark
    or configuring one keeps it so: the registered pointers stay
    pairwise different and live, every object is in a suite, no two
    suites share a key and no suite is empty. *)
Theorem registration_keeps_the_invariant {World : Type} (name : string)
    (proc : benchmark_proc World) (p : pointer)
    (f : benchmark_impl World -> benchmark_impl World) (reg : registry World) :
  registration_invariant (@empty_registry World) /\
  (registration_invariant reg ->
   registration_invariant (new_benchmark name proc reg).1 /\
   registration_invariant (configure p f reg)).
Proof.
  split.
  - split; [apply empty_registry_wf|]. split; [cbn; intros q Hq; lia|].
    split; constructor.
  - intros (Hwf & Hall & Hkeys & Hnonempty). split.
    + split; [apply new_benchmark_wf; exact Hwf|]. split; [|split].
      * unfold registered, new_benchmark. cbn [fst _objects _suites].
        intros q Hq. rewrite suite_emplace_back_registered.
        rewrite length_app in Hq. cbn [length] in Hq.
        destruct (decide (q = length (_objects reg))) as [->|Hne]; [left|].
        right. apply Hall. lia.
      * apply suite_emplace_back_keys. exact Hkeys.
      * apply suite_emplace_back_nonempty. exact Hnonempty.
    + split; [apply configure_wf; exact Hwf|]. split; [|split; assumption].
      unfold configure. cbn [set_objects _objects]. rewrite length_alter.
      exact Hall.
Qed.

Lemma scenario_keeps_the_invariant : registration_invariant scenario.
Proof.
  pose proof (fun name proc p f reg =>
                proj2 (registration_keeps_the_invariant (World := fake_time)
                         name proc p f reg)) as Hstep.
  pose proof (proj1 (registration_keeps_the_invariant (World := fake_time)
                       "A" (sleeper 100) O id empty_registry)) as H0.
  pose proof (proj1 (Hstep "A" (sleeper 100) O id _ H0)) as H1.
  pose proof (proj2 (Hstep "A" (sleeper 100) O
                       (fun b => set_baseline true
                                   (set_samples 1 (set_iterations [10] b)))
                       _ H1)) as H2.
  pose proof (proj1 (Hstep "B" (sleeper 300) O id _ H2)) as H3.
  exact (proj2 (Hstep "B" (sleeper 300) 1%nat
                  (fun b => set_samples 1 (set_iterations [10] b)) _ H3)).
Defined.

Lemma suite_lookup_emplace_back (key : option string) (p : pointer)
    (suites : list (option string * list pointer)) :
  suite_lookup key (suite_emplace_back key p suites) =
    Some (default [] (suite_lookup key suites) ++ [p]) /\
  (forall k, k <> key ->
     suite_lookup k (suite_emplace_back key p suites) = suite_lookup k suites).
Proof.
  induction suites as [|[k bs] rest [IH1 IH2]].
  - cbn. rewrite decide_True by reflexivity. split; [reflexivity|].
    intros k Hk. rewrite decide_False by congruence. reflexivity.
  - cbn [suite_emplace_back suite_lookup].
    destruct (decide (k = key)) as [->|Hne]; cbn [suite_lookup].
    + rewrite decide_True by reflexivity. split; [reflexivity|].
      intros k Hk. rewrite !decide_False by congruence. reflexivity.
    + rewrite decide_False by exact Hne. split; [exact IH1|].
      intros k' Hk'. destruct (decide (k = k')); [reflexivity | apply IH2, Hk'].
Qed.

(** X7.  [new_benchmark] puts the new benchmark behind the benchmarks of
    the current suite, in a suite of its own if the current suite has
    none yet; it leaves the other suites and all objects there were as
    they are.  The new benchmark has the name and the callable given, no
    baseline flag, no workload sizes, sample count 0 and no states. *)
Theorem new_benchmark_appends {World : Type} (name : string)
    (proc : benchmark_proc World) (reg : registry World) :
  let reg' := (new_benchmark name proc reg).1 in
  let b := (new_benchmark name proc reg).2 in
  b = length (_objects reg) /\
  _objects reg' !! b =
    Some {| _name := name; _proc := proc; _baseline := false;
            _state_iterations := []; _samples := 0;
            _states := []; _istate := O |} /\
  (forall p, p <> b -> _objects reg' !! p = _objects reg !! p) /\
  suite_lookup (_current_suite reg) (_suites reg') =
    Some (default [] (suite_lookup (_current_suite reg) (_suites reg)) ++ [b]) /\
  (forall key, key <> _current_suite reg ->
     suite_lookup key (_suites reg') = suite_lookup key (_suites reg)) /\
  _current_suite reg' = _current_suite reg.
Proof.
  intros reg' b. subst reg' b. unfold new_benchmark. cbn [fst snd _objects _suites
    _current_suite].
  split; [reflexivity|]. split; [|split].
  - rewrite lookup_app_r by lia. rewrite Nat.sub_diag. reflexivity.
  - intros p Hp. destruct (decide (p < length (_objects reg))%nat).
    + apply lookup_app_l. assumption.
    + rewrite !lookup_ge_None_2; [reflexivity | lia |].
      rewrite length_app. cbn [length]. lia.
  - destruct (suite_lookup_emplace_back (_current_suite reg)
                (length (_objects reg)) (_suites reg)) as [H1 H2].
    split; [exact H1|]. split; [exact H2 | reflexivity].
Qed.

(** ** More of the runner *)

Section MoreRunnerFacts.

Context {World : Type} {clock : high_res_clock World}.
Variable uint_fast32_bits : Z.

#[local] Abbreviation benchmark_impl := (benchmark_impl World).
#[local] Abbreviation registry := (registry World).

Implicit Types (objs : list benchmark_impl) (b : benchmark_impl)
  (p : pointer) (r : runner) (reg : registry).

Lemma collect_benchmarks_resolved (suites : list (option string * list pointer)) :
  forall objs (benchmarks : list pointer),
    Forall (fun p => (p < length objs)%nat) (concat (snd <$> suites)) ->
    Forall (fun suite : option string * list pointer =>
              suite.2 <> [] -> existsb (flagged objs) suite.2 = true) suites ->
    collect_benchmarks suites objs benchmarks =
      Done (objs, benchmarks ++ concat (snd <$> suites)).
Proof.
  induction suites as [|[n suite] rest IH]; intros objs benchmarks Hlive Hflags.
  - cbn. rewrite app_nil_r. reflexivity.
  - cbn [fmap list_fmap snd concat] in Hlive |- *.
    apply Forall_app in Hlive as [Hsuite Hrest].
    inversion Hflags as [|? ? Hflag Hflags']; subst. cbn [snd] in Hflag.
    cbn [collect_benchmarks]. rewrite scan_suite_spec by assumption.
    cbn [mbind outcome_bind orb]. unfold default_baseline.
    destruct suite as [|front suite'].
    + cbn [existsb negb andb vector_empty mbind outcome_bind].
      rewrite IH by assumption. rewrite app_nil_r. reflexivity.
    + rewrite Hflag by discriminate. cbn [negb andb mbind outcome_bind].
      rewrite IH by assumption. rewrite <- app_assoc. reflexivity.
Qed.

(** X8.  The baseline resolution settles after one pass: run on the
    objects it has produced, it changes nothing, so a later call of
    [run_benchmarks] finds the baselines of the first and sets no other
    flag. *)
Theorem baseline_resolution_settles reg :
  registry_wf reg ->
  exists objs',
    collect_benchmarks (_suites reg) (_objects reg) [] =
      Done (objs', registered reg) /\
    collect_benchmarks (_suites reg) objs' [] = Done (objs', registered reg).
Proof.
  intros [Hnodup Hlive].
  destruct (collect_benchmarks_baselines (_suites reg) (_objects reg) []
              Hnodup Hlive) as (objs' & Hrun & Hcounts).
  destruct (collect_benchmarks_spec (_suites reg) (_objects reg) [] Hlive)
    as (objs'' & Hrun' & Hlen & _).
  rewrite Hrun in Hrun'. injection Hrun' as <-.
  exists objs'. split; [exact Hrun|].
  apply (collect_benchmarks_resolved (_suites reg) objs' []).
  - rewrite Hlen. exact Hlive.
  - eapply Forall_impl; [exact Hcounts|]. cbn. intros suite Hsuite Hne.
    destruct (Hsuite Hne) as [Hcount _].
    destruct (existsb (flagged objs') suite.2) eqn:Hex; [reflexivity|].
    apply count_baselines_none in Hex. lia.
Qed.

Lemma summary_dimensions (states : list state) (sizes : list Z) :
  dimension <$> (summary states <$> sizes) = sizes.
Proof.
  induction sizes as [|d rest IH]; [reflexivity|].
  cbn [fmap list_fmap]. f_equal. exact IH.
Qed.

(** X9.  The report follows the registry: it has the suites of the
    registry, in the order of the traversal and under their names; a
    suite has one entry for each of its benchmarks, in the order of
    registration, with the name of the benchmark, the baseline flag
    after the resolution, and one data entry for each effective workload
    size, in the configured order. *)
Theorem report_follows_the_registry (fuel : nat) r (random_seed random_device : Z)
    reg (w : World) :
  registry_wf reg ->
  every_registered (runnable r) reg ->
  every_registered (accountable r) reg ->
  (workload r reg <= fuel)%nat ->
  exists objs0 rpt reg' w' log,
    collect_benchmarks (_suites reg) (_objects reg) [] =
      Done (objs0, registered reg) /\
    run_benchmarks uint_fast32_bits fuel r random_seed random_device reg w =
      Done (rpt, reg', w', log) /\
    Forall2 (fun (suite : option string * list pointer) (rs : report_suite) =>
               suite_name rs = suite.1 /\
               Forall2 (fun p rb =>
                          exists b,
                            _objects reg !! p = Some b /\
                            benchmark_name rb = _name b /\
                            is_baseline rb = flagged objs0 p /\
                            dimension <$> data rb =
                              effective_state_iterations r b)
                       suite.2 (benchmarks rs))
            (_suites reg) (suites rpt).
Proof.
  intros Hwf Hrunnable Haccountable Hfuel.
  destruct (run_benchmarks_spec uint_fast32_bits fuel r random_seed random_device
              reg w Hwf Hrunnable Haccountable Hfuel)
    as (objs0 & objs' & w' & log & rpt & Hcollect & _ & Hrun & Hreports & _ & _ & _ & Hspec).
  exists objs0, rpt, (set_objects objs' reg), w', log.
  split; [exact Hcollect|]. split; [exact Hrun|].
  unfold reports in Hreports.
  apply Forall2_same_length_lookup. split; [eapply Forall2_length; exact Hreports|].
  intros i [n suite] rs Hsuite Hrs.
  destruct (Forall2_lookup_lr _ _ _ _ _ _ Hreports Hsuite Hrs) as [Hname Hbs].
  split; [exact Hname|]. cbn [snd] in *.
  apply Forall2_same_length_lookup. split; [eapply Forall2_length; exact Hbs|].
  intros j p rb Hp Hrb.
  destruct (Forall2_lookup_lr _ _ _ _ _ _ Hbs Hp Hrb) as (b' & Hb' & ->).
  assert (Hreg : p ∈ registered reg).
  { apply (elem_of_suites (_suites reg) n suite p).
    - eapply list_elem_of_lookup_2. exact Hsuite.
    - eapply list_elem_of_lookup_2. exact Hp. }
  destruct (registered_live reg p Hwf Hreg) as [b Hb].
  destruct (Hspec p b Hreg Hb) as (states0 & states' & _ & Hb'' & _).
  rewrite Hb' in Hb''. injection Hb'' as ->.
  exists b. split; [exact Hb|].
  cbn [report_entry benchmark_name is_baseline data set_states set_samples
       set_baseline _name _baseline _states].
  split; [reflexivity|]. split; [reflexivity|]. apply summary_dimensions.
Qed.

(** X10.  [run_benchmarks] leaves the configuration alone: the registry
    it returns has the suites and the current suite of the one it got,
    and in each registered benchmark the name, the callable and the
    workload sizes are untouched and a baseline flag that was set is
    still set.  What it writes is the sample count, which is the
    effective one afterwards, the state vector, which has grown by the
    generated states, and the cursor, which is at the end.  Objects no
    suite registers are not written at all. *)
Theorem run_leaves_the_configuration (fuel : nat) r (random_seed random_device : Z)
    reg (w : World) :
  registry_wf reg ->
  every_registered (runnable r) reg ->
  every_registered (accountable r) reg ->
  (workload r reg <= fuel)%nat ->
  exists rpt objs' w' log,
    run_benchmarks uint_fast32_bits fuel r random_seed random_device reg w =
      Done (rpt,
            {| _objects := objs'; _suites := _suites reg;
               _current_suite := _current_suite reg |}, w', log) /\
    length objs' = length (_objects reg) /\
    (forall p, p ∉ registered reg -> objs' !! p = _objects reg !! p) /\
    (forall p b, p ∈ registered reg -> _objects reg !! p = Some b ->
       exists b',
         objs' !! p = Some b' /\
         _name b' = _name b /\
         _proc b' = _proc b /\
         _state_iterations b' = _state_iterations b /\
         (_baseline b = true -> _baseline b' = true) /\
         _samples b' = effective_samples r b /\
         length (_states b') =
           (length (_states b)
            + length (effective_state_iterations r b)
              * Z.to_nat (effective_samples r b))%nat /\
         _istate b' = length (_states b')).
Proof.
  intros Hwf Hrunnable Haccountable Hfuel.
  destruct (run_benchmarks_spec uint_fast32_bits fuel r random_seed random_device
              reg w Hwf Hrunnable Haccountable Hfuel)
    as (objs0 & objs' & w' & log & rpt & Hcollect & _ & Hrun & _ & Hlen & Hframe & _ & Hspec).
  exists rpt, objs', w', log. split; [exact Hrun|]. split; [exact Hlen|].
  split; [exact Hframe|].
  intros p b Hp Hb.
  destruct (Hspec p b Hp Hb) as (states0 & states' & Hperm & Hb' & Hran & _).
  eexists. split; [exact Hb'|].
  cbn [set_states set_samples set_baseline _name _proc _state_iterations
       _baseline _samples _states _istate].
  repeat (split; [reflexivity|]).
  apply Forall2_length in Hran.
  split; [|split; [reflexivity|]]; cycle 1.
  - split; [|exact Hran].
    rewrite <- Hran, Hperm, length_app, length_generated. reflexivity.
  - intros Hbase.
    destruct (collect_benchmarks_spec (_suites reg) (_objects reg) []
                (proj2 Hwf)) as (objs0' & Hcollect' & _ & _ & Hflags).
    cbn [app] in Hcollect'. fold (registered reg) in Hcollect'.
    rewrite Hcollect in Hcollect'. injection Hcollect' as <-.
    destruct (Hflags p b Hb) as (v & Hb0 & Hv).
    unfold flagged. rewrite Hb0. cbn. exact (Hv Hbase).
Qed.

Lemma sum_list_with_indicator (q : pointer) (ps : list pointer) :
  NoDup ps -> q ∈ ps ->
  sum_list_with (fun p => if decide (q = p) then 1%nat else O) ps = 1%nat.
Proof.
  induction 1 as [|p ps Hp Hnodup IH]; intros Hq; [inversion Hq|].
  cbn [sum_list_with]. destruct (decide (q = p)) as [->|Hne].
  - f_equal. clear IH Hq. induction ps as [|p' ps IH]; [reflexivity|].
    cbn [sum_list_with]. apply not_elem_of_cons in Hp as [Hne Hp].
    apply NoDup_cons in Hnodup as [_ Hnodup].
    rewrite decide_False by exact Hne. apply IH; assumption.
  - apply elem_of_cons in Hq as [?|Hq]; [contradiction|]. apply IH, Hq.
Qed.

Lemma length_by_benchmark (ps : list pointer) (log : list execution) :
  NoDup ps ->
  Forall (fun e => executed_benchmark e ∈ ps) log ->
  length log = sum_list_with (fun p => length (executions_by p log)) ps.
Proof.
  intros Hnodup. induction 1 as [|e log He _ IH].
  - induction ps as [|p ps IHps]; [reflexivity|].
    cbn [sum_list_with]. apply NoDup_cons in Hnodup as [_ Hnodup].
    rewrite <- IHps by exact Hnodup. reflexivity.
  - cbn [length]. rewrite IH.
    pose proof (sum_list_with_indicator (executed_benchmark e) ps Hnodup He)
      as Hone.
    enough (sum_list_with (fun p => length (executions_by p (e :: log))) ps =
            (sum_list_with
               (fun p => if decide (executed_benchmark e = p) then 1 else 0) ps
             + sum_list_with (fun p => length (executions_by p log)) ps)%nat)
      as Hsplit by lia.
    clear. induction ps as [|p ps IHps]; [reflexivity|].
    cbn [sum_list_with]. rewrite IHps. unfold executions_by at 1.
    rewrite filter_cons. fold (executions_by p log).
    destruct (decide (executed_benchmark e = p)); cbn [length]; lia.
Qed.

(** X11.  The scheduling loop calls a benchmark callable once for every
    state of every registered benchmark and not once more.  What the
    loop leaves, objects and world, is what the calls of its log leave
    when they are made one after the other from the prepared objects
    on, each call with the callable of its benchmark in the world the
    call before has left; these calls are as many as the benchmarks
    hold states after the initialisation, for each benchmark as many as
    it holds, and every one is a call of a registered benchmark. *)
Theorem run_makes_as_many_calls_as_states (fuel : nat) r
    (random_seed random_device : Z) reg (w : World) :
  registry_wf reg ->
  every_registered (runnable r) reg ->
  (workload r reg <= fuel)%nat ->
  exists objs1 rnd1 objs' w' log,
    prepare uint_fast32_bits r random_seed random_device reg =
      Done (objs1, registered reg, rnd1) /\
    execute uint_fast32_bits fuel r random_seed random_device reg w =
      Done (objs', w', log) /\
    replay log objs1 w = Done (objs', w') /\
    length log = workload r reg /\
    Forall (fun e => executed_benchmark e ∈ registered reg) log /\
    forall p b, p ∈ registered reg -> _objects reg !! p = Some b ->
      length (executions_by p log) = length (_states b ++ generated r b).
Proof.
  intros Hwf Hrunnable Hfuel.
  destruct (execute_prepared uint_fast32_bits fuel r random_seed random_device
              reg w Hwf Hrunnable Hfuel)
    as (objs0 & objs1 & rnd1 & objs' & w' & log & _ & Hprepare & Hexec
        & Hreplay & Hlog & Hspec).
  assert (Hcalls : forall p b, p ∈ registered reg -> _objects reg !! p = Some b ->
            length (executions_by p log) = length (_states b ++ generated r b)).
  { intros p b Hp Hb.
    destruct (Hspec p b Hp Hb) as (states0 & states' & Hperm & _ & _ & _ & Hby).
    rewrite Hby. unfold executions_of. rewrite length_imap, Hperm. reflexivity. }
  exists objs1, rnd1, objs', w', log. split; [exact Hprepare|].
  split; [exact Hexec|]. split; [exact Hreplay|].
  split; [|split; [exact Hlog | exact Hcalls]].
  rewrite (length_by_benchmark (registered reg) log (proj1 Hwf) Hlog).
  unfold workload. apply sum_list_with_ext_in. intros p Hp.
  destruct (registered_live reg p Hwf Hp) as [b Hb]. rewrite Hb.
  apply Hcalls; assumption.
Qed.

(** X12.  The assertion of the source on the averages,
    [d.samples == b->_samples], holds for a benchmark that had no states
    before the call and whose workload sizes are pairwise different:
    every entry of its report counts the sample count the benchmark
    holds after the run. *)
Theorem samples_assertion_holds (fuel : nat) r (random_seed random_device : Z)
    reg (w : World) (i j : nat) p b :
  registry_wf reg ->
  every_registered (runnable r) reg ->
  every_registered (accountable r) reg ->
  (workload r reg <= fuel)%nat ->
  registry_lookup reg i j = Some p ->
  _objects reg !! p = Some b ->
  _states b = [] ->
  NoDup (effective_state_iterations r b) ->
  exists rpt objs' w' log b' rb,
    run_benchmarks uint_fast32_bits fuel r random_seed random_device reg w =
      Done (rpt, set_objects objs' reg, w', log) /\
    objs' !! p = Some b' /\
    report_lookup rpt i j = Some rb /\
    Forall (fun d => samples d = _samples b') (data rb).
Proof.
  intros Hwf Hrunnable Haccountable Hfuel Hlookup Hb Hempty Hnodup.
  destruct (run_benchmarks_spec uint_fast32_bits fuel r random_seed random_device
              reg w Hwf Hrunnable Haccountable Hfuel)
    as (objs0 & objs' & w' & log & rpt & _ & _ & Hrun & Hreports & _ & _ & _ & Hspec).
  pose proof (registry_lookup_registered reg i j p Hlookup) as Hp.
  destruct (Hspec p b Hp Hb) as (states0 & states' & Hperm & Hb' & Hran & _).
  destruct (reports_lookup r objs' reg rpt i j p Hreports Hlookup)
    as (b'' & Hb'' & Hrb).
  rewrite Hb' in Hb''. injection Hb'' as <-.
  unfold every_registered in *. rewrite Forall_forall in Hrunnable, Haccountable.
  destruct (Hrunnable p Hp b Hb) as (Hsamples & _ & _).
  destruct (Haccountable p Hp b Hb) as (Hkeeps & _).
  eexists rpt, objs', w', log, _, _.
  split; [exact Hrun|]. split; [exact Hb'|]. split; [exact Hrb|].
  cbn [report_entry data set_states set_samples _states _samples].
  change (effective_state_iterations r _) with (effective_state_iterations r b).
  rewrite Forall_forall. intros d Hd.
  apply list_elem_of_fmap in Hd as (dim & -> & Hdim).
  cbn [summary samples].
  rewrite (length_group_after r b dim states0 states' Hkeeps Hperm Hran), Hempty.
  rewrite (multiplicity_NoDup dim _ Hnodup Hdim).
  change (length (group dim [])) with O. lia.
Qed.

End MoreRunnerFacts.

Lemma baseline_resolution_settles_at_scenario :
  registry_wf scenario /\
  exists objs',
    collect_benchmarks (_suites scenario) (_objects scenario) [] =
      Done (objs', registered scenario) /\
    collect_benchmarks (_suites scenario) objs' [] =
      Done (objs', registered scenario).
Proof.
  split; [exact scenario_wf|].
  exact (baseline_resolution_settles scenario scenario_wf).
Defined.

Lemma report_follows_the_registry_at_scenario :
  registry_wf scenario /\
  every_registered (runnable new_runner) scenario /\
  every_registered (accountable new_runner) scenario /\
  (workload new_runner scenario <= 2)%nat /\
  exists rpt reg' w' log,
    run_benchmarks 64 2 new_runner 42 0 scenario {| now := 0 |} =
      Done (rpt, reg', w', log) /\
    length (suites rpt) = length (_suites scenario).
Proof.
  split; [exact scenario_wf|]. split; [exact scenario_runnable|].
  split; [exact scenario_accountable|]. split; [vm_compute; lia|].
  destruct (report_follows_the_registry 64 2 new_runner 42 0 scenario {| now := 0 |}
              scenario_wf scenario_runnable scenario_accountable
              ltac:(vm_compute; lia))
    as (objs0 & rpt & reg' & w' & log & _ & Hrun & Hshape).
  exists rpt, reg', w', log. split; [exact Hrun|].
  symmetry. eapply Forall2_length. exact Hshape.
Defined.

Lemma run_leaves_the_configuration_at_scenario :
  registry_wf scenario /\
  every_registered (runnable new_runner) scenario /\
  every_registered (accountable new_runner) scenario /\
  (workload new_runner scenario <= 2)%nat /\
  exists rpt objs' w' log b',
    run_benchmarks 64 2 new_runner 42 0 scenario {| now := 0 |} =
      Done (rpt,
            {| _objects := objs'; _suites := _suites scenario;
               _current_suite := _current_suite scenario |}, w', log) /\
    objs' !! 1%nat = Some b' /\
    _state_iterations b' = [10] /\
    _samples b' = 1 /\
    length (_states b') = 1%nat.
Proof.
  split; [exact scenario_wf|]. split; [exact scenario_runnable|].
  split; [exact scenario_accountable|]. split; [vm_compute; lia|].
  destruct (run_leaves_the_configuration 64 2 new_runner 42 0 scenario {| now := 0 |}
              scenario_wf scenario_runnable scenario_accountable
              ltac:(vm_compute; lia))
    as (rpt & objs' & w' & log & Hrun & _ & _ & Hspec).
  destruct (Hspec 1%nat _ ltac:(right; left) eq_refl)
    as (b' & Hb' & _ & _ & Hsizes & _ & Hsamples & Hstates & _).
  exists rpt, objs', w', log, b'. split; [exact Hrun|]. split; [exact Hb'|].
  split; [exact Hsizes|]. split; [exact Hsamples|]. exact Hstates.
Defined.

Lemma run_makes_as_many_calls_as_states_at_several_states :
  registry_wf several_states /\
  every_registered (runnable new_runner) several_states /\
  (workload new_runner several_states <= 7)%nat /\
  exists objs1 objs' w' log,
    execute 64 7 new_runner 3 0 several_states {| now := 0 |} =
      Done (objs', w', log) /\
    replay log objs1 {| now := 0 |} = Done (objs', w') /\
    length log = 7%nat /\
    length (executions_by O log) = 4%nat /\
    length (executions_by 1%nat log) = 3%nat /\
    now w' = 100 * (10 + 20 + 10 + 20) + 300 * (10 + 10 + 10).
Proof.
  split; [exact several_states_wf|]. split; [exact several_states_runnable|].
  split; [vm_compute; lia|].
  destruct (run_makes_as_many_calls_as_states 64 7 new_runner 3 0 several_states
              {| now := 0 |} several_states_wf several_states_runnable
              ltac:(vm_compute; lia))
    as (objs1 & rnd1 & objs' & w' & log & _ & Hexec & Hreplay & Hlen & _ & Hcalls).
  assert (Hnow : match execute 64 7 new_runner 3 0 several_states {| now := 0 |} with
                 | Done (_, w, _) => now w
                 | _ => 0
                 end = 100 * (10 + 20 + 10 + 20) + 300 * (10 + 10 + 10))
    by (vm_compute; reflexivity).
  rewrite Hexec in Hnow.
  exists objs1, objs', w', log. split; [exact Hexec|]. split; [exact Hreplay|].
  split; [exact Hlen|].
  split; [exact (Hcalls O _ ltac:(left) eq_refl)|].
  split; [exact (Hcalls 1%nat _ ltac:(right; left) eq_refl) | exact Hnow].
Defined.

Lemma samples_assertion_holds_at_scenario :
  registry_wf scenario /\
  every_registered (runnable new_runner) scenario /\
  every_registered (accountable new_runner) scenario /\
  (workload new_runner scenario <= 2)%nat /\
  exists rpt objs' w' log b' rb,
    run_benchmarks 64 2 new_runner 42 0 scenario {| now := 0 |} =
      Done (rpt, set_objects objs' scenario, w', log) /\
    objs' !! 1%nat = Some b' /\
    report_lookup rpt 0 1 = Some rb /\
    Forall (fun d => samples d = _samples b') (data rb).
Proof.
  split; [exact scenario_wf|]. split; [exact scenario_runnable|].
  split; [exact scenario_accountable|]. split; [vm_compute; lia|].
  refine (samples_assertion_holds 64 2 new_runner 42 0 scenario {| now := 0 |}
            0 1 1%nat _ scenario_wf scenario_runnable scenario_accountable
            ltac:(vm_compute; lia) eq_refl eq_refl eq_refl _).
  apply NoDup_singleton.
Defined.

(** ** The problem-space view *)

Lemma filed_under_snoc (k : Z) (entries : list (Z * problem_space_benchmark))
    (dim : Z) (x : problem_space_benchmark) :
  filed_under k (entries ++ [(dim, x)]) =
    filed_under k entries ++ (if decide (dim = k) then [x] else []).
Proof.
  unfold filed_under. rewrite filter_app, fmap_app. f_equal.
  rewrite filter_cons. cbn [fst].
  destruct (decide (dim = k)); reflexivity.
Qed.

Lemma filed_under_absent (k : Z) (entries : list (Z * problem_space_benchmark)) :
  (forall e, e ∈ entries -> e.1 <> k) -> filed_under k entries = [].
Proof.
  unfold filed_under. induction entries as [|e rest IH]; intros Habsent;
    [reflexivity|].
  rewrite filter_cons, decide_False by (apply Habsent; left).
  apply IH. intros e' He'. apply Habsent. right. exact He'.
Qed.

Lemma elem_of_filed_under (k : Z) (entries : list (Z * problem_space_benchmark))
    (x : problem_space_benchmark) :
  x ∈ filed_under k entries <-> (k, x) ∈ entries.
Proof.
  unfold filed_under. rewrite list_elem_of_fmap. split.
  - intros ([k' x'] & -> & Hin). apply list_elem_of_filter in Hin as [Hk Hin].
    cbn in Hk. subst k'. exact Hin.
  - intros Hin. exists (k, x). split; [reflexivity|].
    apply list_elem_of_filter. split; [reflexivity | exact Hin].
Qed.

Lemma view_push_back_spec (dim : Z) (x : problem_space_benchmark)
    (entries : list (Z * problem_space_benchmark)) :
  forall res : list (Z * list problem_space_benchmark),
    StronglySorted Z.lt (fst <$> res) ->
    Forall (fun kv => kv.2 = filed_under kv.1 entries /\ kv.2 <> []) res ->
    (dim ∉ fst <$> res -> filed_under dim entries = []) ->
    StronglySorted Z.lt (fst <$> view_push_back dim x res) /\
    Forall (fun kv => kv.2 = filed_under kv.1 (entries ++ [(dim, x)]) /\
                      kv.2 <> [])
           (view_push_back dim x res) /\
    (forall k, k ∈ fst <$> view_push_back dim x res <->
               k = dim \/ k ∈ fst <$> res).
Proof.
  assert (Hother : forall (rest : list (Z * list problem_space_benchmark)),
            Forall (fun k => k <> dim) (fst <$> rest) ->
            Forall (fun kv => kv.2 = filed_under kv.1 entries /\ kv.2 <> []) rest ->
            Forall (fun kv => kv.2 = filed_under kv.1 (entries ++ [(dim, x)]) /\
                              kv.2 <> []) rest).
  { intros rest Hne Hrest. rewrite Forall_fmap in Hne.
    rewrite Forall_forall in Hne, Hrest |- *. intros kv Hkv.
    destruct (Hrest kv Hkv) as [Hfiled Hnonempty]. split; [|exact Hnonempty].
    rewrite filed_under_snoc, decide_False, app_nil_r; [exact Hfiled|].
    intros Heq. apply (Hne kv Hkv). symmetry. exact Heq. }
  induction res as [|[k v] rest IH]; intros Hsorted Hfiled Habsent.
  - cbn [view_push_back fmap list_fmap fst]. split; [|split].
    + repeat constructor.
    + constructor; [|constructor]. cbn [fst snd]. split; [|discriminate].
      rewrite filed_under_snoc, decide_True by reflexivity.
      rewrite Habsent by (intros H; inversion H). reflexivity.
    + intros k'. rewrite list_elem_of_singleton. split; [left; assumption|].
      intros [?|H]; [assumption | inversion H].
  - cbn [fmap list_fmap fst] in Hsorted, Habsent.
    apply StronglySorted_inv in Hsorted as [Hsorted Hfirst].
    apply Forall_cons in Hfiled as [[Hv Hnonempty] Hfiled]. cbn [fst snd] in Hv, Hnonempty.
    cbn [view_push_back].
    destruct (dim <? k) eqn:Hlt; [|destruct (dim =? k) eqn:Heq].
    + apply Z.ltb_lt in Hlt. cbn [fmap list_fmap fst]. split; [|split].
      * constructor; [constructor; assumption|].
        constructor; [exact Hlt|].
        eapply Forall_impl; [exact Hfirst|]. cbn. intros; lia.
      * constructor.
        { cbn [fst snd]. split; [|discriminate].
          rewrite filed_under_snoc, decide_True by reflexivity.
          rewrite Habsent; [reflexivity|].
          intros Hin. apply elem_of_cons in Hin as [->|Hin]; [lia|].
          rewrite Forall_forall in Hfirst. specialize (Hfirst dim Hin). lia. }
        apply Hother.
        { cbn [fmap list_fmap fst]. constructor; [lia|].
          eapply Forall_impl; [exact Hfirst|]. cbn. intros; lia. }
        constructor; [split; assumption | exact Hfiled].
      * intros k'. rewrite elem_of_cons. reflexivity.
    + apply Z.eqb_eq in Heq. subst k. cbn [fmap list_fmap fst]. split; [|split].
      * constructor; assumption.
      * constructor.
        { cbn [fst snd]. split; [|intros H; apply app_eq_nil in H as [_ H]; discriminate].
          rewrite filed_under_snoc, decide_True by reflexivity.
          rewrite Hv. reflexivity. }
        apply Hother; [|exact Hfiled].
        eapply Forall_impl; [exact Hfirst|]. cbn. intros; lia.
      * intros k'. rewrite elem_of_cons. split; [auto|].
        intros [->|H]; [left; reflexivity | exact H].
    + apply Z.ltb_ge in Hlt. apply Z.eqb_neq in Heq.
      destruct (IH Hsorted Hfiled) as (Hsorted' & Hfiled' & Hkeys).
      { intros Hnotin. apply Habsent. intros Hin.
        apply elem_of_cons in Hin as [->|Hin]; [lia | exact (Hnotin Hin)]. }
      cbn [fmap list_fmap fst]. split; [|split].
      * constructor; [exact Hsorted'|].
        rewrite Forall_forall. intros k' Hk'. apply Hkeys in Hk' as [->|Hk']; [lia|].
        rewrite Forall_forall in Hfirst. exact (Hfirst k' Hk').
      * constructor; [|exact Hfiled']. cbn [fst snd]. split; [|exact Hnonempty].
        rewrite filed_under_snoc, decide_False, app_nil_r by lia. exact Hv.
      * intros k'. rewrite !elem_of_cons, Hkeys. tauto.
Qed.

Lemma view_push_back_rows (dim : Z) (x : problem_space_benchmark) :
  forall res : list (Z * list problem_space_benchmark),
    concat (snd <$> view_push_back dim x res) ≡ₚ x :: concat (snd <$> res).
Proof.
  induction res as [|[k v] rest IH]; [reflexivity|].
  cbn [view_push_back].
  destruct (dim <? k); [reflexivity|]. destruct (dim =? k).
  - cbn [fmap list_fmap snd concat]. rewrite <- app_assoc. cbn [app].
    symmetry. apply Permutation_middle.
  - cbn [fmap list_fmap snd concat]. rewrite IH. symmetry. apply Permutation_middle.
Qed.

Lemma get_problem_space_view_entries (s : report_suite) :
  get_problem_space_view s =
    fold_left (fun res e => view_push_back e.1 e.2 res) (suite_entries s) [].
Proof.
  unfold get_problem_space_view, suite_entries.
  generalize ([] : list (Z * list problem_space_benchmark)).
  induction (benchmarks s) as [|bm bms IH]; intros res; [reflexivity|].
  cbn [fold_left flat_map]. rewrite fold_left_app, <- IH. f_equal.
  generalize res. induction (data bm) as [|d ds IHd]; intros res'; [reflexivity|].
  cbn [fold_left fmap list_fmap]. apply IHd.
Qed.

Lemma view_fold_spec (entries : list (Z * problem_space_benchmark)) :
  forall (filed : list (Z * problem_space_benchmark))
         (res : list (Z * list problem_space_benchmark)),
    StronglySorted Z.lt (fst <$> res) ->
    Forall (fun kv => kv.2 = filed_under kv.1 filed /\ kv.2 <> []) res ->
    (forall e, e ∈ filed -> e.1 ∈ fst <$> res) ->
    concat (snd <$> res) ≡ₚ snd <$> filed ->
    let view := fold_left (fun res e => view_push_back e.1 e.2 res) entries res in
    StronglySorted Z.lt (fst <$> view) /\
    Forall (fun kv => kv.2 = filed_under kv.1 (filed ++ entries) /\ kv.2 <> [])
           view /\
    (forall e, e ∈ filed ++ entries -> e.1 ∈ fst <$> view) /\
    concat (snd <$> view) ≡ₚ snd <$> (filed ++ entries).
Proof.
  induction entries as [|[dim x] rest IH];
    intros filed res Hsorted Hfiled Hkeys Hrows; cbn zeta.
  - cbn [fold_left]. rewrite app_nil_r. auto.
  - cbn [fold_left fst snd].
    destruct (view_push_back_spec dim x filed res Hsorted Hfiled)
      as (Hsorted' & Hfiled' & Hkeys').
    { intros Hnotin. apply filed_under_absent. intros e He <-.
      exact (Hnotin (Hkeys e He)). }
    replace (filed ++ (dim, x) :: rest) with ((filed ++ [(dim, x)]) ++ rest)
      by (rewrite <- app_assoc; reflexivity).
    apply IH; [exact Hsorted' | exact Hfiled' | |].
    + intros e He. apply Hkeys'. apply elem_of_app in He as [He|He].
      * right. exact (Hkeys e He).
      * apply list_elem_of_singleton in He as ->. left. reflexivity.
    + rewrite view_push_back_rows, Hrows, fmap_app. cbn [fmap list_fmap snd].
      apply Permutation_cons_append.
Qed.

Lemma problem_space_view_entries (s : report_suite) :
  Forall (fun kv => kv.2 = filed_under kv.1 (suite_entries s) /\ kv.2 <> [])
         (get_problem_space_view s) /\
  (forall e, e ∈ suite_entries s -> e.1 ∈ fst <$> get_problem_space_view s).
Proof.
  rewrite get_problem_space_view_entries.
  destruct (view_fold_spec (suite_entries s) [] []) as (_ & Hfiled & Hkeys & _).
  - constructor.
  - constructor.
  - intros e He. inversion He.
  - reflexivity.
  - split; assumption.
Qed.

(** X13.  The view [to_text] prints from is the grouping of the data
    entries of a suite by workload size: the sizes are in ascending
    order, each once; under a size stand the entries of that size, in
    the order of the suite (benchmark by benchmark, entry by entry), and
    at least one; every entry of the suite is under its size, and the
    rows of the view are the entries of the suite, rearranged. *)
Theorem view_groups_by_dimension (s : report_suite) :
  StronglySorted Z.lt (fst <$> get_problem_space_view s) /\
  Forall (fun kv => kv.2 = filed_under kv.1 (suite_entries s) /\ kv.2 <> [])
         (get_problem_space_view s) /\
  (forall e, e ∈ suite_entries s -> e.1 ∈ fst <$> get_problem_space_view s) /\
  concat (snd <$> get_problem_space_view s) ≡ₚ snd <$> suite_entries s.
Proof.
  rewrite get_problem_space_view_entries.
  apply (view_fold_spec (suite_entries s) [] []).
  - constructor.
  - constructor.
  - intros e He. inversion He.
  - reflexivity.
Qed.

(** ** The text views *)

Lemma division_guard (total dim : Z) :
  (dim =? 0) || ((total =? int64_min) && (dim =? -1)) = false <->
  divisible total dim.
Proof.
  unfold divisible.
  rewrite orb_false_iff, andb_false_iff, !Z.eqb_neq. lia.
Qed.

Lemma int64_div_divisible (a b : Z) :
  divisible a b -> int64_div a b = Done (Z.quot a b).
Proof.
  intros H. apply division_guard in H. unfold int64_div. rewrite H. reflexivity.
Qed.

Lemma int64_div_not_divisible (a b : Z) :
  ~ divisible a b -> int64_div a b = Fault division_by_zero.
Proof.
  intros H. unfold int64_div.
  destruct ((b =? 0) || ((a =? int64_min) && (b =? -1))) eqn:Hguard;
    [reflexivity|].
  apply division_guard in Hguard. contradiction.
Qed.

(** A traversal whose steps can only fail with [e] returns if all steps
    do, and fails with [e] if one does. *)
Lemma mapM_Done_or_Fault {A B} (f : A -> outcome B) (e : fault) (l : list A) :
  Forall (fun x => (exists y, f x = Done y) \/ f x = Fault e) l ->
  (Forall (fun x => exists y, f x = Done y) l /\ exists ys, mapM f l = Done ys) \/
  (Exists (fun x => f x = Fault e) l /\ mapM f l = Fault e).
Proof.
  induction 1 as [|x l [[y Hx]|Hx] _ [[Hall [ys Hl]]|[Hsome Hl]]].
  - left. split; [constructor|]. exists []. reflexivity.
  - left. split; [constructor; eauto|]. exists (y :: ys).
    apply mapM_cons_Done; assumption.
  - right. split; [right; exact Hsome|]. simpl. rewrite Hx. simpl.
    rewrite Hl. reflexivity.
  - right. split; [left; exact Hx|]. simpl. rewrite Hx. reflexivity.
  - right. split; [left; exact Hx|]. simpl. rewrite Hx. reflexivity.
Qed.

Section TextFacts.

Variable fixed : nat -> double -> string.

Lemma to_text_row_divisible (dim : Z) (bms : list problem_space_benchmark)
    (baseline : option nat) (j : nat) (bm : problem_space_benchmark) :
  divisible (psb_total_time_ns bm) dim ->
  exists text, to_text_row fixed dim bms baseline j bm = Done text.
Proof.
  intros H. apply division_guard in H. unfold to_text_row. rewrite H.
  eexists. reflexivity.
Qed.

Lemma to_text_row_not_divisible (dim : Z) (bms : list problem_space_benchmark)
    (baseline : option nat) (j : nat) (bm : problem_space_benchmark) :
  ~ divisible (psb_total_time_ns bm) dim ->
  to_text_row fixed dim bms baseline j bm = Fault division_by_zero.
Proof.
  intros H. unfold to_text_row.
  destruct ((dim =? 0) || ((psb_total_time_ns bm =? int64_min) && (dim =? -1)))
    eqn:Hguard; [reflexivity|].
  apply division_guard in Hguard. contradiction.
Qed.

Lemma divisible_dec (total dim : Z) : divisible total dim \/ ~ divisible total dim.
Proof.
  destruct ((dim =? 0) || ((total =? int64_min) && (dim =? -1))) eqn:Hguard.
  - right. intros H. apply division_guard in H. congruence.
  - left. apply division_guard. exact Hguard.
Qed.

Lemma to_text_problem_space_outcome (ps : Z * list problem_space_benchmark) :
  (Forall (fun bm => divisible (psb_total_time_ns bm) ps.1) ps.2 /\
   exists text, to_text_problem_space fixed ps = Done text) \/
  (Exists (fun bm => ~ divisible (psb_total_time_ns bm) ps.1) ps.2 /\
   to_text_problem_space fixed ps = Fault division_by_zero).
Proof.
  unfold to_text_problem_space.
  destruct (mapM_Done_or_Fault
              (fun jbm : nat * problem_space_benchmark =>
                 to_text_row fixed ps.1 ps.2 (find_baseline ps.2) jbm.1 jbm.2)
              division_by_zero (imap pair ps.2))
    as [[Hall [rows Hrows]]|[Hsome Hrows]].
  - rewrite Forall_forall. intros [j bm] _. cbn [fst snd].
    destruct (divisible_dec (psb_total_time_ns bm) ps.1) as [H|H].
    + left. apply to_text_row_divisible. exact H.
    + right. apply to_text_row_not_divisible. exact H.
  - left. split.
    + rewrite Forall_forall in Hall. rewrite Forall_forall. intros bm Hbm.
      apply list_elem_of_lookup in Hbm as [j Hj].
      destruct (Hall (j, bm)) as [text Htext].
      { apply elem_of_lookup_imap. exists j, bm. auto. }
      cbn [fst snd] in Htext.
      destruct (divisible_dec (psb_total_time_ns bm) ps.1) as [H|H]; [exact H|].
      rewrite (to_text_row_not_divisible _ _ _ _ _ H) in Htext. discriminate.
    + rewrite Hrows. eexists. reflexivity.
  - right. split.
    + apply Exists_exists in Hsome as ([j bm] & Hin & Hfault).
      apply elem_of_lookup_imap in Hin as (j' & bm' & Heq & Hj).
      injection Heq as -> ->. cbn [fst snd] in Hfault.
      apply Exists_exists. exists bm'. split; [eapply list_elem_of_lookup_2; exact Hj|].
      intros H. destruct (to_text_row_divisible ps.1 ps.2 (find_baseline ps.2) j' bm' H)
        as [text Htext]. rewrite Htext in Hfault. discriminate.
    + rewrite Hrows. reflexivity.
Qed.

Lemma elem_of_suite_entries (s : report_suite) (k : Z)
    (x : problem_space_benchmark) :
  (k, x) ∈ suite_entries s <->
  exists bm d, bm ∈ benchmarks s /\ d ∈ data bm /\ k = dimension d /\
               x = {| psb_name := benchmark_name bm;
                      psb_is_baseline := is_baseline bm;
                      psb_total_time_ns := total_time_ns d |}.
Proof.
  unfold suite_entries. rewrite list_elem_of_In, in_flat_map. split.
  - intros (bm & Hbm & Hin). apply list_elem_of_In in Hbm, Hin.
    apply list_elem_of_fmap in Hin as (d & Heq & Hd). injection Heq as -> ->.
    exists bm, d. auto.
  - intros (bm & d & Hbm & Hd & -> & ->). exists bm.
    rewrite <- !list_elem_of_In. split; [exact Hbm|].
    apply list_elem_of_fmap. exists d. auto.
Qed.

Lemma to_text_suite_outcome (s : report_suite) :
  (Forall (fun bm => Forall renderable (data bm)) (benchmarks s) /\
   exists text, to_text_suite fixed s = Done text) \/
  (Exists (fun bm => Exists (fun d => ~ renderable d) (data bm)) (benchmarks s) /\
   to_text_suite fixed s = Fault division_by_zero).
Proof.
  destruct (problem_space_view_entries s) as (Hfiled & Hkeys).
  unfold to_text_suite.
  destruct (mapM_Done_or_Fault (to_text_problem_space fixed) division_by_zero
              (get_problem_space_view s))
    as [[Hall [tables Htables]]|[Hsome Htables]].
  - rewrite Forall_forall. intros ps _.
    destruct (to_text_problem_space_outcome ps) as [[_ H]|[_ H]]; auto.
  - left. split; [|rewrite Htables; eexists; reflexivity].
    rewrite Forall_forall. intros bm Hbm. rewrite Forall_forall. intros d Hd.
    pose (x := {| psb_name := benchmark_name bm;
                  psb_is_baseline := is_baseline bm;
                  psb_total_time_ns := total_time_ns d |}).
    assert (Hentry : (dimension d, x) ∈ suite_entries s).
    { apply elem_of_suite_entries. exists bm, d. auto. }
    pose proof (Hkeys _ Hentry) as Hkey. cbn [fst] in Hkey.
    apply list_elem_of_fmap in Hkey as ([k bms] & Hk & Hps). cbn [fst] in Hk. subst k.
    rewrite Forall_forall in Hall. rewrite Forall_forall in Hfiled.
    destruct (Hfiled _ Hps) as [Hbms _]. cbn [fst snd] in Hbms.
    destruct (to_text_problem_space_outcome (dimension d, bms))
      as [[Hdiv _]|[_ Hfault]].
    + rewrite Forall_forall in Hdiv. apply (Hdiv x). cbn [snd].
      rewrite Hbms. apply elem_of_filed_under. exact Hentry.
    + destruct (Hall _ Hps) as [text Htext]. rewrite Htext in Hfault. discriminate.
  - right. split; [|rewrite Htables; reflexivity].
    apply Exists_exists in Hsome as ([k bms] & Hps & Hfault).
    destruct (to_text_problem_space_outcome (k, bms)) as [[_ [text Htext]]|[Hbad _]];
      [rewrite Htext in Hfault; discriminate|].
    cbn [fst snd] in Hbad. apply Exists_exists in Hbad as (x & Hx & Hbad).
    rewrite Forall_forall in Hfiled. destruct (Hfiled _ Hps) as [Hbms _].
    cbn [fst snd] in Hbms. rewrite Hbms in Hx. apply elem_of_filed_under in Hx.
    apply elem_of_suite_entries in Hx as (bm & d & Hbm & Hd & -> & ->).
    apply Exists_exists. exists bm. split; [exact Hbm|].
    apply Exists_exists. exists d. split; [exact Hd | exact Hbad].
Qed.

Lemma to_text_outcome (rpt : report) :
  (Forall (fun s => Forall (fun bm => Forall renderable (data bm)) (benchmarks s))
          (suites rpt) /\
   exists text, to_text fixed rpt = Done text) \/
  (Exists (fun s => Exists (fun bm => Exists (fun d => ~ renderable d) (data bm))
                           (benchmarks s))
          (suites rpt) /\
   to_text fixed rpt = Fault division_by_zero).
Proof.
  unfold to_text.
  destruct (mapM_Done_or_Fault (to_text_suite fixed) division_by_zero (suites rpt))
    as [[Hall [texts Htexts]]|[Hsome Htexts]].
  - rewrite Forall_forall. intros s _.
    destruct (to_text_suite_outcome s) as [[_ H]|[_ H]]; auto.
  - left. split; [|rewrite Htexts; eexists; reflexivity].
    eapply Forall_impl; [exact Hall|]. cbn. intros s [text Htext].
    destruct (to_text_suite_outcome s) as [[H _]|[_ H]]; [exact H|].
    rewrite Htext in H. discriminate.
  - right. split; [|rewrite Htexts; reflexivity].
    eapply Exists_impl; [exact Hsome|]. cbn. intros s Hfault.
    destruct (to_text_suite_outcome s) as [[_ [text H]]|[H _]]; [|exact H].
    rewrite H in Hfault. discriminate.
Qed.

End TextFacts.

(** X14.  [to_text] writes its table when no data entry of the report
    has the workload size 0 (or the size -1 with the least [int64_t] as
    time): these are the divisions [total_time_ns / dimension] of the
    column ns/op.  A report without suites is covered. *)
Theorem to_text_writes_the_table (fixed : nat -> double -> string)
    (rpt : report) :
  Forall (fun s => Forall (fun bm => Forall renderable (data bm)) (benchmarks s))
         (suites rpt) ->
  exists text, to_text fixed rpt = Done text.
Proof.
  intros Hall.
  destruct (to_text_outcome fixed rpt) as [[_ Hdone]|[Hsome _]]; [exact Hdone|].
  exfalso. apply Exists_exists in Hsome as (s & Hs & Hsome).
  apply Exists_exists in Hsome as (bm & Hbm & Hsome).
  apply Exists_exists in Hsome as (d & Hd & Hbad).
  rewrite Forall_forall in Hall. specialize (Hall s Hs).
  rewrite Forall_forall in Hall. specialize (Hall bm Hbm).
  rewrite Forall_forall in Hall. exact (Hbad (Hall d Hd)).
Qed.

Lemma to_text_writes_the_table_example :
  Forall (fun s => Forall (fun bm => Forall renderable (data bm)) (benchmarks s))
         (suites report_without_baseline) /\
  exists text, to_text (fun _ _ => "") report_without_baseline = Done text.
Proof.
  assert (Hall : Forall (fun s => Forall (fun bm => Forall renderable (data bm))
                                         (benchmarks s))
                        (suites report_without_baseline)).
  { repeat constructor; cbn; [discriminate | intros [_ H]; discriminate]. }
  split; [exact Hall|].
  exact (to_text_writes_the_table (fun _ _ => "") report_without_baseline Hall).
Defined.

(** X15.  [to_text] divides by the workload size: on a report with a
    data entry of size 0, wherever it stands, the division
    [bm.total_time_ns / ps.first] is a division by zero.  The runner
    takes the sizes as they are configured, so a benchmark with
    [iterations({0})] leads here. *)
Theorem to_text_divides_by_the_size (fixed : nat -> double -> string)
    (rpt : report) :
  Exists (fun s => Exists (fun bm => Exists (fun d => ~ renderable d) (data bm))
                          (benchmarks s))
         (suites rpt) ->
  to_text fixed rpt = Fault division_by_zero.
Proof.
  intros Hsome.
  destruct (to_text_outcome fixed rpt) as [[Hall _]|[_ Hfault]]; [|exact Hfault].
  exfalso. apply Exists_exists in Hsome as (s & Hs & Hsome).
  apply Exists_exists in Hsome as (bm & Hbm & Hsome).
  apply Exists_exists in Hsome as (d & Hd & Hbad).
  rewrite Forall_forall in Hall. specialize (Hall s Hs).
  rewrite Forall_forall in Hall. specialize (Hall bm Hbm).
  rewrite Forall_forall in Hall. exact (Hbad (Hall d Hd)).
Qed.

Lemma to_text_divides_by_the_size_example :
  Exists (fun s => Exists (fun bm => Exists (fun d => ~ renderable d) (data bm))
                          (benchmarks s))
         (suites report_with_size_zero) /\
  to_text (fun _ _ => "") report_with_size_zero = Fault division_by_zero.
Proof.
  assert (Hsome : Exists (fun s => Exists (fun bm => Exists (fun d => ~ renderable d)
                                                            (data bm))
                                          (benchmarks s))
                         (suites report_with_size_zero)).
  { left. left. right. left. intros [H _]. apply H. reflexivity. }
  split; [exact Hsome|].
  exact (to_text_divides_by_the_size (fun _ _ => "") report_with_size_zero Hsome).
Defined.

(** *** The concise view *)

Lemma mapM_total {A B} (f : A -> outcome B) (l : list A) :
  Forall (fun x => exists y, f x = Done y) l -> exists ys, mapM f l = Done ys.
Proof.
  induction 1 as [|x l [y Hx] _ [ys Hl]]; [exists []; reflexivity|].
  exists (y :: ys). apply mapM_cons_Done; assumption.
Qed.

Lemma find_baseline_benchmark_Some (bms : list report_benchmark) :
  forall k, find_baseline_benchmark bms = Some k ->
            exists base, bms !! k = Some base /\ is_baseline base = true.
Proof.
  induction bms as [|bm rest IH]; intros k Hk; [discriminate|].
  cbn [find_baseline_benchmark] in Hk. destruct (is_baseline bm) eqn:Hbm.
  - injection Hk as <-. exists bm. auto.
  - destruct (find_baseline_benchmark rest) as [k'|]; [|discriminate].
    injection Hk as <-. apply (IH k' eq_refl).
Qed.

Lemma find_baseline_benchmark_None (bms : list report_benchmark) :
  find_baseline_benchmark bms = None <->
  Forall (fun bm => is_baseline bm = false) bms.
Proof.
  induction bms as [|bm rest IH]; [split; [constructor | reflexivity]|].
  cbn [find_baseline_benchmark]. rewrite Forall_cons, <- IH.
  destruct (is_baseline bm); [split; [discriminate | intros [? _]; discriminate]|].
  destruct (find_baseline_benchmark rest); cbn; split; try discriminate; auto.
  intros [_ ?]. discriminate.
Qed.

Section ConciseFacts.

Variable fixed : nat -> double -> string.

Lemma to_text_concise_row_divisible (baseline : nat) (baseline_ns_per_op : Z)
    (j : nat) (bm : report_benchmark) :
  renderable_concise bm ->
  exists text,
    to_text_concise_row fixed baseline baseline_ns_per_op j bm = Done text.
Proof.
  intros H. unfold to_text_concise_row. cbn zeta.
  rewrite (int64_div_divisible _ _ H). eexists. reflexivity.
Qed.

Lemma to_text_concise_suite_outcome (s : report_suite) :
  Forall renderable_concise (benchmarks s) ->
  (Exists (fun bm => is_baseline bm = true) (benchmarks s) /\
   exists text, to_text_concise_suite fixed s = Done text) \/
  (Forall (fun bm => is_baseline bm = false) (benchmarks s) /\
   to_text_concise_suite fixed s = Fault null_pointer).
Proof.
  intros Hall. unfold to_text_concise_suite. cbn zeta.
  destruct (find_baseline_benchmark (benchmarks s)) as [k|] eqn:Hk.
  - left. destruct (find_baseline_benchmark_Some _ k Hk) as (base & Hbase & Hflag).
    split.
    { apply Exists_exists. exists base.
      split; [eapply list_elem_of_lookup_2; exact Hbase | exact Hflag]. }
    cbn [from_option mbind outcome_bind]. rewrite Hbase.
    cbn [from_option mbind outcome_bind].
    rewrite Forall_forall in Hall.
    rewrite (int64_div_divisible _ _
               (Hall base (list_elem_of_lookup_2 _ _ _ Hbase))).
    cbn [mbind outcome_bind].
    destruct (mapM_total
                (fun jbm : nat * report_benchmark =>
                   to_text_concise_row fixed k
                     (Z.quot (sum_total_time (data base))
                             (sum_dimension (data base))) jbm.1 jbm.2)
                (imap pair (benchmarks s))) as [rows Hrows].
    { rewrite Forall_forall. intros [j bm] Hin.
      apply elem_of_lookup_imap in Hin as (j' & bm' & Heq & Hj).
      injection Heq as -> ->. cbn [fst snd].
      apply to_text_concise_row_divisible, Hall.
      eapply list_elem_of_lookup_2. exact Hj. }
    rewrite Hrows. eexists. reflexivity.
  - right. split; [apply find_baseline_benchmark_None; exact Hk | reflexivity].
Qed.

Lemma to_text_concise_outcome (rpt : report) :
  Forall (fun s => Forall renderable_concise (benchmarks s)) (suites rpt) ->
  (Forall (fun s => Exists (fun bm => is_baseline bm = true) (benchmarks s))
          (suites rpt) /\
   exists text, to_text_concise fixed rpt = Done text) \/
  (Exists (fun s => Forall (fun bm => is_baseline bm = false) (benchmarks s))
          (suites rpt) /\
   to_text_concise fixed rpt = Fault null_pointer).
Proof.
  intros Hall. unfold to_text_concise.
  destruct (mapM_Done_or_Fault (to_text_concise_suite fixed) null_pointer
              (suites rpt))
    as [[Hdone [texts Htexts]]|[Hsome Htexts]].
  - eapply Forall_impl; [exact Hall|]. cbn. intros s Hs.
    destruct (to_text_concise_suite_outcome s Hs) as [[_ H]|[_ H]]; auto.
  - left. split; [|rewrite Htexts; eexists; reflexivity].
    rewrite Forall_forall in Hall, Hdone. rewrite Forall_forall. intros s Hs.
    destruct (to_text_concise_suite_outcome s (Hall s Hs)) as [[H _]|[_ H]];
      [exact H|].
    destruct (Hdone s Hs) as [text Htext]. rewrite Htext in H. discriminate.
  - right. split; [|rewrite Htexts; reflexivity].
    rewrite Forall_forall in Hall.
    apply Exists_exists in Hsome as (s & Hs & Hfault).
    apply Exists_exists. exists s. split; [exact Hs|].
    destruct (to_text_concise_suite_outcome s (Hall s Hs)) as [[_ [text H]]|[H _]];
      [|exact H].
    rewrite H in Hfault. discriminate.
Qed.

End ConciseFacts.

(** X16.  [to_text_concise] writes its table when every suite of the
    report has a benchmark flagged as baseline and, for every benchmark,
    the sum of its workload sizes (as an [int]) is a number the sum of
    its times can be divided by. *)
Theorem to_text_concise_writes_the_table (fixed : nat -> double -> string)
    (rpt : report) :
  Forall (fun s => Exists (fun bm => is_baseline bm = true) (benchmarks s) /\
                   Forall renderable_concise (benchmarks s))
         (suites rpt) ->
  exists text, to_text_concise fixed rpt = Done text.
Proof.
  intros Hall.
  destruct (to_text_concise_outcome fixed rpt) as [[_ Hdone]|[Hsome _]];
    [|exact Hdone|].
  - eapply Forall_impl; [exact Hall|]. cbn. intros s [_ H]. exact H.
  - exfalso. apply Exists_exists in Hsome as (s & Hs & Hnone).
    rewrite Forall_forall in Hall. destruct (Hall s Hs) as [Hbase _].
    apply Exists_exists in Hbase as (bm & Hbm & Hflag).
    rewrite Forall_forall in Hnone. rewrite (Hnone bm Hbm) in Hflag. discriminate.
Qed.

Lemma to_text_concise_writes_the_table_example :
  Forall (fun s => Exists (fun bm => is_baseline bm = true) (benchmarks s) /\
                   Forall renderable_concise (benchmarks s))
         (suites report_with_size_zero) /\
  exists text, to_text_concise (fun _ _ => "") report_with_size_zero = Done text.
Proof.
  assert (Hall : Forall (fun s => Exists (fun bm => is_baseline bm = true)
                                         (benchmarks s) /\
                                  Forall renderable_concise (benchmarks s))
                        (suites report_with_size_zero)).
  { constructor; [|constructor]. split; [left; reflexivity|].
    constructor; [|constructor]. split; [vm_compute; discriminate|].
    vm_compute. intros [_ H]. discriminate. }
  split; [exact Hall|].
  exact (to_text_concise_writes_the_table (fun _ _ => "") report_with_size_zero Hall).
Defined.

(** X17.  [to_text_concise] needs a baseline in every suite: the
    assertion on [baseline] is a debug assertion, and on a report with a
    suite in which no benchmark is flagged (a suite without benchmarks
    is one) the loop over [baseline->data] dereferences a null pointer.
    The divisions are assumed to be defined, so that this is the fault
    the view meets. *)
Theorem to_text_concise_needs_a_baseline (fixed : nat -> double -> string)
    (rpt : report) :
  Forall (fun s => Forall renderable_concise (benchmarks s)) (suites rpt) ->
  Exists (fun s => Forall (fun bm => is_baseline bm = false) (benchmarks s))
         (suites rpt) ->
  to_text_concise fixed rpt = Fault null_pointer.
Proof.
  intros Hall Hsome.
  destruct (to_text_concise_outcome fixed rpt Hall) as [[Hbase _]|[_ Hfault]];
    [|exact Hfault].
  exfalso. apply Exists_exists in Hsome as (s & Hs & Hnone).
  rewrite Forall_forall in Hbase. specialize (Hbase s Hs).
  apply Exists_exists in Hbase as (bm & Hbm & Hflag).
  rewrite Forall_forall in Hnone. rewrite (Hnone bm Hbm) in Hflag. discriminate.
Qed.

Lemma to_text_concise_needs_a_baseline_example :
  Forall (fun s => Forall renderable_concise (benchmarks s))
         (suites report_without_baseline) /\
  Exists (fun s => Forall (fun bm => is_baseline bm = false) (benchmarks s))
         (suites report_without_baseline) /\
  to_text_concise (fun _ _ => "") report_without_baseline = Fault null_pointer.
Proof.
  assert (Hall : Forall (fun s => Forall renderable_concise (benchmarks s))
                        (suites report_without_baseline)).
  { constructor; [|constructor]. constructor; [|constructor].
    split; [vm_compute; discriminate|]. vm_compute. intros [_ H]. discriminate. }
  assert (Hsome : Exists (fun s => Forall (fun bm => is_baseline bm = false)
                                          (benchmarks s))
                         (suites report_without_baseline)).
  { left. constructor; [reflexivity | constructor]. }
  split; [exact Hall|]. split; [exact Hsome|].
  exact (to_text_concise_needs_a_baseline (fun _ _ => "") report_without_baseline
           Hall Hsome).
Defined.

(** ** main *)

Lemma sum_dimension_sizes (states : list state) (sizes : list Z) :
  Forall (fun dim => 0 < dim) sizes ->
  foldr Z.add 0 sizes <= int_max ->
  sum_dimension (summary states <$> sizes) = foldr Z.add 0 sizes.
Proof.
  intros Hpos Hmax. unfold sum_dimension.
  enough (Hacc : forall acc, 0 <= acc -> acc + foldr Z.add 0 sizes <= int_max ->
            fold_left (fun total_iterations d =>
                         wrap_int (total_iterations + dimension d))
                      (summary states <$> sizes) acc =
              acc + foldr Z.add 0 sizes).
  { rewrite Hacc by lia. lia. }
  clear Hmax. induction Hpos as [|dim rest Hdim Hrest IH]; intros acc Hacc Hmax.
  - cbn. lia.
  - cbn [fmap list_fmap fold_left foldr summary dimension] in Hmax |- *.
    assert (0 <= foldr Z.add 0 rest).
    { clear -Hrest. induction Hrest; cbn [foldr]; lia. }
    rewrite wrap_int_small by (unfold int_min; lia).
    rewrite IH by lia. lia.
Qed.

Lemma sizes_positive_renderable (states : list state) (sizes : list Z) :
  sizes <> [] ->
  Forall (fun dim => 0 < dim) sizes ->
  foldr Z.add 0 sizes <= int_max ->
  Forall renderable (summary states <$> sizes) /\
  divisible (sum_total_time (summary states <$> sizes))
            (sum_dimension (summary states <$> sizes)).
Proof.
  intros Hne Hpos Hmax. split.
  - rewrite Forall_fmap. eapply Forall_impl; [exact Hpos|]. cbn.
    intros dim Hdim. unfold renderable, divisible. cbn [summary dimension]. lia.
  - rewrite (sum_dimension_sizes states sizes Hpos Hmax).
    assert (0 < foldr Z.add 0 sizes).
    { destruct Hpos as [|dim rest Hdim Hrest]; [contradiction|].
      assert (0 <= foldr Z.add 0 rest).
      { clear -Hrest. induction Hrest; cbn [foldr]; lia. }
      cbn [foldr]. lia. }
    unfold divisible. lia.
Qed.

Lemma count_baselines_pos {World : Type} (objs : list (benchmark_impl World))
    (suite : list pointer) :
  (0 < count_baselines objs suite)%nat ->
  exists p, p ∈ suite /\ flagged objs p = true.
Proof.
  unfold count_baselines. intros Hcount.
  destruct (filter (fun p => flagged objs p = true) suite) as [|p rest] eqn:Hfilter;
    [cbn in Hcount; lia|].
  assert (Hp : p ∈ filter (fun p => flagged objs p = true) suite)
    by (rewrite Hfilter; left).
  apply list_elem_of_filter in Hp as [Hflag Hp]. exists p. auto.
Qed.

Section MainFacts.

Context {World : Type} {clock : high_res_clock World}.
Variable uint_fast32_bits : Z.

#[local] Abbreviation benchmark_impl := (benchmark_impl World).
#[local] Abbreviation registry := (registry World).

Implicit Types (reg : registry) (r : runner).

(** The entries of the report of a run, in terms of the registry the
    run started from. *)
Lemma run_benchmarks_entries (fuel : nat) r (random_seed random_device : Z)
    reg (w : World) :
  registry_wf reg ->
  every_registered (runnable r) reg ->
  every_registered (accountable r) reg ->
  (workload r reg <= fuel)%nat ->
  exists objs0 rpt reg' w' log,
    collect_benchmarks (_suites reg) (_objects reg) [] =
      Done (objs0, registered reg) /\
    run_benchmarks uint_fast32_bits fuel r random_seed random_device reg w =
      Done (rpt, reg', w', log) /\
    Forall2 (fun (suite : option string * list pointer) (rs : report_suite) =>
               Forall2 (fun p rb =>
                          exists b states',
                            p ∈ registered reg /\
                            _objects reg !! p = Some b /\
                            rb = {| benchmark_name := _name b;
                                    is_baseline := flagged objs0 p;
                                    data := summary states' <$>
                                              effective_state_iterations r b |})
                       suite.2 (benchmarks rs))
            (_suites reg) (suites rpt).
Proof.
  intros Hwf Hrunnable Haccountable Hfuel.
  destruct (run_benchmarks_spec uint_fast32_bits fuel r random_seed random_device
              reg w Hwf Hrunnable Haccountable Hfuel)
    as (objs0 & objs' & w' & log & rpt & Hcollect & _ & Hrun & Hreports & _ & _ & _ & Hspec).
  exists objs0, rpt, (set_objects objs' reg), w', log.
  split; [exact Hcollect|]. split; [exact Hrun|].
  unfold reports in Hreports.
  apply Forall2_same_length_lookup. split; [eapply Forall2_length; exact Hreports|].
  intros i [n suite] rs Hsuite Hrs.
  destruct (Forall2_lookup_lr _ _ _ _ _ _ Hreports Hsuite Hrs) as [_ Hbs].
  cbn [snd] in *.
  apply Forall2_same_length_lookup. split; [eapply Forall2_length; exact Hbs|].
  intros j p rb Hp Hrb.
  destruct (Forall2_lookup_lr _ _ _ _ _ _ Hbs Hp Hrb) as (b' & Hb' & ->).
  assert (Hreg : p ∈ registered reg).
  { apply (elem_of_suites (_suites reg) n suite p).
    - eapply list_elem_of_lookup_2. exact Hsuite.
    - eapply list_elem_of_lookup_2. exact Hp. }
  destruct (registered_live reg p Hwf Hreg) as [b Hb].
  destruct (Hspec p b Hreg Hb) as (states0 & states' & _ & Hb'' & _).
  rewrite Hb' in Hb''. injection Hb'' as ->.
  exists b, states'. split; [exact Hreg|]. split; [exact Hb|]. reflexivity.
Qed.

(** X18.  [main] writes both views.  On a registry as registration
    builds it (live and distinct pointers, no suite without benchmarks)
    whose benchmarks return, can be counted and have positive workload
    sizes with a sum that is an [int], the run returns a report,
    [to_text] and [to_text_concise] both write their tables, and the
    output of [main] is the two texts one after the other: no division
    meets a zero and every suite has the baseline the concise view
    dereferences. *)
Theorem main_writes_both_views (fixed : nat -> double -> string) (fuel : nat)
    (random_device : Z) reg (w : World) :
  registry_wf reg ->
  Forall (fun suite : option string * list pointer => suite.2 <> [])
         (_suites reg) ->
  every_registered (runnable new_runner) reg ->
  every_registered (accountable new_runner) reg ->
  every_registered (sizes_positive new_runner) reg ->
  (workload new_runner reg <= fuel)%nat ->
  exists rpt reg' w' log detailed concise,
    run_benchmarks uint_fast32_bits fuel new_runner (-1) random_device reg w =
      Done (rpt, reg', w', log) /\
    to_text fixed rpt = Done detailed /\
    to_text_concise fixed rpt = Done concise /\
    main uint_fast32_bits fixed fuel random_device reg w =
      Done (detailed +:+ concise, reg', w').
Proof.
  intros Hwf Hnonempty Hrunnable Haccountable Hsizes Hfuel.
  destruct (run_benchmarks_entries fuel new_runner (-1) random_device reg w
              Hwf Hrunnable Haccountable Hfuel)
    as (objs0 & rpt & reg' & w' & log & Hcollect & Hrun & Hentries).
  assert (Hdivisions :
            Forall (fun s => Forall (fun bm => Forall renderable (data bm) /\
                                               renderable_concise bm)
                                    (benchmarks s))
                   (suites rpt)).
  { rewrite Forall_forall. intros rs Hrs.
    apply list_elem_of_lookup in Hrs as [i Hrs].
    destruct (Forall2_lookup_r _ _ _ _ _ Hentries Hrs) as (suite & _ & Hbs).
    rewrite Forall_forall. intros rb Hrb.
    apply list_elem_of_lookup in Hrb as [j Hrb].
    destruct (Forall2_lookup_r _ _ _ _ _ Hbs Hrb)
      as (p & _ & b & states' & Hp & Hb & ->).
    unfold every_registered in Hrunnable, Hsizes.
    rewrite Forall_forall in Hrunnable. rewrite Forall_forall in Hsizes.
    destruct (Hrunnable p Hp b Hb) as (_ & Hne & _).
    destruct (Hsizes p Hp b Hb) as [Hpos Hmax].
    unfold renderable_concise. cbn [data].
    apply sizes_positive_renderable; assumption. }
  assert (Hbaselines :
            Forall (fun s => Exists (fun bm => is_baseline bm = true) (benchmarks s))
                   (suites rpt)).
  { destruct (collect_benchmarks_baselines (_suites reg) (_objects reg) []
                (proj1 Hwf) (proj2 Hwf)) as (objs0' & Hcollect' & Hcounts).
    cbn [app] in Hcollect'. fold (registered reg) in Hcollect'.
    rewrite Hcollect in Hcollect'. injection Hcollect' as <-.
    rewrite Forall_forall. intros rs Hrs.
    apply list_elem_of_lookup in Hrs as [i Hrs].
    destruct (Forall2_lookup_r _ _ _ _ _ Hentries Hrs) as (suite & Hsuite & Hbs).
    apply list_elem_of_lookup_2 in Hsuite.
    rewrite Forall_forall in Hnonempty, Hcounts.
    destruct (Hcounts suite Hsuite (Hnonempty suite Hsuite)) as [Hcount _].
    destruct (count_baselines_pos objs0 suite.2) as (p & Hp & Hflag); [lia|].
    apply list_elem_of_lookup in Hp as [j Hp].
    destruct (Forall2_lookup_l _ _ _ _ _ Hbs Hp)
      as (rb & Hrb & b & states' & _ & _ & ->).
    apply Exists_exists. eexists. split; [eapply list_elem_of_lookup_2; exact Hrb|].
    exact Hflag. }
  destruct (to_text_outcome fixed rpt) as [[_ [detailed Hdetailed]]|[Hsome _]]; cycle 1.
  { exfalso. apply Exists_exists in Hsome as (s & Hs & Hsome).
    apply Exists_exists in Hsome as (bm & Hbm & Hsome).
    apply Exists_exists in Hsome as (d & Hd & Hbad).
    rewrite Forall_forall in Hdivisions. specialize (Hdivisions s Hs).
    rewrite Forall_forall in Hdivisions. destruct (Hdivisions bm Hbm) as [Hall _].
    rewrite Forall_forall in Hall. exact (Hbad (Hall d Hd)). }
  destruct (to_text_concise_outcome fixed rpt) as [[_ [concise Hconcise]]|[Hsome _]].
  { eapply Forall_impl; [exact Hdivisions|]. cbn. intros s Hs.
    eapply Forall_impl; [exact Hs|]. cbn. intros bm [_ H]. exact H. }
  - exists rpt, reg', w', log, detailed, concise.
    split; [exact Hrun|]. split; [exact Hdetailed|]. split; [exact Hconcise|].
    unfold main. rewrite Hrun. cbn [mbind outcome_bind].
    rewrite Hdetailed. cbn [mbind outcome_bind]. rewrite Hconcise. reflexivity.
  - exfalso. apply Exists_exists in Hsome as (s & Hs & Hnone).
    rewrite Forall_forall in Hbaselines. specialize (Hbaselines s Hs).
    apply Exists_exists in Hbaselines as (bm & Hbm & Hflag).
    rewrite Forall_forall in Hnone. rewrite (Hnone bm Hbm) in Hflag. discriminate.
Qed.

End MainFacts.

Lemma scenario_sizes_positive :
  every_registered (sizes_positive new_runner) scenario.
Proof.
  each_registered.
  all: split; [repeat constructor | vm_compute; discriminate].
Qed.

Lemma main_writes_both_views_at_scenario :
  registry_wf scenario /\
  Forall (fun suite : option string * list pointer => suite.2 <> [])
         (_suites scenario) /\
  every_registered (runnable new_runner) scenario /\
  every_registered (accountable new_runner) scenario /\
  every_registered (sizes_positive new_runner) scenario /\
  (workload new_runner scenario <= 2)%nat /\
  exists text reg' w',
    main 64 (fun _ _ => "") 2 0 scenario {| now := 0 |} = Done (text, reg', w').
Proof.
  assert (Hnonempty : Forall (fun suite : option string * list pointer =>
                                suite.2 <> [])
                             (_suites scenario)).
  { constructor; [discriminate | constructor]. }
  split; [exact scenario_wf|]. split; [exact Hnonempty|].
  split; [exact scenario_runnable|]. split; [exact scenario_accountable|].
  split; [exact scenario_sizes_positive|]. split; [vm_compute; lia|].
  destruct (main_writes_both_views 64 (fun _ _ => "") 2 0 scenario {| now := 0 |}
              scenario_wf Hnonempty scenario_runnable scenario_accountable
              scenario_sizes_positive ltac:(vm_compute; lia))
    as (rpt & reg' & w' & log & detailed & concise & _ & _ & _ & Hmain).
  exists (detailed +:+ concise), reg', w'. exact Hmain.
Defined.

(** ** A benchmark without states *)

Section SchedulerFaults.

Context {World : Type} {clock : high_res_clock World}.
Variable uint_fast32_bits : Z.

#[local] Abbreviation benchmark_impl := (benchmark_impl World).
#[local] Abbreviation registry := (registry World).

Implicit Types (reg : registry) (r : runner) (objs : list benchmark_impl).

(** The pick of a benchmark whose cursor is at the end. *)
Lemma schedule_past_the_end (fuel : nat) (benchmarks : list pointer) objs rnd
    (w : World) (log : list execution) p b :
  benchmarks !! Z.to_nat ((minstd_rand_next rnd).1 mod Z.of_nat (length benchmarks))
    = Some p ->
  objs !! p = Some b ->
  (length (_states b) <= _istate b)%nat ->
  schedule (S fuel) benchmarks objs rnd w log = Fault past_the_end.
Proof.
  intros Hp Hb Hend.
  destruct benchmarks as [|q0 rest] eqn:Hbs; [discriminate|]. rewrite <- Hbs in *.
  cbn [schedule]. rewrite Hbs at 1. cbn [minstd_rand_next fst snd] in *.
  rewrite Hp. cbn [from_option mbind outcome_bind].
  unfold deref. rewrite Hb. cbn [from_option mbind outcome_bind].
  rewrite (lookup_ge_None_2 _ _ Hend). reflexivity.
Qed.

(** As long as a benchmark with its cursor at the end is in the working
    set, the loop cannot finish: it is left only by being picked. *)
Lemma schedule_exhausted (fuel : nat) :
  forall (benchmarks : list pointer) objs rnd (w : World) (log : list execution),
    NoDup benchmarks ->
    Forall (fun p => exists b,
              objs !! p = Some b /\
              Forall (fun s => runs_on (_proc b) (iterations s))
                     (drop (_istate b) (_states b)))
           benchmarks ->
    (exists q b, q ∈ benchmarks /\ objs !! q = Some b /\
                 (length (_states b) <= _istate b)%nat) ->
    (sum_list_with (pending objs) benchmarks < fuel)%nat ->
    schedule fuel benchmarks objs rnd w log = Fault past_the_end.
Proof.
  induction fuel as [|fuel IH];
    intros benchmarks objs rnd w log Hnodup Hinv (q & bq & Hq & Hbq & Hqend) Hfuel;
    [lia|].
  assert (Hne : benchmarks <> []) by (intros ->; inversion Hq).
  set (i := Z.to_nat ((minstd_rand_next rnd).1 mod Z.of_nat (length benchmarks))).
  destruct (pick_in_range (minstd_rand_next rnd).1 benchmarks Hne) as [p Hp].
  fold i in Hp.
  assert (Hpin : p ∈ benchmarks) by (eapply list_elem_of_lookup_2; exact Hp).
  pose proof Hinv as Hinv'. rewrite Forall_forall in Hinv'.
  destruct (Hinv' p Hpin) as (b & Hb & Hruns).
  destruct (decide (length (_states b) <= _istate b)%nat) as [Hend|Hlt].
  { exact (schedule_past_the_end fuel benchmarks objs rnd w log p b Hp Hb Hend). }
  apply Nat.nle_gt in Hlt.
  assert (Hqp : q <> p).
  { intros ->. rewrite Hb in Hbq. injection Hbq as ->. lia. }
  destruct (lookup_lt_is_Some_2 (_states b) (_istate b) Hlt) as [s Hs].
  rewrite (drop_S _ _ _ Hs) in Hruns.
  inversion Hruns as [|? ? Hrun_s Hruns']; subst.
  destruct (Hrun_s s w eq_refl) as (s' & w' & Hrun).
  rewrite (schedule_step fuel benchmarks objs rnd w w' log i p b s s'
             Hne eq_refl Hp Hb Hs Hrun).
  set (states1 := <[_istate b := s']> (_states b)).
  set (b1 := set_states states1 (S (_istate b)) b).
  set (objs1 := <[p := b1]> objs).
  assert (Hlive : (p < length objs)%nat) by (eapply lookup_lt_Some; exact Hb).
  assert (Hb1 : objs1 !! p = Some b1) by (apply list_lookup_insert_eq; exact Hlive).
  assert (Hother : forall q', q' <> p -> objs1 !! q' = objs !! q').
  { intros q' Hq'. apply list_lookup_insert_ne. congruence. }
  assert (Hpend_other : forall q', q' <> p -> pending objs1 q' = pending objs q').
  { intros q' Hq'. unfold pending. rewrite Hother by exact Hq'. reflexivity. }
  assert (Hpend : pending objs p = S (pending objs1 p)).
  { unfold pending. rewrite Hb, Hb1. cbn. unfold states1.
    rewrite length_insert. lia. }
  destruct (NoDup_delete_inv benchmarks i p Hnodup Hp) as [Hp_gone Hnodup_del].
  assert (Hsum : sum_list_with (pending objs) benchmarks =
                 S (pending objs1 p + sum_list_with (pending objs1) (delete i benchmarks))).
  { rewrite (delete_Permutation benchmarks i p Hp) at 1. cbn.
    rewrite Hpend. cbn. do 2 f_equal. apply sum_list_with_ext_in.
    intros q' Hq'. symmetry. apply Hpend_other. intros ->. exact (Hp_gone Hq'). }
  assert (Hdrop1 : drop (S (_istate b)) states1 = drop (S (_istate b)) (_states b))
    by (apply drop_insert_lt; lia).
  assert (Hkept : forall q', q' ∈ benchmarks -> q' <> p -> q' ∈ delete i benchmarks).
  { intros q' Hq' Hq'p. rewrite (delete_Permutation benchmarks i p Hp) in Hq'.
    apply elem_of_cons in Hq' as [?|?]; [contradiction | assumption]. }
  assert (Hinv_other : forall q', q' ∈ benchmarks -> q' <> p ->
            exists bq', objs1 !! q' = Some bq' /\
              Forall (fun s => runs_on (_proc bq') (iterations s))
                     (drop (_istate bq') (_states bq'))).
  { intros q' Hq' Hq'p. rewrite Hother by exact Hq'p. apply Hinv', Hq'. }
  assert (Hbq1 : objs1 !! q = Some bq) by (rewrite Hother by exact Hqp; exact Hbq).
  destruct (decide (S (_istate b) = length (_states b))) as [Hlast|Hmore].
  - apply IH; [exact Hnodup_del | | |lia].
    + rewrite Forall_forall. intros q' Hq'.
      apply Hinv_other; [eapply list_elem_of_delete_inv; exact Hq'|].
      intros ->. exact (Hp_gone Hq').
    + exists q, bq. split; [apply Hkept; assumption|]. split; assumption.
  - apply IH; [exact Hnodup | | |].
    + rewrite Forall_forall. intros q' Hq'.
      destruct (decide (q' = p)) as [->|Hq'p]; [|apply Hinv_other; assumption].
      exists b1. split; [exact Hb1|]. cbn [b1 set_states _istate _states _proc].
      rewrite Hdrop1. exact Hruns'.
    + exists q, bq. split; [exact Hq|]. split; assumption.
    + rewrite (delete_Permutation benchmarks i p Hp). cbn. lia.
Qed.

Lemma generated_nil r (b : benchmark_impl) :
  effective_samples r b <= 0 \/ effective_state_iterations r b = [] ->
  generated r b = [].
Proof.
  intros H. apply length_zero_iff_nil. rewrite length_generated.
  destruct H as [H|H]; [|rewrite H; reflexivity].
  replace (Z.to_nat (effective_samples r b)) with O by lia. lia.
Qed.

(** X19.  A benchmark that gets no state makes the run undefined.  When
    a registered benchmark has no states left over and either an
    effective sample count that is not positive or no workload size at
    all, its state vector is empty after the initialisation; the
    scheduling loop cannot end before it has picked that benchmark, and
    then [*b->_istate] reads the end of the empty vector.  This is so
    for every seed, as soon as the callables of the benchmarks
    return. *)
Theorem run_without_states_is_undefined (fuel : nat) r
    (random_seed random_device : Z) reg (w : World) q b :
  registry_wf reg ->
  every_registered
    (fun b => Forall (fun s => runs_on (_proc b) (iterations s))
                     (_states b ++ generated r b)) reg ->
  q ∈ registered reg ->
  _objects reg !! q = Some b ->
  _states b = [] ->
  effective_samples r b <= 0 \/ effective_state_iterations r b = [] ->
  (workload r reg < fuel)%nat ->
  run_benchmarks uint_fast32_bits fuel r random_seed random_device reg w =
    Fault past_the_end.
Proof.
  intros Hwf Hruns Hq Hb Hempty Hnone Hfuel.
  destruct (prepare_spec uint_fast32_bits r random_seed random_device reg Hwf)
    as (objs0 & objs1 & rnd1 & _ & Hprepare & _ & _ & Hspec1).
  unfold run_benchmarks, execute. rewrite Hprepare. cbn [mbind outcome_bind].
  unfold every_registered in Hruns. rewrite Forall_forall in Hruns.
  rewrite (schedule_exhausted fuel (registered reg) objs1 rnd1 w []);
    [reflexivity | apply Hwf | | |].
  - rewrite Forall_forall. intros p Hp.
    destruct (registered_live reg p Hwf Hp) as [bp Hbp].
    destruct (Hspec1 p bp Hp Hbp) as (states0 & Hb1 & Hperm).
    eexists. split; [exact Hb1|]. cbn [set_states _istate _states _proc drop].
    rewrite Hperm. exact (Hruns p Hp bp Hbp).
  - destruct (Hspec1 q b Hq Hb) as (states0 & Hb1 & Hperm).
    eexists q, _. split; [exact Hq|]. split; [exact Hb1|].
    cbn [set_states _istate _states].
    rewrite Hperm, Hempty, (generated_nil r b Hnone). cbn. lia.
  - eapply Nat.le_lt_trans; [|exact Hfuel]. unfold workload.
    apply Nat.eq_le_incl, sum_list_with_ext_in. intros p Hp.
    destruct (registered_live reg p Hwf Hp) as [bp Hbp].
    destruct (Hspec1 p bp Hp Hbp) as (states0 & Hb1 & Hperm).
    unfold pending. rewrite Hb1, Hbp. cbn [set_states _istate _states].
    rewrite Hperm. lia.
Qed.

End SchedulerFaults.

Lemma run_without_states_is_undefined_at_negative_samples :
  registry_wf negative_samples /\
  every_registered
    (fun b => Forall (fun s => runs_on (_proc b) (iterations s))
                     (_states b ++ generated new_runner b)) negative_samples /\
  1%nat ∈ registered negative_samples /\
  (workload new_runner negative_samples < 2)%nat /\
  run_benchmarks 64 2 new_runner 42 0 negative_samples {| now := 0 |} =
    Fault past_the_end.
Proof.
  assert (Hwf : registry_wf negative_samples).
  { split; [apply (bool_decide_unpack _); vm_compute; exact I|].
    repeat constructor. }
  assert (Hruns : every_registered
            (fun b => Forall (fun s => runs_on (_proc b) (iterations s))
                             (_states b ++ generated new_runner b))
            negative_samples).
  { each_registered.
    all: repeat constructor; apply sleeper_runs_on; cbn; unfold int_max; lia. }
  assert (Hq : 1%nat ∈ registered negative_samples) by (right; left).
  assert (Hfuel : (workload new_runner negative_samples < 2)%nat)
    by (vm_compute; lia).
  split; [exact Hwf|]. split; [exact Hruns|]. split; [exact Hq|].
  split; [exact Hfuel|].
  refine (run_without_states_is_undefined 64 2 new_runner 42 0 negative_samples
            {| now := 0 |} 1%nat _ Hwf Hruns Hq eq_refl eq_refl _ Hfuel).
  left. vm_compute. discriminate.
Defined.
